(** * Product service: authentication and authorization core

    A shallow embedding of [auth.py], [main.py], [models.py] and
    [schemas.py] of the product service.  Python values are modelled by a
    small universe of values, dictionaries by finite maps with string keys,
    exceptions by an explicit result type with [try]/[except] written out,
    the relational store by explicit state passing.

    The two third-party libraries the service calls (python-jose for the
    tokens and passlib for the password digests) are modelled by their
    behaviour, as is what FastAPI does with the outcome of a handler; their
    cryptographic cores (the HMAC and the bcrypt function) and the Unicode
    tables of the interpreter stay abstract, every theorem holds for all of
    them. *)

From Stdlib Require Import ZArith String Ascii List Bool Lia.
From Stdlib Require Import DecimalString DecimalPos DecimalZ.
From stdpp Require Import base strings gmap list.

Local Open Scope Z_scope.
Local Open Scope string_scope.

(* ===================================================================== *)
(** * Python: exceptions, values, [str] and [int]                         *)
(* ===================================================================== *)

Module Py.

(** The exceptions the service can meet.  [HTTPException] is FastAPI's, it
    derives from [Exception] like every other one here; [JWTError] stands
    for jose's [JWTError] and its subclasses ([ExpiredSignatureError],
    [JWTClaimsError]); [OperationalError], [IntegrityError] and [DataError]
    are SQLAlchemy's, [UnknownHashError] is passlib's.  The text of an
    exception a library or a builtin raises is kept as far as it is fixed:
    where the library writes the offending value into it, the value is left
    out.  Of the errors passlib raises for a digest or a password it
    refuses, all of them [ValueError]s, the class is what is modelled: when
    a digest is wrong in more than one way the text is that of one of
    them. *)
Inductive exn : Type :=
| HTTPException (status_code : Z) (detail : string)
| JWTError (msg : string)
| ValueError (msg : string)
| TypeError (msg : string)
| OverflowError (msg : string)
| UnknownHashError (msg : string)
| OperationalError (msg : string)
| IntegrityError (msg : string)
| DataError (msg : string).

(** A computation either returns or raises. *)
Inductive result (A : Type) : Type :=
| Return (a : A)
| Raise (e : exn).
Arguments Return {A} a.
Arguments Raise {A} e.

Definition bind {A B} (m : result A) (k : A -> result B) : result B :=
  match m with
  | Return a => k a
  | Raise e => Raise e
  end.

(** [try: m except <class> as e: handler e], where [catches] decides
    [isinstance(e, <class>)]. *)
Definition try_except {A} (m : result A) (catches : exn -> bool)
    (handler : exn -> result A) : result A :=
  match m with
  | Return a => Return a
  | Raise e => if catches e then handler e else Raise e
  end.

(** [except Exception]: every exception of the model is an [Exception]. *)
Definition is_Exception (e : exn) : bool := true.

(** [except JWTError]. *)
Definition is_JWTError (e : exn) : bool :=
  match e with
  | JWTError _ => true
  | _ => false
  end.

(** [except ValueError]: [UnknownHashError] derives from [ValueError]. *)
Definition is_ValueError (e : exn) : bool :=
  match e with
  | ValueError _ | UnknownHashError _ => true
  | _ => false
  end.

Definition is_HTTPException (e : exn) : bool :=
  match e with
  | HTTPException _ _ => true
  | _ => false
  end.

(** What [int] makes of a float: its truncation towards zero when it is
    finite; [nan] and the infinities have none. *)
Inductive float_int : Type :=
| Finite (z : Z)
| NaN
| Infinity.

(** A float is observed by the program only through [str], [int] and its
    rendering as JSON: it is represented by its [repr] and by what [int]
    makes of it. *)
Record pyfloat : Type := { float_repr : string; float_trunc : float_int }.

Definition is_finite (f : pyfloat) : bool :=
  match float_trunc f with
  | Finite _ => true
  | _ => false
  end.

(** Python values.  A [datetime] is naive UTC, in microseconds since the
    epoch; a [timedelta] is a number of microseconds.  [VJson] is a JSON
    array or object, seen through its [repr]; [VOther] is any other
    object: [str] of it returns the given string or raises.  [int] raises
    on both. *)
Inductive value : Type :=
| VNone
| VBool (b : bool)
| VInt (z : Z)
| VFloat (f : pyfloat)
| VStr (s : string)
| VDatetime (us : Z)
| VJson (repr : string)
| VOther (str : option string).

Definition is_None (v : value) : bool :=
  match v with
  | VNone => true
  | _ => false
  end.

(** Numbers: the types a numeric identity can have. *)
Definition is_number (v : value) : bool :=
  match v with
  | VBool _ | VInt _ | VFloat _ => true
  | _ => false
  end.

(** [d.get(k)]: [None] when the key is absent. *)
Definition dict_get (d : gmap string value) (k : string) : value :=
  default VNone (d !! k).

(** ** [str] *)

Definition str_of_Z (z : Z) : string := NilZero.string_of_int (Z.to_int z).

(** The text [str] gives for a [datetime] is not modelled: the count of
    microseconds is printed in its place. *)
Definition str (v : value) : result string :=
  match v with
  | VNone => Return "None"
  | VBool true => Return "True"
  | VBool false => Return "False"
  | VInt z => Return (str_of_Z z)
  | VFloat f => Return (float_repr f)
  | VStr s => Return s
  | VDatetime us => Return (str_of_Z us)
  | VJson repr => Return repr
  | VOther (Some s) => Return s
  | VOther None => Raise (TypeError "__str__ returned non-string")
  end.

(** ** [int] on strings: surrounding white space, an optional sign, decimal
    digits with single underscores between digits.  A text is the bytes of
    its UTF-8 encoding.  Which characters beyond ASCII are decimal digits
    or white space is a matter of the Unicode tables of the interpreter:
    they are a parameter.  The bound recent interpreters put on the number
    of digits [int] and [str] convert (4300 unless configured) is not
    modelled. *)

(** What the Unicode tables say of a character beyond ASCII. *)
Inductive uclass : Type :=
| UDigit (d : nat)
| USpace
| UOther.

(** The tables: the class of a character, given by the bytes of its
    encoding. *)
Class UnicodeData : Type := unicode_class : string -> uclass.

Definition is_ascii (c : ascii) : bool := (nat_of_ascii c <? 128)%nat.

(** The second and later bytes of an encoded character. *)
Definition is_continuation (c : ascii) : bool :=
  let n := nat_of_ascii c in
  ((128 <=? n)%nat && (n <? 192)%nat).

Definition digit_char (d : nat) : ascii := ascii_of_nat (48 + d mod 10).

(** A character beyond ASCII becomes its ASCII digit or a space; at any
    other one the text ends in [?], which no number has. *)
Definition flush `{UnicodeData} (pending rest : string) : string :=
  match pending with
  | EmptyString => rest
  | _ =>
      match unicode_class pending with
      | UDigit d => String (digit_char d) rest
      | USpace => String " " rest
      | UOther => "?"
      end
  end.

(** The text with its decimal digits and white space brought to ASCII;
    [pending] holds the bytes read of a character beyond ASCII. *)
Fixpoint to_ascii_from `{UnicodeData} (pending s : string) : string :=
  match s with
  | EmptyString => flush pending EmptyString
  | String c r =>
      if is_continuation c then to_ascii_from (pending +:+ String c EmptyString) r
      else if is_ascii c then flush pending (String c (to_ascii_from EmptyString r))
      else flush pending (to_ascii_from (String c EmptyString) r)
  end.

Definition to_ascii `{UnicodeData} (s : string) : string :=
  to_ascii_from EmptyString s.

Definition is_space (c : ascii) : bool :=
  let n := nat_of_ascii c in
  ((9 <=? n)%nat && (n <=? 13)%nat) || (n =? 32)%nat.

Definition is_digit (c : ascii) : bool :=
  let n := nat_of_ascii c in
  (48 <=? n)%nat && (n <=? 57)%nat.

Fixpoint lstrip (s : string) : string :=
  match s with
  | String c r => if is_space c then lstrip r else s
  | EmptyString => EmptyString
  end.

Fixpoint rstrip (s : string) : string :=
  match s with
  | String c r =>
      match rstrip r with
      | EmptyString => if is_space c then EmptyString else String c EmptyString
      | r' => String c r'
      end
  | EmptyString => EmptyString
  end.

Definition strip (s : string) : string := rstrip (lstrip s).

(** Drops the underscores of a digit string; [None] unless every underscore
    stands between two digits and every other character is a digit.
    [prev] tells whether the previous character was a digit. *)
Fixpoint digits_of (prev : bool) (s : string) : option string :=
  match s with
  | EmptyString => if prev then Some EmptyString else None
  | String c r =>
      if is_digit c then option_map (String c) (digits_of true r)
      else if (Ascii.eqb c "_" && prev)%bool then
        match r with
        | String c' _ => if is_digit c' then digits_of false r else None
        | EmptyString => None
        end
      else None
  end.

Definition Z_of_digits (s : string) : option Z :=
  match digits_of false s with
  | Some ds => option_map Z.of_uint (NilEmpty.uint_of_string ds)
  | None => None
  end.

Definition int_of_str `{UnicodeData} (s : string) : option Z :=
  match strip (to_ascii s) with
  | String "-" r => option_map Z.opp (Z_of_digits r)
  | String "+" r => Z_of_digits r
  | r => Z_of_digits r
  end.

(** ** [int] *)
Definition int `{UnicodeData} (v : value) : result Z :=
  match v with
  | VNone => Raise (TypeError "int() argument must be a string or a number")
  | VBool b => Return (if b then 1 else 0)
  | VInt z => Return z
  | VFloat f =>
      match float_trunc f with
      | Finite z => Return z
      | NaN => Raise (ValueError "cannot convert float NaN to integer")
      | Infinity => Raise (OverflowError "cannot convert float infinity to integer")
      end
  | VStr s =>
      match int_of_str s with
      | Some z => Return z
      | None => Raise (ValueError "invalid literal for int() with base 10")
      end
  | VDatetime _ => Raise (TypeError "int() argument must be a string or a number")
  | VJson _ => Raise (TypeError "int() argument must be a string or a number")
  | VOther _ => Raise (TypeError "int() argument must be a string or a number")
  end.

(** [int] raises a [ValueError], a [TypeError] or an [OverflowError]. *)
Definition is_TypeError (e : exn) : bool :=
  match e with
  | TypeError _ => true
  | _ => false
  end.

Definition is_OverflowError (e : exn) : bool :=
  match e with
  | OverflowError _ => true
  | _ => false
  end.

End Py.

(** The [x ← m; k] notation of stdpp sequences computations that may
    raise. *)
#[global] Instance result_ret : MRet Py.result := @Py.Return.
#[global] Instance result_bind : MBind Py.result :=
  fun A B k m => Py.bind m k.

(* ===================================================================== *)
(** * models.py and schemas.py                                            *)
(* ===================================================================== *)

(** [class UserRole(str, PyEnum)]: the members compare equal to their
    string values. *)
Module UserRole.
Definition ADMIN : string := "admin".
Definition USER : string := "user".
End UserRole.

(** A row of the [users] table. *)
Module User.
Record t : Type := {
  id : Z;
  username : string;
  email : string;
  hashed_password : string;
  role : string;
  is_active : bool;
  created_at : Z
}.
End User.

(** A row of the [products] table. *)
Module Product.
Record t : Type := {
  id : Z;
  name : string;
  description : string;
  price : Py.pyfloat;
  stock : Z;
  created_at : Z;
  updated_at : Z
}.
End Product.

Module UserCreate.
Record t : Type := { username : string; email : string; password : string }.
End UserCreate.

Module UserLogin.
Record t : Type := { username : string; password : string }.
End UserLogin.

Module ProductCreate.
Record t : Type := {
  name : string;
  description : string;
  price : Py.pyfloat;
  stock : Z
}.
End ProductCreate.

(* ===================================================================== *)
(** * Tokens (python-jose) and digests (passlib): data                    *)
(* ===================================================================== *)

(** A signed token, seen through its three segments: the algorithm named by
    the header, the claims of the payload and the signature.  The base64url
    text of the segments is not modelled. *)
Record jws : Type := {
  jws_alg : string;
  jws_claims : gmap string Py.value;
  jws_signature : string
}.

(** The string a client presents: a three-segment token, or any other
    text. *)
Inductive token : Type :=
| Compact (j : jws)
| Malformed (raw : string).

(** [HTTPAuthorizationCredentials], as [HTTPBearer] extracts it from the
    [Authorization] header. *)
Module HTTPAuthorizationCredentials.
Record t : Type := {
  scheme : string;
  credentials : token
}.
End HTTPAuthorizationCredentials.

(** What a response carries: plain values, a token, objects and arrays. *)
#[warnings="-register-all"]
Inductive body : Type :=
| BValue (v : Py.value)
| BToken (t : token)
| BObject (fields : list (string * body))
| BArray (items : list body).

(** Every field name that occurs in a body, at any depth. *)
Fixpoint field_names (b : body) : list string :=
  match b with
  | BValue _ => []
  | BToken _ => []
  | BObject fields =>
      (fix names (l : list (string * body)) : list string :=
         match l with
         | [] => []
         | (k, v) :: l' => k :: (field_names v ++ names l')%list
         end) fields
  | BArray items =>
      (fix names (l : list body) : list string :=
         match l with
         | [] => []
         | v :: l' => (field_names v ++ names l')%list
         end) items
  end.

(** [class UserResponse(UserBase)] with [from_attributes = True]: the fields
    are those of [UserBase] followed by its own. *)
Module UserResponse.
Record t : Type := {
  username : string;
  email : string;
  id : Z;
  role : string;
  is_active : bool;
  created_at : Z
}.

Definition model_validate (u : User.t) : t :=
  {| username := User.username u;
     email := User.email u;
     id := User.id u;
     role := User.role u;
     is_active := User.is_active u;
     created_at := User.created_at u |}.

Definition model_dump (r : t) : body :=
  BObject [ ("username", BValue (Py.VStr (username r)));
            ("email", BValue (Py.VStr (email r)));
            ("id", BValue (Py.VInt (id r)));
            ("role", BValue (Py.VStr (role r)));
            ("is_active", BValue (Py.VBool (is_active r)));
            ("created_at", BValue (Py.VDatetime (created_at r))) ].
End UserResponse.

(** [class ProductResponse(ProductBase)]. *)
Module ProductResponse.
Record t : Type := {
  name : string;
  description : string;
  price : Py.pyfloat;
  stock : Z;
  id : Z;
  created_at : Z;
  updated_at : Z
}.

Definition model_validate (p : Product.t) : t :=
  {| name := Product.name p;
     description := Product.description p;
     price := Product.price p;
     stock := Product.stock p;
     id := Product.id p;
     created_at := Product.created_at p;
     updated_at := Product.updated_at p |}.

Definition model_dump (r : t) : body :=
  BObject [ ("name", BValue (Py.VStr (name r)));
            ("description", BValue (Py.VStr (description r)));
            ("price", BValue (Py.VFloat (price r)));
            ("stock", BValue (Py.VInt (stock r)));
            ("id", BValue (Py.VInt (id r)));
            ("created_at", BValue (Py.VDatetime (created_at r)));
            ("updated_at", BValue (Py.VDatetime (updated_at r))) ].
End ProductResponse.

(** [class TokenResponse(BaseModel)]. *)
Module TokenResponse.
Record t : Type := {
  access_token : token;
  token_type : string;
  user : UserResponse.t
}.

Definition model_dump (r : t) : body :=
  BObject [ ("access_token", BToken (access_token r));
            ("token_type", BValue (Py.VStr (token_type r)));
            ("user", UserResponse.model_dump (user r)) ].
End TokenResponse.

(* ===================================================================== *)
(** * database.py: the session                                            *)
(* ===================================================================== *)

(** The store as one request sees it: the two tables the handlers touch and
    whether the connection works.  The [orders] table is never accessed. *)
Record Session : Type := {
  users : list User.t;
  products : list Product.t;
  connected : bool
}.

(** [db.query(M).filter(p).first()]. *)
Definition query_first {A} (table : list A) (p : A -> bool) (db : Session)
    : Py.result (option A) :=
  if connected db then Py.Return (List.find p table)
  else Py.Raise (Py.OperationalError "could not connect to server").

(** [db.query(M).all()]. *)
Definition query_all {A} (table : list A) (db : Session)
    : Py.result (list A) :=
  if connected db then Py.Return table
  else Py.Raise (Py.OperationalError "could not connect to server").

(** The next value of an integer primary key. *)
Definition next_id (ids : list Z) : Z := 1 + fold_right Z.max 0 ids.

(** [unique=True] on [username] and [email]. *)
Definition violates_unique (u : User.t) (db : Session) : bool :=
  existsb (fun v => String.eqb (User.username v) (User.username u)
                    || String.eqb (User.email v) (User.email u)) (users db).

(** [db.add(u); db.commit(); db.refresh(u)] for a user whose [id] is still
    unset: the store assigns the key and checks the unique constraints. *)
Definition add_user (mk : Z -> User.t) (db : Session)
    : Py.result (Session * User.t) :=
  if connected db then
    let u := mk (next_id (map User.id (users db))) in
    if violates_unique u db then
      Py.Raise (Py.IntegrityError "duplicate key value violates unique constraint")
    else
      Py.Return ({| users := users db ++ [u];
                    products := products db;
                    connected := connected db |}, u)
  else Py.Raise (Py.OperationalError "could not connect to server").

(** What an [Integer] column holds. *)
Definition in_integer_range (z : Z) : bool :=
  (-2147483648 <=? z)%Z && (z <=? 2147483647)%Z.

Definition add_product (mk : Z -> Product.t) (db : Session)
    : Py.result (Session * Product.t) :=
  if connected db then
    let p := mk (next_id (map Product.id (products db))) in
    if in_integer_range (Product.stock p) then
      Py.Return ({| users := users db;
                    products := products db ++ [p];
                    connected := connected db |}, p)
    else Py.Raise (Py.DataError "integer out of range")
  else Py.Raise (Py.OperationalError "could not connect to server").

(** Sample cryptographic cores, used to run the service on concrete
    requests. *)
Definition sample_hs256 (key alg : string) (claims : gmap string Py.value)
    : string :=
  key +:+ "/" +:+ alg +:+ "/"
      +:+ Py.str_of_Z (Z.of_nat (size claims))
      +:+ match Py.str (Py.dict_get claims "sub") with
          | Py.Return s => "/" +:+ s
          | Py.Raise _ => ""
          end.

Definition sample_bcrypt (ident : string) (rounds : nat) (salt secret : string)
    : string :=
  String.rev secret +:+ "#" +:+ salt.

Definition sample_salt : string := "abcdefghijklmnopqrstuv".

Section Service.

(** The Unicode tables of the interpreter. *)
Context {unicode : Py.UnicodeData}.

(** The HMAC-SHA256 signature of a header and a payload under a key, and
    what bcrypt computes from an identifier, a cost, a salt and a secret. *)
Variable hs256 : string -> string -> gmap string Py.value -> string.
Variable bcrypt : string -> nat -> string -> string -> string.

(* ===================================================================== *)
(** * python-jose: [jwt.encode] and [jwt.decode]                          *)
(* ===================================================================== *)

(** [timegm(dt.utctimetuple())]: the whole seconds of a time stamp. *)
Definition timegm (us : Z) : Z := us / 1000000.

(** [jwt.encode] turns a [datetime] under [exp], [iat] or [nbf] into its
    whole seconds. *)
Definition int_date (claims : gmap string Py.value) (k : string)
    : gmap string Py.value :=
  match claims !! k with
  | Some (Py.VDatetime us) => <[k := Py.VInt (timegm us)]> claims
  | _ => claims
  end.

(** What [json.dumps] writes. *)
Definition json_serializable (v : Py.value) : bool :=
  match v with
  | Py.VDatetime _ | Py.VOther _ => false
  | _ => true
  end.

Definition jwt_encode (claims : gmap string Py.value) (key algorithm : string)
    : Py.result token :=
  let claims := int_date (int_date (int_date claims "exp") "iat") "nbf" in
  if bool_decide (map_Forall (fun _ v => json_serializable v = true) claims)
  then Py.Return (Compact {| jws_alg := algorithm;
                             jws_claims := claims;
                             jws_signature := hs256 key algorithm claims |})
  else Py.Raise (Py.TypeError "Object is not JSON serializable").

(** [int(claims[k])] as the validators of python-jose call it: they catch
    [ValueError] and turn it into a [JWTClaimsError]; a [TypeError] or an
    [OverflowError] of [int] leaves them as it is. *)
Definition claim_int (v : Py.value) (msg : string) : Py.result Z :=
  Py.try_except (Py.int v) Py.is_ValueError
    (fun _ => Py.Raise (Py.JWTError msg)).

(** The [iat] claim, when present, must read as an integer. *)
Definition validate_iat (claims : gmap string Py.value) : Py.result unit :=
  match claims !! "iat" with
  | None => Py.Return tt
  | Some v =>
      _ ← claim_int v "Issued At claim (iat) must be an integer.";
      Py.Return tt
  end.

(** The [nbf] claim, when present, must read as an integer that is not
    after the current whole second. *)
Definition validate_nbf (claims : gmap string Py.value) (now : Z)
    : Py.result unit :=
  match claims !! "nbf" with
  | None => Py.Return tt
  | Some v =>
      nbf ← claim_int v "Not Before claim (nbf) must be an integer.";
      if (timegm now <? nbf)%Z
      then Py.Raise (Py.JWTError "The token is not yet valid (nbf)")
      else Py.Return tt
  end.

(** The [exp] claim, when present, must read as an integer that is not
    before the current whole second. *)
Definition validate_exp (claims : gmap string Py.value) (now : Z)
    : Py.result unit :=
  match claims !! "exp" with
  | None => Py.Return tt
  | Some v =>
      exp ← claim_int v "Expiration Time claim (exp) must be an integer.";
      if (exp <? timegm now)%Z
      then Py.Raise (Py.JWTError "Signature has expired.")
      else Py.Return tt
  end.

(** No audience is given to [jwt.decode]: an [aud] claim, whatever it
    holds, is refused. *)
Definition validate_aud (claims : gmap string Py.value) : Py.result unit :=
  match claims !! "aud" with
  | None => Py.Return tt
  | Some (Py.VStr _) => Py.Raise (Py.JWTError "Invalid audience")
  | Some _ => Py.Raise (Py.JWTError "Invalid claim format in token")
  end.

(** The [sub] claim, when present, must be a string. *)
Definition validate_sub (claims : gmap string Py.value) : Py.result unit :=
  match claims !! "sub" with
  | None | Some (Py.VStr _) => Py.Return tt
  | Some _ => Py.Raise (Py.JWTError "Subject must be a string.")
  end.

(** The [jti] claim, when present, must be a string. *)
Definition validate_jti (claims : gmap string Py.value) : Py.result unit :=
  match claims !! "jti" with
  | None | Some (Py.VStr _) => Py.Return tt
  | Some _ => Py.Raise (Py.JWTError "JWT ID must be a string.")
  end.

(** No access token is given to [jwt.decode]: an [at_hash] claim is
    refused. *)
Definition validate_at_hash (claims : gmap string Py.value) : Py.result unit :=
  match claims !! "at_hash" with
  | None => Py.Return tt
  | Some _ =>
      Py.Raise (Py.JWTError
        "No access_token provided to compare against at_hash claim.")
  end.

(** The claims are checked in this order; no issuer is asked for, so [iss]
    is not looked at. *)
Definition validate_claims (claims : gmap string Py.value) (now : Z)
    : Py.result unit :=
  _ ← validate_iat claims;
  _ ← validate_nbf claims now;
  _ ← validate_exp claims now;
  _ ← validate_aud claims;
  _ ← validate_sub claims;
  _ ← validate_jti claims;
  validate_at_hash claims.

(** [jwt.decode(token, key, algorithms)] at time [now]: the claims, or a
    [JWTError] for a malformed token, an algorithm that is not allowed, a
    signature that does not match, or an invalid claim; what [int] raises
    on a claim other than a [ValueError] leaves it as it is. *)
Definition jwt_decode (t : token) (key : string) (algorithms : list string)
    (now : Z) : Py.result (gmap string Py.value) :=
  match t with
  | Malformed _ => Py.Raise (Py.JWTError "Not enough segments")
  | Compact j =>
      if negb (existsb (String.eqb (jws_alg j)) algorithms) then
        Py.Raise (Py.JWTError "The specified alg value is not allowed")
      else if negb (String.eqb (jws_signature j)
                      (hs256 key (jws_alg j) (jws_claims j))) then
        Py.Raise (Py.JWTError "Signature verification failed.")
      else
        _ ← validate_claims (jws_claims j) now;
        Py.Return (jws_claims j)
  end.

(* ===================================================================== *)
(** * passlib: [CryptContext(schemes=["bcrypt"])]                         *)
(* ===================================================================== *)

Fixpoint strip_prefix (p s : string) : option string :=
  match p, s with
  | EmptyString, _ => Some s
  | String a p', String b s' =>
      if Ascii.eqb a b then strip_prefix p' s' else None
  | String _ _, EmptyString => None
  end.

(** Every character of a text passes a test. *)
Fixpoint all_chars (p : ascii -> bool) (s : string) : bool :=
  match s with
  | EmptyString => true
  | String c r => p c && all_chars p r
  end.

(** The alphabet of bcrypt's base 64: [./] and the digits, the upper-case
    and the lower-case letters. *)
Definition bcrypt64 : list ascii :=
  list_ascii_of_string
    "./ABCDEFGHIJKLMNOPQRSTUVWXYZabcdefghijklmnopqrstuvwxyz0123456789".

Definition in_bcrypt64 (c : ascii) : bool := existsb (Ascii.eqb c) bcrypt64.

Definition bcrypt64_char (n : nat) : ascii := nth (n mod 64) bcrypt64 "."%char.

Fixpoint index_of (c : ascii) (l : list ascii) : nat :=
  match l with
  | [] => 0
  | a :: l' => if Ascii.eqb a c then 0%nat else S (index_of c l')
  end.

(** A character brought into the alphabet, and a text cut or filled up to
    [n] characters of the alphabet. *)
Definition to_bcrypt64 (c : ascii) : ascii :=
  if in_bcrypt64 c then c else bcrypt64_char (nat_of_ascii c).

Fixpoint fit (n : nat) (s : string) : string :=
  match n with
  | O => EmptyString
  | S n' =>
      match s with
      | EmptyString => String "." (fit n' EmptyString)
      | String c r => String (to_bcrypt64 c) (fit n' r)
      end
  end.

(** [bcrypt64.repair_unused]: the last character of a salt carries four
    bits that are not used, the last one of a checksum two; they are
    cleared ([unit] is 16 for a salt, 4 for a checksum). *)
Definition clear_unused (unit : nat) (c : ascii) : ascii :=
  bcrypt64_char (index_of c bcrypt64 / unit * unit).

Fixpoint repair_unused (unit : nat) (s : string) : string :=
  match s with
  | EmptyString => EmptyString
  | String c EmptyString => String (clear_unused unit c) EmptyString
  | String c r => String c (repair_unused unit r)
  end.

(** The checksum of a digest: the 31 characters bcrypt computes.  They
    encode 23 bytes, so they are of the alphabet and the two unused bits of
    the last one are clear. *)
Definition bcrypt_checksum (ident : string) (rounds : nat)
    (salt secret : string) : string :=
  repair_unused 4 (fit 31 (bcrypt ident rounds salt secret)).

(** The identifiers a bcrypt digest can start with. *)
Definition bcrypt_idents : list string :=
  ["$2$"; "$2a$"; "$2x$"; "$2y$"; "$2b$"].

Definition bcrypt_identify (h : string) : bool :=
  existsb (fun i => bool_decide (is_Some (strip_prefix i h))) bcrypt_idents.

(** A parsed digest; a configuration string has no checksum. *)
Record bcrypt_hash : Type := {
  bh_ident : string;
  bh_rounds : nat;
  bh_salt : string;
  bh_checksum : option string
}.

(** The text up to the first [$] and the text after it. *)
Fixpoint cut_at_dollar (s : string) : option (string * string) :=
  match s with
  | EmptyString => None
  | String c r =>
      if Ascii.eqb c "$" then Some (EmptyString, r)
      else match cut_at_dollar r with
           | Some (a, b) => Some (String c a, b)
           | None => None
           end
  end.

(** The cost: two digits, from [04] to [31]. *)
Definition parse_rounds (s : string) : Py.result nat :=
  match s with
  | String d1 (String d2 EmptyString) =>
      if Py.is_digit d1 && Py.is_digit d2 then
        let rounds := ((nat_of_ascii d1 - 48) * 10 + (nat_of_ascii d2 - 48))%nat in
        if (rounds <? 4)%nat then
          Py.Raise (Py.ValueError "rounds too low (bcrypt requires >= 4 rounds)")
        else if (31 <? rounds)%nat then
          Py.Raise (Py.ValueError "rounds too high (bcrypt requires <= 31 rounds)")
        else Py.Return rounds
      else Py.Raise (Py.ValueError "malformed bcrypt hash (malformed cost field)")
  | _ => Py.Raise (Py.ValueError "malformed bcrypt hash (malformed cost field)")
  end.

(** [bcrypt.from_string]: an identifier other than [$2x$], the cost, [$],
    22 characters of salt and, unless the text is a configuration string,
    31 characters of checksum, all of the alphabet.  Every refusal is a
    [ValueError]. *)
Definition bcrypt_from_string (h : string) : Py.result bcrypt_hash :=
  match List.find (fun i => bool_decide (is_Some (strip_prefix i h)))
                  bcrypt_idents with
  | None => Py.Raise (Py.ValueError "not a valid bcrypt hash")
  | Some ident =>
      if String.eqb ident "$2x$" then
        Py.Raise (Py.ValueError
          "crypt_blowfish's buggy '2x' hashes are not currently supported")
      else
        match cut_at_dollar (default EmptyString (strip_prefix ident h)) with
        | None => Py.Raise (Py.ValueError "not enough values to unpack")
        | Some (rounds_str, data) =>
            if negb (all_chars (fun c => negb (Ascii.eqb c "$")) data) then
              Py.Raise (Py.ValueError "too many values to unpack")
            else
              rounds ← parse_rounds rounds_str;
              let salt := substring 0 22 data in
              let chk := substring 22 (String.length data - 22) data in
              if negb (String.eqb chk EmptyString)
                 && negb (String.length chk =? 31)%nat then
                Py.Raise (Py.ValueError
                  "malformed bcrypt hash (checksum must be exactly 31 chars)")
              else if negb (all_chars in_bcrypt64 chk) then
                Py.Raise (Py.ValueError "invalid characters in bcrypt checksum")
              else if (String.length salt <? 22)%nat then
                Py.Raise (Py.ValueError
                  "salt too small (bcrypt requires exactly 22 chars)")
              else if negb (all_chars in_bcrypt64 salt) then
                Py.Raise (Py.ValueError "invalid characters in bcrypt salt")
              else
                Py.Return {| bh_ident := ident;
                             bh_rounds := rounds;
                             bh_salt := repair_unused 16 salt;
                             bh_checksum :=
                               if String.eqb chk EmptyString then None
                               else Some (repair_unused 4 chk) |}
        end
  end.

Definition MAX_PASSWORD_SIZE : nat := 4096.

(** The number of characters of a text: the bytes that begin one. *)
Fixpoint utf8_length (s : string) : nat :=
  match s with
  | EmptyString => 0
  | String c r =>
      if Py.is_continuation c then utf8_length r else S (utf8_length r)
  end.

(** [validate_secret]: a password of more than 4096 characters is
    refused. *)
Definition validate_secret (secret : string) : Py.result unit :=
  if (MAX_PASSWORD_SIZE <? utf8_length secret)%nat then
    Py.Raise (Py.ValueError "password exceeds maximum allowed size")
  else Py.Return tt.

Definition has_nul (secret : string) : bool :=
  negb (all_chars (fun c => negb (Ascii.eqb c Ascii.zero)) secret).

(** [_calc_checksum]: bcrypt takes no password with a NUL byte. *)
Definition calc_checksum (ident : string) (rounds : nat)
    (salt secret : string) : Py.result string :=
  if has_nul secret then
    Py.Raise (Py.ValueError "bcrypt does not allow NULL bytes in password")
  else Py.Return (bcrypt_checksum ident rounds salt secret).

(** [pwd_context.hash(secret)], with the characters passlib draws for the
    salt: they are brought to 22 characters of the alphabet, the unused
    bits of the last one cleared. *)
Definition pwd_context_hash (salt secret : string) : Py.result string :=
  _ ← validate_secret secret;
  let salt := repair_unused 16 (fit 22 salt) in
  checksum ← calc_checksum "$2b$" 12 salt secret;
  Py.Return ("$2b$12$" +:+ salt +:+ checksum).

(** [pwd_context.verify(secret, hash)]: a digest that no scheme of the
    context identifies raises [UnknownHashError]; a password or a bcrypt
    digest that is refused raises a [ValueError]. *)
Definition pwd_context_verify (secret hash : string) : Py.result bool :=
  if bcrypt_identify hash then
    _ ← validate_secret secret;
    parsed ← bcrypt_from_string hash;
    match bh_checksum parsed with
    | None =>
        Py.Raise (Py.ValueError
          "expected bcrypt hash, got bcrypt config string instead")
    | Some checksum =>
        computed ← calc_checksum (bh_ident parsed) (bh_rounds parsed)
                     (bh_salt parsed) secret;
        Py.Return (String.eqb computed checksum)
    end
  else Py.Raise (Py.UnknownHashError "hash could not be identified").

(* ===================================================================== *)
(** * auth.py                                                             *)
(* ===================================================================== *)

Definition SECRET_KEY : string := "your-secret-key-change-in-production".
Definition ALGORITHM : string := "HS256".
Definition ACCESS_TOKEN_EXPIRE_MINUTES : Z := 30.

(** [timedelta(minutes=m)]. *)
Definition timedelta_minutes (m : Z) : Z := m * 60 * 1000000.

Definition HTTP_401_UNAUTHORIZED : Z := 401.
Definition HTTP_403_FORBIDDEN : Z := 403.

Definition verify_password (plain_password hashed_password : string)
    : Py.result bool :=
  pwd_context_verify plain_password hashed_password.

Definition get_password_hash (salt password : string) : Py.result string :=
  pwd_context_hash salt password.

(** The truth value of an [Optional[timedelta]]: [None] and the zero
    duration are false. *)
Definition timedelta_truthy (d : option Z) : bool :=
  match d with
  | Some d => negb (d =? 0)%Z
  | None => false
  end.

(** The local [to_encode] of [create_access_token] when it reaches
    [jwt.encode]; [utcnow] is what [datetime.utcnow()] returns. *)
Definition to_encode_of (data : gmap string Py.value)
    (expires_delta : option Z) (utcnow : Z) : gmap string Py.value :=
  let to_encode := data in
  let to_encode :=
    match to_encode !! "sub" with
    | Some sub =>
        if negb (Py.is_None sub) then
          match Py.str sub with
          | Py.Return s => <["sub" := Py.VStr s]> to_encode
          | Py.Raise _ => delete "sub" to_encode
          end
        else to_encode
    | None => to_encode
    end in
  let expire :=
    if timedelta_truthy expires_delta
    then (utcnow + default 0 expires_delta)%Z
    else (utcnow + timedelta_minutes ACCESS_TOKEN_EXPIRE_MINUTES)%Z in
  <["exp" := Py.VDatetime expire]> to_encode.

Definition create_access_token (data : gmap string Py.value)
    (expires_delta : option Z) (utcnow : Z) : Py.result token :=
  jwt_encode (to_encode_of data expires_delta utcnow) SECRET_KEY ALGORITHM.

Definition verify_token (credentials : HTTPAuthorizationCredentials.t)
    (utcnow : Z) : Py.result (gmap string Py.value) :=
  let token := HTTPAuthorizationCredentials.credentials credentials in
  Py.try_except
    (payload ← jwt_decode token SECRET_KEY [ALGORITHM] utcnow;
     let sub_claim := Py.dict_get payload "sub" in
     if Py.is_None sub_claim then
       Py.Raise (Py.HTTPException HTTP_401_UNAUTHORIZED "Invalid token")
     else
       user_id ← Py.try_except (Py.int sub_claim) Py.is_Exception
                   (fun _ => Py.Raise (Py.HTTPException HTTP_401_UNAUTHORIZED
                                         "Invalid token subject"));
       Py.Return (<["user_id" := Py.VInt user_id]>
                    (<["role" := Py.dict_get payload "role"]> ∅)))
    Py.is_JWTError
    (fun _ => Py.Raise (Py.HTTPException HTTP_401_UNAUTHORIZED "Invalid token")).

(** [models.User.id == user_id] in a filter. *)
Definition id_equals (id : Z) (user_id : Py.value) : bool :=
  match user_id with
  | Py.VInt n => (id =? n)%Z
  | _ => false
  end.

Definition get_current_user (credentials : HTTPAuthorizationCredentials.t)
    (db : Session) (utcnow : Z) : Py.result User.t :=
  token_data ← verify_token credentials utcnow;
  let user_id := Py.dict_get token_data "user_id" in
  Py.try_except
    (user ← query_first (users db)
              (fun u => id_equals (User.id u) user_id) db;
     match user with
     | None =>
         Py.Raise (Py.HTTPException HTTP_401_UNAUTHORIZED "User not found")
     | Some user => Py.Return user
     end)
    Py.is_Exception
    (fun _ => Py.Raise (Py.HTTPException HTTP_401_UNAUTHORIZED
                          "User lookup failed")).

(** The body of [require_admin], on the user its dependency resolved. *)
Definition require_admin (user : User.t) : Py.result User.t :=
  if negb (String.eqb (User.role user) UserRole.ADMIN) then
    Py.Raise (Py.HTTPException HTTP_403_FORBIDDEN "Admin access required")
  else Py.Return user.

(** [Depends(auth.require_admin)]: [get_current_user], then the check. *)
Definition depends_require_admin (credentials : HTTPAuthorizationCredentials.t)
    (db : Session) (utcnow : Z) : Py.result User.t :=
  user ← get_current_user credentials db utcnow;
  require_admin user.

(* ===================================================================== *)
(** * main.py                                                             *)
(* ===================================================================== *)

Definition register (user : UserCreate.t) (db : Session) (salt : string)
    (utcnow : Z) : Py.result (Session * User.t) :=
  existing_user ← query_first (users db)
      (fun u => String.eqb (User.username u) (UserCreate.username user)) db;
  match existing_user with
  | Some _ => Py.Raise (Py.ValueError "User already exists")
  | None =>
      hashed_password ← get_password_hash salt (UserCreate.password user);
      add_user (fun id =>
                  {| User.id := id;
                     User.username := UserCreate.username user;
                     User.email := UserCreate.email user;
                     User.hashed_password := hashed_password;
                     User.role := UserRole.USER;
                     User.is_active := true;
                     User.created_at := utcnow |}) db
  end.

(** The dictionary [login] returns, before the response model filters it. *)
Record login_result : Type := {
  access_token : token;
  token_type : string;
  user : User.t
}.

Definition login (user_login : UserLogin.t) (db : Session) (utcnow : Z)
    : Py.result login_result :=
  user ← query_first (users db)
      (fun u => String.eqb (User.username u) (UserLogin.username user_login)) db;
  match user with
  | None => Py.Raise (Py.ValueError "Invalid credentials")
  | Some user =>
      ok ← verify_password (UserLogin.password user_login)
             (User.hashed_password user);
      if negb ok then Py.Raise (Py.ValueError "Invalid credentials")
      else
        access_token ← create_access_token
            (<["sub" := Py.VInt (User.id user)]>
               (<["role" := Py.VStr (User.role user)]> ∅)) None utcnow;
        Py.Return {| access_token := access_token;
                     token_type := "bearer";
                     user := user |}
  end.

Definition create_product (product : ProductCreate.t)
    (credentials : HTTPAuthorizationCredentials.t) (db : Session) (utcnow : Z)
    : Py.result (Session * Product.t) :=
  admin ← depends_require_admin credentials db utcnow;
  add_product (fun id =>
                 {| Product.id := id;
                    Product.name := ProductCreate.name product;
                    Product.description := ProductCreate.description product;
                    Product.price := ProductCreate.price product;
                    Product.stock := ProductCreate.stock product;
                    Product.created_at := utcnow;
                    Product.updated_at := utcnow |}) db.

Definition list_products (db : Session) : Py.result (list Product.t) :=
  query_all (products db) db.

Definition get_product (product_id : Z) (db : Session)
    : Py.result Product.t :=
  product ← query_first (products db)
      (fun p => (Product.id p =? product_id)%Z) db;
  match product with
  | None => Py.Raise (Py.ValueError "Product not found")
  | Some product => Py.Return product
  end.

(* ===================================================================== *)
(** * The HTTP edge                                                       *)
(* ===================================================================== *)

Record response : Type := { status_code : Z; content : body }.

(** What [JSONResponse] can render: a body without a float that is [nan]
    or infinite. *)
Fixpoint json_compliant (b : body) : bool :=
  match b with
  | BValue (Py.VFloat f) => Py.is_finite f
  | BValue _ => true
  | BToken _ => true
  | BObject fields =>
      (fix all (l : list (string * body)) : bool :=
         match l with
         | [] => true
         | (_, v) :: l' => json_compliant v && all l'
         end) fields
  | BArray items =>
      (fix all (l : list body) : bool :=
         match l with
         | [] => true
         | v :: l' => json_compliant v && all l'
         end) items
  end.

Definition internal_server_error : response :=
  {| status_code := 500;
     content := BValue (Py.VStr "Internal Server Error") |}.

(** What FastAPI answers for the outcome of a handler: the value through
    the response model, an [HTTPException] as its status and detail, any
    other exception as an internal server error ([main.py] registers no
    exception handler).  The answer is rendered after the handler has
    returned: a value that cannot be rendered is an internal server error
    too. *)
Definition respond {A} (dump : A -> body) (r : Py.result A) : response :=
  match r with
  | Py.Return a =>
      if json_compliant (dump a)
      then {| status_code := 200; content := dump a |}
      else internal_server_error
  | Py.Raise (Py.HTTPException status detail) =>
      {| status_code := status;
         content := BObject [("detail", BValue (Py.VStr detail))] |}
  | Py.Raise _ =>
      {| status_code := 500;
         content := BValue (Py.VStr "Internal Server Error") |}
  end.

(** A status a client is answered with for a request it got wrong. *)
Definition client_error (status : Z) : bool :=
  (400 <=? status)%Z && (status <? 500)%Z.

(** The routes of [main.py], each with a request that has passed the
    validation of its schema: a request that does not is answered by
    FastAPI before any handler runs. *)
Inductive request : Type :=
| GET_root
| POST_register (user : UserCreate.t)
| POST_login (user_login : UserLogin.t)
| POST_products (credentials : HTTPAuthorizationCredentials.t)
    (product : ProductCreate.t)
| GET_products
| GET_product (product_id : Z)
| GET_health.

(** What a request finds: the clock, the salt passlib would draw, and
    whether the store answers. *)
Record env : Type := { utcnow : Z; salt : string; store_up : bool }.

(** [get_db]: the session of one request. *)
Definition get_db (db : Session) (e : env) : Session :=
  {| users := users db; products := products db; connected := store_up e |}.

Definition token_response (r : login_result) : TokenResponse.t :=
  {| TokenResponse.access_token := access_token r;
     TokenResponse.token_type := token_type r;
     TokenResponse.user := UserResponse.model_validate (user r) |}.

(** The store a handler leaves behind: what it committed, or the store as
    it was when it raised. *)
Definition committed {A} (db : Session) (r : Py.result (Session * A))
    : Session :=
  match r with
  | Py.Return (db', _) => db'
  | Py.Raise _ => db
  end.

Definition returned {A} (r : Py.result (Session * A)) : Py.result A :=
  p ← r; Py.Return (snd p).

Definition handle (db : Session) (e : env) (req : request)
    : Session * response :=
  let s := get_db db e in
  match req with
  | GET_root =>
      (db, {| status_code := 200;
              content := BObject [("status", BValue (Py.VStr "OK"))] |})
  | POST_register user =>
      let r := register user s (salt e) (utcnow e) in
      (committed db r,
       respond (fun u => UserResponse.model_dump (UserResponse.model_validate u))
               (returned r))
  | POST_login user_login =>
      (db, respond (fun r => TokenResponse.model_dump (token_response r))
                   (login user_login s (utcnow e)))
  | POST_products credentials product =>
      let r := create_product product credentials s (utcnow e) in
      (committed db r,
       respond (fun p => ProductResponse.model_dump (ProductResponse.model_validate p))
               (returned r))
  | GET_products =>
      (db, respond (fun l => BArray (map (fun p => ProductResponse.model_dump
                                            (ProductResponse.model_validate p)) l))
                   (list_products s))
  | GET_product product_id =>
      (db, respond (fun p => ProductResponse.model_dump (ProductResponse.model_validate p))
                   (get_product product_id s))
  | GET_health =>
      (db, {| status_code := 200;
              content := BObject [("status", BValue (Py.VStr "healthy"))] |})
  end.

(** A run of the service: the requests in the order they are served. *)
Fixpoint serve (db : Session) (reqs : list (env * request))
    : Session * list response :=
  match reqs with
  | [] => (db, [])
  | (e, req) :: reqs' =>
      let '(db', resp) := handle db e req in
      let '(db'', resps) := serve db' reqs' in
      (db'', resp :: resps)
  end.

(** The store before any request. *)
Definition empty_store : Session :=
  {| users := []; products := []; connected := true |}.

(* ===================================================================== *)
(** * Lemmas on the Python layer                                          *)
(* ===================================================================== *)

Fixpoint all_digits (s : string) : bool :=
  match s with
  | EmptyString => true
  | String c r => Py.is_digit c && all_digits r
  end.

Lemma digit_not_space c : Py.is_digit c = true -> Py.is_space c = false.
Proof.
  unfold Py.is_digit, Py.is_space. intros H.
  apply andb_true_iff in H as [H1 H2].
  apply Nat.leb_le in H1. apply Nat.leb_le in H2.
  apply orb_false_iff. split.
  - apply andb_false_iff. right. apply Nat.leb_gt. lia.
  - apply Nat.eqb_neq. lia.
Qed.

Lemma all_digits_string_of_uint d :
  all_digits (NilEmpty.string_of_uint d) = true.
Proof. induction d; simpl; auto. Qed.

Lemma string_of_uint_nonempty d :
  d <> Decimal.Nil -> NilEmpty.string_of_uint d <> EmptyString.
Proof. destruct d; simpl; congruence. Qed.

Lemma lstrip_digits s : all_digits s = true -> Py.lstrip s = s.
Proof.
  destruct s as [|c r]; simpl; [reflexivity|].
  intros H. apply andb_true_iff in H as [Hc _].
  now rewrite (digit_not_space c Hc).
Qed.

Lemma rstrip_digits s : all_digits s = true -> Py.rstrip s = s.
Proof.
  induction s as [|c r IH]; simpl; [reflexivity|].
  intros H. apply andb_true_iff in H as [Hc Hr].
  rewrite (IH Hr). destruct r; [|reflexivity].
  now rewrite (digit_not_space c Hc).
Qed.

Lemma strip_digits s : all_digits s = true -> Py.strip s = s.
Proof.
  intros H. unfold Py.strip. rewrite (lstrip_digits s H).
  now apply rstrip_digits.
Qed.

Lemma digits_of_digits s :
  all_digits s = true -> Py.digits_of true s = Some s.
Proof.
  induction s as [|c r IH]; simpl; [reflexivity|].
  intros H. apply andb_true_iff in H as [Hc Hr].
  now rewrite Hc, (IH Hr).
Qed.

Lemma digits_of_nonempty s :
  all_digits s = true -> s <> EmptyString -> Py.digits_of false s = Some s.
Proof.
  destruct s as [|c r]; [congruence|]. simpl.
  intros H _. apply andb_true_iff in H as [Hc Hr].
  now rewrite Hc, (digits_of_digits r Hr).
Qed.

Lemma Z_of_digits_uint d :
  d <> Decimal.Nil ->
  Py.Z_of_digits (NilEmpty.string_of_uint d) = Some (Z.of_uint d).
Proof.
  intros Hd. unfold Py.Z_of_digits.
  rewrite (digits_of_nonempty _ (all_digits_string_of_uint d)
             (string_of_uint_nonempty d Hd)).
  now rewrite NilEmpty.usu.
Qed.

Lemma digit_is_ascii c :
  Py.is_digit c = true ->
  Py.is_continuation c = false /\ Py.is_ascii c = true.
Proof.
  unfold Py.is_digit, Py.is_continuation, Py.is_ascii. intros Hd.
  apply andb_true_iff in Hd as [H1 H2].
  apply Nat.leb_le in H1. apply Nat.leb_le in H2. split.
  - apply andb_false_iff. left. apply Nat.leb_gt. lia.
  - apply Nat.ltb_lt. lia.
Qed.

(** A text of digits is left as it is. *)
Lemma to_ascii_digits s : all_digits s = true -> Py.to_ascii s = s.
Proof.
  unfold Py.to_ascii. induction s as [|c r IH]; [reflexivity|].
  cbn [all_digits Py.to_ascii_from]. intros Hd.
  apply andb_true_iff in Hd as [Hc Hr].
  destruct (digit_is_ascii c Hc) as [-> ->].
  cbn [Py.flush]. now rewrite (IH Hr).
Qed.

Lemma digit_not_sign c :
  Py.is_digit c = true -> c <> "-"%char /\ c <> "+"%char.
Proof. intros H; split; intros ->; discriminate H. Qed.

Lemma int_of_str_uint d :
  d <> Decimal.Nil ->
  Py.int_of_str (NilEmpty.string_of_uint d) = Some (Z.of_uint d).
Proof.
  intros Hd. unfold Py.int_of_str.
  rewrite (to_ascii_digits _ (all_digits_string_of_uint d)).
  rewrite (strip_digits _ (all_digits_string_of_uint d)).
  rewrite <- (Z_of_digits_uint d Hd).
  pose proof (all_digits_string_of_uint d) as Hall.
  destruct (NilEmpty.string_of_uint d) as [|c r]; [reflexivity|].
  simpl in Hall. apply andb_true_iff in Hall as [Hc _].
  destruct (digit_not_sign c Hc) as [Hm Hp].
  destruct c as [[] [] [] [] [] [] [] []]; try reflexivity; congruence.
Qed.

Lemma int_of_str_minus d :
  d <> Decimal.Nil ->
  Py.int_of_str (String "-" (NilEmpty.string_of_uint d))
  = Some (- Z.of_uint d)%Z.
Proof.
  intros Hd. unfold Py.int_of_str, Py.strip.
  replace (Py.to_ascii (String "-" (NilEmpty.string_of_uint d)))
    with (String "-" (NilEmpty.string_of_uint d))
    by (unfold Py.to_ascii; cbn [Py.to_ascii_from];
        change (Py.is_continuation "-") with false;
        change (Py.is_ascii "-") with true; cbn [Py.flush];
        fold (Py.to_ascii (NilEmpty.string_of_uint d));
        now rewrite (to_ascii_digits _ (all_digits_string_of_uint d))).
  change (Py.lstrip (String "-" (NilEmpty.string_of_uint d)))
    with (String "-" (NilEmpty.string_of_uint d)).
  simpl Py.rstrip.
  rewrite (rstrip_digits _ (all_digits_string_of_uint d)).
  pose proof (string_of_uint_nonempty d Hd) as Hne.
  destruct (NilEmpty.string_of_uint d) as [|c r] eqn:E; [congruence|].
  rewrite <- E. now rewrite (Z_of_digits_uint d Hd).
Qed.

Lemma string_of_uint_nonnil d :
  d <> Decimal.Nil -> NilZero.string_of_uint d = NilEmpty.string_of_uint d.
Proof. destruct d; simpl; congruence. Qed.

(** [int(str(n)) == n] for every integer. *)
Lemma int_of_str_of_Z z : Py.int_of_str (Py.str_of_Z z) = Some z.
Proof.
  destruct z as [|p|p]; unfold Py.str_of_Z; simpl Z.to_int.
  - reflexivity.
  - pose proof (DecimalPos.Unsigned.to_uint_nonnil p) as Hn.
    unfold NilZero.string_of_int.
    rewrite (string_of_uint_nonnil _ Hn), (int_of_str_uint _ Hn).
    unfold Z.of_uint. now rewrite DecimalPos.Unsigned.of_to.
  - pose proof (DecimalPos.Unsigned.to_uint_nonnil p) as Hn.
    unfold NilZero.string_of_int.
    rewrite (string_of_uint_nonnil _ Hn), (int_of_str_minus _ Hn).
    unfold Z.of_uint. now rewrite DecimalPos.Unsigned.of_to.
Qed.

Lemma int_str_of_Z z : Py.int (Py.VStr (Py.str_of_Z z)) = Py.Return z.
Proof. simpl. now rewrite int_of_str_of_Z. Qed.

(* ===================================================================== *)
(** * Token verification                                                  *)
(* ===================================================================== *)

Definition invalid_token : Py.exn :=
  Py.HTTPException HTTP_401_UNAUTHORIZED "Invalid token".

Definition invalid_subject : Py.exn :=
  Py.HTTPException HTTP_401_UNAUTHORIZED "Invalid token subject".

(** The dictionary [verify_token] returns. *)
Definition token_data_of (user_id : Z) (role : Py.value)
    : gmap string Py.value :=
  <["user_id" := Py.VInt user_id]> (<["role" := role]> ∅).

(** An exception of [int] that the validators of python-jose and
    [verify_token] let through. *)
Definition unconverted (e : Py.exn) : bool :=
  Py.is_TypeError e || Py.is_OverflowError e.

Lemma int_raises v e :
  Py.int v = Py.Raise e -> Py.is_ValueError e = true \/ unconverted e = true.
Proof.
  destruct v as [|b|z|f|s|us|repr|o]; cbn [Py.int]; try discriminate;
    try (intros [= <-]; now right).
  - destruct (Py.float_trunc f); [discriminate| |]; intros [= <-]; auto.
  - destruct (Py.int_of_str s); [discriminate|]. intros [= <-]. now left.
Qed.

Lemma unconverted_not_JWTError e :
  unconverted e = true -> Py.is_JWTError e = false.
Proof. destruct e; try discriminate; reflexivity. Qed.

Lemma claim_int_raises v msg e :
  claim_int v msg = Py.Raise e ->
  Py.is_JWTError e = true \/ unconverted e = true.
Proof.
  unfold claim_int, Py.try_except.
  destruct (Py.int v) as [n|e'] eqn:E; [discriminate|].
  destruct (Py.is_ValueError e') eqn:Ev.
  - intros [= <-]. now left.
  - intros [= <-]. destruct (int_raises _ _ E); [congruence|now right].
Qed.

Lemma validate_iat_raises claims e :
  validate_iat claims = Py.Raise e ->
  Py.is_JWTError e = true \/ unconverted e = true.
Proof.
  unfold validate_iat. destruct (claims !! "iat") as [v|]; [|discriminate].
  destruct (claim_int v _) eqn:E; cbn [mbind result_bind Py.bind];
    [discriminate|].
  intros [= <-]. eapply claim_int_raises; eauto.
Qed.

Lemma validate_nbf_raises claims now e :
  validate_nbf claims now = Py.Raise e ->
  Py.is_JWTError e = true \/ unconverted e = true.
Proof.
  unfold validate_nbf. destruct (claims !! "nbf") as [v|]; [|discriminate].
  destruct (claim_int v _) eqn:E; cbn [mbind result_bind Py.bind].
  - destruct (_ <? _)%Z; [|discriminate]. intros [= <-]. now left.
  - intros [= <-]. eapply claim_int_raises; eauto.
Qed.

Lemma validate_exp_raises claims now e :
  validate_exp claims now = Py.Raise e ->
  Py.is_JWTError e = true \/ unconverted e = true.
Proof.
  unfold validate_exp. destruct (claims !! "exp") as [v|]; [|discriminate].
  destruct (claim_int v _) eqn:E; cbn [mbind result_bind Py.bind].
  - destruct (_ <? _)%Z; [|discriminate]. intros [= <-]. now left.
  - intros [= <-]. eapply claim_int_raises; eauto.
Qed.

Lemma validate_aud_raises claims e :
  validate_aud claims = Py.Raise e -> Py.is_JWTError e = true.
Proof.
  unfold validate_aud.
  destruct (claims !! "aud") as [[]|]; intros [= <-]; reflexivity.
Qed.

Lemma validate_sub_raises claims e :
  validate_sub claims = Py.Raise e -> Py.is_JWTError e = true.
Proof.
  unfold validate_sub.
  destruct (claims !! "sub") as [[]|]; intros [= <-]; reflexivity.
Qed.

Lemma validate_jti_raises claims e :
  validate_jti claims = Py.Raise e -> Py.is_JWTError e = true.
Proof.
  unfold validate_jti.
  destruct (claims !! "jti") as [[]|]; intros [= <-]; reflexivity.
Qed.

Lemma validate_at_hash_raises claims e :
  validate_at_hash claims = Py.Raise e -> Py.is_JWTError e = true.
Proof.
  unfold validate_at_hash.
  destruct (claims !! "at_hash"); intros [= <-]; reflexivity.
Qed.

Lemma validate_claims_raises claims now e :
  validate_claims claims now = Py.Raise e ->
  Py.is_JWTError e = true \/ unconverted e = true.
Proof.
  unfold validate_claims.
  destruct (validate_iat claims) as [[]|] eqn:E1;
    cbn [mbind result_bind Py.bind];
    [|intros [= <-]; eapply validate_iat_raises; eauto].
  destruct (validate_nbf claims now) as [[]|] eqn:E2;
    cbn [mbind result_bind Py.bind];
    [|intros [= <-]; eapply validate_nbf_raises; eauto].
  destruct (validate_exp claims now) as [[]|] eqn:E3;
    cbn [mbind result_bind Py.bind];
    [|intros [= <-]; eapply validate_exp_raises; eauto].
  destruct (validate_aud claims) as [[]|] eqn:E4;
    cbn [mbind result_bind Py.bind];
    [|intros [= <-]; left; eapply validate_aud_raises; eauto].
  destruct (validate_sub claims) as [[]|] eqn:E5;
    cbn [mbind result_bind Py.bind];
    [|intros [= <-]; left; eapply validate_sub_raises; eauto].
  destruct (validate_jti claims) as [[]|] eqn:E6;
    cbn [mbind result_bind Py.bind];
    [|intros [= <-]; left; eapply validate_jti_raises; eauto].
  intros E7. left. eapply validate_at_hash_raises; eauto.
Qed.

(** What the claims of a token have when their validation passes. *)
Lemma validate_claims_returns claims now :
  validate_claims claims now = Py.Return tt ->
  validate_exp claims now = Py.Return tt
  /\ validate_sub claims = Py.Return tt.
Proof.
  unfold validate_claims.
  destruct (validate_iat claims) as [[]|]; cbn [mbind result_bind Py.bind];
    [|discriminate].
  destruct (validate_nbf claims now) as [[]|]; cbn [mbind result_bind Py.bind];
    [|discriminate].
  destruct (validate_exp claims now) as [[]|]; cbn [mbind result_bind Py.bind];
    [|discriminate].
  destruct (validate_aud claims) as [[]|]; cbn [mbind result_bind Py.bind];
    [|discriminate].
  destruct (validate_sub claims) as [[]|]; cbn [mbind result_bind Py.bind];
    [|discriminate].
  auto.
Qed.

(** [jwt.decode] raises a [JWTError], or lets an exception of [int]
    through. *)
Lemma jwt_decode_raises t key algorithms now e :
  jwt_decode t key algorithms now = Py.Raise e ->
  Py.is_JWTError e = true \/ unconverted e = true.
Proof.
  unfold jwt_decode. destruct t as [j|raw]; [|intros [= <-]; now left].
  destruct (negb (existsb _ _)); [intros [= <-]; now left|].
  destruct (negb (String.eqb _ _)); [intros [= <-]; now left|].
  destruct (validate_claims (jws_claims j) now) as [[]|e1] eqn:E1;
    cbn [mbind result_bind Py.bind]; [discriminate|].
  intros [= <-]. eapply validate_claims_raises; eauto.
Qed.

(** What [jwt.decode] returns is the payload of the token. *)
Lemma jwt_decode_returns t key algorithms now payload :
  jwt_decode t key algorithms now = Py.Return payload ->
  exists j, t = Compact j /\ payload = jws_claims j
    /\ jws_signature j = hs256 key (jws_alg j) (jws_claims j).
Proof.
  unfold jwt_decode. destruct t as [j|raw]; [|discriminate].
  destruct (negb (existsb _ _)); [discriminate|].
  destruct (String.eqb _ _) eqn:Es; [|discriminate]. cbn [negb].
  destruct (validate_claims _ _) as [[]|]; cbn [mbind result_bind Py.bind];
    [|discriminate].
  intros [= <-]. exists j. apply String.eqb_eq in Es. auto.
Qed.

(** The subject of a decoded payload is a string, if there is one. *)
Lemma jwt_decode_sub t key algorithms now payload :
  jwt_decode t key algorithms now = Py.Return payload ->
  payload !! "sub" = None \/ exists s, payload !! "sub" = Some (Py.VStr s).
Proof.
  unfold jwt_decode. destruct t as [j|raw]; [|discriminate].
  destruct (negb (existsb _ _)); [discriminate|].
  destruct (negb (String.eqb _ _)); [discriminate|].
  destruct (validate_claims _ _) as [[]|] eqn:Ev;
    cbn [mbind result_bind Py.bind]; [|discriminate].
  intros [= <-]. apply validate_claims_returns in Ev as [_ Hs].
  unfold validate_sub in Hs.
  destruct (jws_claims j !! "sub") as [[]|]; try discriminate; eauto.
Qed.

Lemma verify_token_decode_error credentials now e :
  jwt_decode (HTTPAuthorizationCredentials.credentials credentials)
    SECRET_KEY [ALGORITHM] now = Py.Raise e ->
  Py.is_JWTError e = true ->
  verify_token credentials now = Py.Raise invalid_token.
Proof.
  intros Hd He. unfold verify_token. rewrite Hd.
  cbn [mbind result_bind Py.bind Py.try_except]. now rewrite He.
Qed.

Lemma verify_token_decode_unconverted credentials now e :
  jwt_decode (HTTPAuthorizationCredentials.credentials credentials)
    SECRET_KEY [ALGORITHM] now = Py.Raise e ->
  Py.is_JWTError e = false ->
  verify_token credentials now = Py.Raise e.
Proof.
  intros Hd He. unfold verify_token. rewrite Hd.
  cbn [mbind result_bind Py.bind Py.try_except]. now rewrite He.
Qed.

Lemma verify_token_decoded credentials now payload :
  jwt_decode (HTTPAuthorizationCredentials.credentials credentials)
    SECRET_KEY [ALGORITHM] now = Py.Return payload ->
  verify_token credentials now =
    if Py.is_None (Py.dict_get payload "sub") then Py.Raise invalid_token
    else match Py.int (Py.dict_get payload "sub") with
         | Py.Return n =>
             Py.Return (token_data_of n (Py.dict_get payload "role"))
         | Py.Raise _ => Py.Raise invalid_subject
         end.
Proof.
  intros Hd. unfold verify_token. rewrite Hd.
  cbn [mbind result_bind Py.bind].
  destruct (Py.is_None _); [reflexivity|].
  destruct (Py.int _); reflexivity.
Qed.

(** What leaves [verify_token]: one of its two 401s, or an exception of
    [int] that [jwt.decode] let through. *)
Lemma verify_token_raises credentials now e :
  verify_token credentials now = Py.Raise e ->
  e = invalid_token \/ e = invalid_subject \/ unconverted e = true.
Proof.
  destruct (jwt_decode (HTTPAuthorizationCredentials.credentials credentials)
              SECRET_KEY [ALGORITHM] now) as [payload|e'] eqn:E.
  - rewrite (verify_token_decoded _ _ _ E).
    destruct (Py.is_None _); [intros [= <-]; auto|].
    destruct (Py.int _); [discriminate|intros [= <-]; auto].
  - destruct (jwt_decode_raises _ _ _ _ _ E) as [He|He].
    + rewrite (verify_token_decode_error _ _ _ E He). intros [= <-]; auto.
    + rewrite (verify_token_decode_unconverted _ _ _ E
                 (unconverted_not_JWTError _ He)).
      intros [= <-]; auto.
Qed.

(** C4, as the code has it.  A malformed token, a token whose signature
    does not match and every token [jwt.decode] refuses with a [JWTError]
    are rejected as "Invalid token"; a token without a [sub] claim is
    rejected as "Invalid token"; a token whose [sub] is a string that [int]
    cannot read is rejected as "Invalid token subject", a different detail;
    otherwise the result is the integer user id with the role exactly as
    the claims carry it.  A [sub] that is present and is no string, [null]
    included, never ends as "Invalid token subject": [jwt.decode] refuses
    it.  And not every rejection is a 401: when [int] raises a [TypeError]
    or an [OverflowError] on the [exp], [nbf] or [iat] claim of a signed
    token, [jwt.decode] lets it through and so does [verify_token]. *)
Theorem verify_token_taxonomy
    (credentials : HTTPAuthorizationCredentials.t) (now : Z) :
  let token := HTTPAuthorizationCredentials.credentials credentials in
  let decoded := jwt_decode token SECRET_KEY [ALGORITHM] now in
  (forall raw, token = Malformed raw ->
     verify_token credentials now = Py.Raise invalid_token)
  /\ (forall j, token = Compact j ->
       jws_signature j <> hs256 SECRET_KEY (jws_alg j) (jws_claims j) ->
       verify_token credentials now = Py.Raise invalid_token)
  /\ (forall e, decoded = Py.Raise e -> Py.is_JWTError e = true ->
       verify_token credentials now = Py.Raise invalid_token)
  /\ (forall e, decoded = Py.Raise e -> Py.is_JWTError e = false ->
       verify_token credentials now = Py.Raise e
       /\ unconverted e = true)
  /\ (forall payload, decoded = Py.Return payload ->
       payload !! "sub" = None ->
       verify_token credentials now = Py.Raise invalid_token)
  /\ (forall payload s, decoded = Py.Return payload ->
       payload !! "sub" = Some (Py.VStr s) ->
       Py.int_of_str s = None ->
       verify_token credentials now = Py.Raise invalid_subject)
  /\ (forall payload s n, decoded = Py.Return payload ->
       payload !! "sub" = Some (Py.VStr s) ->
       Py.int_of_str s = Some n ->
       verify_token credentials now =
         Py.Return (token_data_of n (Py.dict_get payload "role")))
  /\ (forall payload, decoded = Py.Return payload ->
       payload !! "sub" = None
       \/ exists s, payload !! "sub" = Some (Py.VStr s))
  /\ (forall j v, token = Compact j ->
       jws_claims j !! "sub" = Some v ->
       (forall s, v <> Py.VStr s) ->
       exists e, verify_token credentials now = Py.Raise e
                 /\ e <> invalid_subject)
  /\ (forall e, verify_token credentials now = Py.Raise e ->
       e = invalid_token \/ e = invalid_subject \/ unconverted e = true)
  /\ invalid_subject <> invalid_token.
Proof.
  intros token decoded.
  split; [|split; [|split; [|split; [|split; [|split; [|split; [|split;
    [|split; [|split]]]]]]]]].
  - intros raw Ht.
    apply (verify_token_decode_error _ _ (Py.JWTError "Not enough segments"));
      [|reflexivity].
    fold token. now rewrite Ht.
  - intros j Ht Hs.
    destruct decoded as [payload|e] eqn:E; subst decoded.
    + apply jwt_decode_returns in E as (j' & Hj & _ & Hsig).
      fold token in Hj. rewrite Ht in Hj. injection Hj as <-. contradiction.
    + eapply verify_token_decode_error; [exact E|].
      unfold jwt_decode in E. fold token in E. rewrite Ht in E.
      destruct (negb (existsb _ _)); [now injection E as <-|].
      apply String.eqb_neq in Hs. rewrite Hs in E. now injection E as <-.
  - intros e E He. eapply verify_token_decode_error; eauto.
  - intros e E He. split.
    + eapply verify_token_decode_unconverted; eauto.
    + destruct (jwt_decode_raises _ _ _ _ _ E); [congruence|assumption].
  - intros payload E Hsub.
    rewrite (verify_token_decoded _ _ _ E). unfold Py.dict_get.
    now rewrite Hsub.
  - intros payload s E Hsub Hint.
    rewrite (verify_token_decoded _ _ _ E). unfold Py.dict_get at 1 2.
    rewrite Hsub. cbn [default from_option id Py.is_None Py.int].
    now rewrite Hint.
  - intros payload s n E Hsub Hint.
    rewrite (verify_token_decoded _ _ _ E). unfold Py.dict_get at 1 2.
    rewrite Hsub. cbn [default from_option id Py.is_None Py.int].
    now rewrite Hint.
  - intros payload E. eapply jwt_decode_sub; eauto.
  - intros j v Ht Hsub Hv.
    destruct decoded as [payload|e] eqn:E; subst decoded.
    + pose proof (jwt_decode_sub _ _ _ _ _ E) as Hs.
      apply jwt_decode_returns in E as (j' & Hj & -> & _).
      fold token in Hj. rewrite Ht in Hj. injection Hj as <-.
      rewrite Hsub in Hs. destruct Hs as [Hs|[s Hs]]; [discriminate|].
      injection Hs as ->. now destruct (Hv s).
    + destruct (jwt_decode_raises _ _ _ _ _ E) as [He|He].
      * exists invalid_token. split; [|discriminate].
        eapply verify_token_decode_error; eauto.
      * exists e. split.
        -- eapply verify_token_decode_unconverted; eauto.
           now apply unconverted_not_JWTError.
        -- intros ->. discriminate He.
  - apply verify_token_raises.
  - discriminate.
Qed.

(* ===================================================================== *)
(** * Identity resolution and the admin gate                              *)
(* ===================================================================== *)

Definition user_not_found : Py.exn :=
  Py.HTTPException HTTP_401_UNAUTHORIZED "User not found".

Definition user_lookup_failed : Py.exn :=
  Py.HTTPException HTTP_401_UNAUTHORIZED "User lookup failed".

Definition admin_required : Py.exn :=
  Py.HTTPException HTTP_403_FORBIDDEN "Admin access required".

(** The row the filter of [get_current_user] selects. *)
Definition user_by_id (user_id : Py.value) (db : Session) : option User.t :=
  List.find (fun u => id_equals (User.id u) user_id) (users db).

(** The store with its connection lost. *)
Definition disconnected (db : Session) : Session :=
  {| users := users db; products := products db; connected := false |}.

(** A change of role made in the store itself, behind the service. *)
Definition set_role (user_id : Z) (role : string) (db : Session) : Session :=
  {| users :=
       map (fun u =>
              if (User.id u =? user_id)%Z then
                {| User.id := User.id u;
                   User.username := User.username u;
                   User.email := User.email u;
                   User.hashed_password := User.hashed_password u;
                   User.role := role;
                   User.is_active := User.is_active u;
                   User.created_at := User.created_at u |}
              else u) (users db);
     products := products db;
     connected := connected db |}.

Lemma get_current_user_found credentials db now token_data u :
  verify_token credentials now = Py.Return token_data ->
  connected db = true ->
  user_by_id (Py.dict_get token_data "user_id") db = Some u ->
  get_current_user credentials db now = Py.Return u.
Proof.
  intros Hv Hc Hu. unfold get_current_user. rewrite Hv. simpl.
  unfold query_first. rewrite Hc. simpl.
  unfold user_by_id in Hu. now rewrite Hu.
Qed.

Lemma get_current_user_missing credentials db now token_data :
  verify_token credentials now = Py.Return token_data ->
  connected db = true ->
  user_by_id (Py.dict_get token_data "user_id") db = None ->
  get_current_user credentials db now = Py.Raise user_lookup_failed.
Proof.
  intros Hv Hc Hu. unfold get_current_user. rewrite Hv. simpl.
  unfold query_first. rewrite Hc. simpl.
  unfold user_by_id in Hu. now rewrite Hu.
Qed.

Lemma get_current_user_fault credentials db now token_data :
  verify_token credentials now = Py.Return token_data ->
  connected db = false ->
  get_current_user credentials db now = Py.Raise user_lookup_failed.
Proof.
  intros Hv Hc. unfold get_current_user. rewrite Hv. simpl.
  unfold query_first. now rewrite Hc.
Qed.

(** What leaves [get_current_user]: a 401, or an exception of [int] that
    [verify_token] let through. *)
Lemma get_current_user_raises credentials db now e :
  get_current_user credentials db now = Py.Raise e ->
  (exists detail, e = Py.HTTPException 401 detail) \/ unconverted e = true.
Proof.
  unfold get_current_user.
  destruct (verify_token credentials now) as [td|e'] eqn:Hv;
    cbn [mbind result_bind Py.bind].
  - unfold query_first. destruct (connected db);
      cbn [mbind result_bind Py.bind Py.try_except Py.is_Exception].
    + destruct (List.find _ _);
        cbn [Py.try_except Py.is_Exception]; [discriminate|].
      intros [= <-]. left. eexists; reflexivity.
    + intros [= <-]. left. eexists; reflexivity.
  - intros [= <-].
    destruct (verify_token_raises _ _ _ Hv) as [-> | [-> | He]];
      [left; eexists; reflexivity|left; eexists; reflexivity|now right].
Qed.

(** C1, as the code has it.  The role of the claims is returned by
    [verify_token] and then dropped: [get_current_user] keeps the user id
    only and returns the row the store holds now, and the admin gate tests
    the role of that row.  A request whose token verifies and whose user is
    in the store passes the gate exactly when the role stored now is
    [ADMIN], whatever role the token was issued with. *)
Theorem admin_gate_reads_stored_role
    (credentials : HTTPAuthorizationCredentials.t) (db : Session) (now : Z)
    (token_data : gmap string Py.value) (u : User.t) :
  verify_token credentials now = Py.Return token_data ->
  connected db = true ->
  user_by_id (Py.dict_get token_data "user_id") db = Some u ->
  get_current_user credentials db now = Py.Return u
  /\ depends_require_admin credentials db now =
       if String.eqb (User.role u) UserRole.ADMIN then Py.Return u
       else Py.Raise admin_required.
Proof.
  intros Hv Hc Hu.
  pose proof (get_current_user_found _ _ _ _ _ Hv Hc Hu) as Hg.
  split; [exact Hg|].
  unfold depends_require_admin. rewrite Hg. simpl. unfold require_admin.
  destruct (String.eqb _ _); reflexivity.
Qed.

(** C2, as the code has it.  A verified token whose user id has no row in
    the store does not end as "User not found": that exception is raised
    inside the [try] whose handler catches every [Exception], and leaves
    [get_current_user] as "User lookup failed", the very exception a lost
    connection produces. *)
Theorem missing_user_is_lookup_failed
    (credentials : HTTPAuthorizationCredentials.t) (db : Session) (now : Z)
    (token_data : gmap string Py.value) :
  verify_token credentials now = Py.Return token_data ->
  connected db = true ->
  user_by_id (Py.dict_get token_data "user_id") db = None ->
  get_current_user credentials db now = Py.Raise user_lookup_failed
  /\ get_current_user credentials (disconnected db) now
     = Py.Raise user_lookup_failed
  /\ user_lookup_failed <> user_not_found.
Proof.
  intros Hv Hc Hu. split; [|split].
  - eapply get_current_user_missing; eauto.
  - eapply get_current_user_fault; eauto.
  - discriminate.
Qed.

(* ===================================================================== *)
(** * Password verification                                               *)
(* ===================================================================== *)

Lemma bcrypt_from_string_identified h parsed :
  bcrypt_from_string h = Py.Return parsed -> bcrypt_identify h = true.
Proof.
  unfold bcrypt_from_string, bcrypt_identify.
  destruct (List.find _ bcrypt_idents) as [i|] eqn:E; [|discriminate].
  intros _. apply find_some in E as [Hin Hi].
  apply existsb_exists. exists i. auto.
Qed.

Lemma bcrypt_from_string_raises h e :
  bcrypt_from_string h = Py.Raise e -> Py.is_ValueError e = true.
Proof.
  unfold bcrypt_from_string.
  destruct (List.find _ bcrypt_idents) as [i|]; [|now intros [= <-]].
  destruct (String.eqb i "$2x$"); [now intros [= <-]|].
  destruct (cut_at_dollar _) as [[rounds_str data]|]; [|now intros [= <-]].
  destruct (negb (all_chars _ data)); [now intros [= <-]|].
  destruct (parse_rounds rounds_str) as [rounds|e'] eqn:R;
    cbn [mbind result_bind Py.bind].
  - repeat (match goal with
            | |- (if ?c then _ else _) = _ -> _ => destruct c
            end; [now intros [= <-]|]).
    discriminate.
  - intros [= <-]. unfold parse_rounds in R.
    destruct rounds_str as [|d1 [|d2 [|]]]; try (now injection R as <-).
    destruct (Py.is_digit d1 && Py.is_digit d2); [|now injection R as <-].
    destruct (_ <? 4)%nat; [now injection R as <-|].
    destruct (31 <? _)%nat; [now injection R as <-|discriminate].
Qed.

(** A password passlib takes: at most 4096 characters, no NUL byte. *)
Definition acceptable_secret (secret : string) : bool :=
  negb (MAX_PASSWORD_SIZE <? utf8_length secret)%nat && negb (has_nul secret).

Lemma validate_secret_acceptable secret :
  acceptable_secret secret = true -> validate_secret secret = Py.Return tt.
Proof.
  unfold acceptable_secret, validate_secret. intros Ha.
  apply andb_true_iff in Ha as [Ha _]. apply negb_true_iff in Ha.
  now rewrite Ha.
Qed.

Lemma calc_checksum_acceptable ident rounds salt0 secret :
  acceptable_secret secret = true ->
  calc_checksum ident rounds salt0 secret
  = Py.Return (bcrypt_checksum ident rounds salt0 secret).
Proof.
  unfold acceptable_secret, calc_checksum. intros Ha.
  apply andb_true_iff in Ha as [_ Ha]. apply negb_true_iff in Ha.
  now rewrite Ha.
Qed.

(** Verifying against a digest that parses, with a password passlib
    takes. *)
Lemma verify_password_parsed plain hashed parsed checksum :
  bcrypt_from_string hashed = Py.Return parsed ->
  bh_checksum parsed = Some checksum ->
  acceptable_secret plain = true ->
  verify_password plain hashed
  = Py.Return (String.eqb
                 (bcrypt_checksum (bh_ident parsed) (bh_rounds parsed)
                    (bh_salt parsed) plain)
                 checksum).
Proof.
  intros E Ec Ha. unfold verify_password, pwd_context_verify.
  rewrite (bcrypt_from_string_identified _ _ E), E.
  rewrite (validate_secret_acceptable _ Ha).
  cbn [mbind result_bind Py.bind]. rewrite Ec.
  now rewrite (calc_checksum_acceptable _ _ _ _ Ha).
Qed.

(** C8, as the code has it.  [verify_password] hands both arguments to the
    context and adds no handler.  It returns a boolean exactly when the
    digest is a bcrypt digest passlib parses, with its checksum, and the
    plaintext is one passlib takes: whether the checksum bcrypt computes
    for the plaintext under the identifier, the cost and the salt of the
    digest is the checksum of the digest.  In every other case it raises
    passlib's error, a [ValueError], and reports nothing. *)
Theorem verify_password_outcome (plain_password hashed_password : string) :
  match bcrypt_from_string hashed_password with
  | Py.Return parsed =>
      match bh_checksum parsed with
      | Some checksum =>
          if acceptable_secret plain_password then
            verify_password plain_password hashed_password
            = Py.Return (String.eqb
                           (bcrypt_checksum (bh_ident parsed) (bh_rounds parsed)
                              (bh_salt parsed) plain_password)
                           checksum)
          else
            exists e, verify_password plain_password hashed_password = Py.Raise e
                      /\ Py.is_ValueError e = true
      | None =>
          exists e, verify_password plain_password hashed_password = Py.Raise e
                    /\ Py.is_ValueError e = true
      end
  | Py.Raise _ =>
      exists e, verify_password plain_password hashed_password = Py.Raise e
                /\ Py.is_ValueError e = true
  end.
Proof.
  unfold verify_password, pwd_context_verify.
  destruct (bcrypt_from_string hashed_password) as [parsed|e0] eqn:E.
  - rewrite (bcrypt_from_string_identified _ _ E).
    destruct (bh_checksum parsed) as [checksum|] eqn:Ec.
    + destruct (acceptable_secret plain_password) eqn:Ha.
      * rewrite (validate_secret_acceptable _ Ha).
        cbn [mbind result_bind Py.bind]. rewrite Ec.
        rewrite (calc_checksum_acceptable _ _ _ _ Ha). reflexivity.
      * unfold validate_secret, calc_checksum.
        unfold acceptable_secret in Ha.
        destruct (MAX_PASSWORD_SIZE <? utf8_length plain_password)%nat;
          cbn [mbind result_bind Py.bind];
          [eexists; split; reflexivity|].
        rewrite Ec. cbn [negb andb] in Ha. apply negb_false_iff in Ha.
        rewrite Ha. cbn [mbind result_bind Py.bind].
        eexists; split; reflexivity.
    + unfold validate_secret.
      destruct (MAX_PASSWORD_SIZE <? utf8_length plain_password)%nat;
        cbn [mbind result_bind Py.bind]; [eexists; split; reflexivity|].
      rewrite Ec. eexists; split; reflexivity.
  - destruct (bcrypt_identify hashed_password);
      [|eexists; split; reflexivity].
    unfold validate_secret.
    destruct (MAX_PASSWORD_SIZE <? utf8_length plain_password)%nat;
      cbn [mbind result_bind Py.bind]; [eexists; split; reflexivity|].
    exists e0. split; [reflexivity|]. eapply bcrypt_from_string_raises; eauto.
Qed.

(* ===================================================================== *)
(** * Password hashing and the round trip                                 *)
(* ===================================================================== *)

Lemma string_length_app (s t : string) :
  String.length (s +:+ t) = (String.length s + String.length t)%nat.
Proof. induction s as [|c s IH]; simpl; [reflexivity|now rewrite IH]. Qed.

Lemma substring_all (t : string) : substring 0 (String.length t) t = t.
Proof. induction t as [|c t IH]; simpl; [reflexivity|now rewrite IH]. Qed.

Lemma substring_app_l (s t : string) :
  substring 0 (String.length s) (s +:+ t) = s.
Proof.
  induction s as [|c s IH]; simpl.
  - destruct t; reflexivity.
  - now rewrite IH.
Qed.

Lemma substring_app_r (s t : string) :
  substring (String.length s) (String.length t) (s +:+ t) = t.
Proof.
  induction s as [|c s IH]; simpl; [apply substring_all|exact IH].
Qed.

Lemma fit_length n s : String.length (fit n s) = n.
Proof.
  revert s. induction n as [|n IH]; intros [|c r]; cbn [fit String.length];
    auto.
Qed.

Lemma repair_unused_cons unit c c' r :
  repair_unused unit (String c (String c' r))
  = String c (repair_unused unit (String c' r)).
Proof. reflexivity. Qed.

Lemma repair_unused_length unit s :
  String.length (repair_unused unit s) = String.length s.
Proof.
  induction s as [|c r IH]; [reflexivity|].
  destruct r as [|c' r]; [reflexivity|].
  rewrite repair_unused_cons. cbn [String.length] in *. now rewrite IH.
Qed.

Lemma bcrypt64_char_in n : in_bcrypt64 (bcrypt64_char n) = true.
Proof.
  unfold bcrypt64_char.
  assert (Hlt : (n mod 64 < 64)%nat) by (apply Nat.mod_upper_bound; lia).
  revert Hlt. generalize (n mod 64)%nat. intros k Hk.
  do 64 (destruct k as [|k]; [reflexivity|]). lia.
Qed.

Lemma to_bcrypt64_in c : in_bcrypt64 (to_bcrypt64 c) = true.
Proof.
  unfold to_bcrypt64. destruct (in_bcrypt64 c) eqn:E; [exact E|].
  apply bcrypt64_char_in.
Qed.

Lemma fit_bcrypt64 n s : all_chars in_bcrypt64 (fit n s) = true.
Proof.
  revert s. induction n as [|n IH]; intros [|c r]; cbn [fit all_chars];
    try reflexivity.
  - now rewrite IH.
  - now rewrite to_bcrypt64_in, IH.
Qed.

Lemma repair_unused_bcrypt64 unit s :
  all_chars in_bcrypt64 s = true ->
  all_chars in_bcrypt64 (repair_unused unit s) = true.
Proof.
  induction s as [|c r IH]; [reflexivity|].
  destruct r as [|c' r].
  - intros _. cbn [repair_unused all_chars]. unfold clear_unused.
    now rewrite bcrypt64_char_in.
  - rewrite repair_unused_cons. cbn [all_chars] in *.
    intros H. apply andb_true_iff in H as [Hc Hr].
    now rewrite Hc, IH.
Qed.

Lemma clear_unused_salt c :
  clear_unused 16 (clear_unused 16 c) = clear_unused 16 c.
Proof. destruct c as [[] [] [] [] [] [] [] []]; vm_compute; reflexivity. Qed.

Lemma clear_unused_checksum c :
  clear_unused 4 (clear_unused 4 c) = clear_unused 4 c.
Proof. destruct c as [[] [] [] [] [] [] [] []]; vm_compute; reflexivity. Qed.

(** Clearing the unused bits twice is clearing them once. *)
Lemma repair_unused_twice unit s :
  (forall c, clear_unused unit (clear_unused unit c) = clear_unused unit c) ->
  repair_unused unit (repair_unused unit s) = repair_unused unit s.
Proof.
  intros Hc. induction s as [|c r IH]; [reflexivity|].
  destruct r as [|c' r].
  - cbn [repair_unused]. now rewrite Hc.
  - rewrite repair_unused_cons.
    destruct (repair_unused unit (String c' r)) as [|d t] eqn:E.
    + pose proof (repair_unused_length unit (String c' r)) as Hl.
      rewrite E in Hl. discriminate Hl.
    + rewrite repair_unused_cons. now rewrite IH.
Qed.

Lemma all_chars_app p s t :
  all_chars p (s +:+ t) = all_chars p s && all_chars p t.
Proof.
  induction s as [|c s IH]; [reflexivity|].
  simpl. rewrite IH. apply andb_assoc.
Qed.

Lemma bcrypt64_no_dollar s :
  all_chars in_bcrypt64 s = true ->
  all_chars (fun c => negb (Ascii.eqb c "$")) s = true.
Proof.
  induction s as [|c s IH]; [reflexivity|].
  cbn [all_chars]. intros H. apply andb_true_iff in H as [Hc Hs].
  rewrite (IH Hs), andb_true_r.
  destruct (Ascii.eqb_spec c "$") as [->|_]; [discriminate Hc|reflexivity].
Qed.

(** The salt of a new digest: the characters passlib drew, as 22 characters
    of the alphabet with the unused bits cleared. *)
Definition hash_salt (salt0 : string) : string :=
  repair_unused 16 (fit 22 salt0).

(** The digest [pwd_context.hash] makes of a password it takes. *)
Definition digest_of (salt0 password : string) : string :=
  "$2b$12$" +:+ hash_salt salt0
            +:+ bcrypt_checksum "$2b$" 12 (hash_salt salt0) password.

(** A bcrypt digest of the current identifier and cost 12 parses back into
    its parts. *)
Lemma bcrypt_from_string_2b salt1 chk :
  String.length salt1 = 22%nat -> String.length chk = 31%nat ->
  all_chars in_bcrypt64 salt1 = true -> all_chars in_bcrypt64 chk = true ->
  bcrypt_from_string ("$2b$12$" +:+ salt1 +:+ chk)
  = Py.Return {| bh_ident := "$2b$"; bh_rounds := 12;
                 bh_salt := repair_unused 16 salt1;
                 bh_checksum := Some (repair_unused 4 chk) |}.
Proof.
  intros Hs Hc Has Hac. unfold bcrypt_from_string.
  set (data := salt1 +:+ chk).
  assert (Hfind : List.find
            (fun i => bool_decide (is_Some (strip_prefix i ("$2b$12$" +:+ data))))
            bcrypt_idents = Some "$2b$") by reflexivity.
  rewrite Hfind.
  change (String.eqb "$2b$" "$2x$") with false. cbv iota.
  change (cut_at_dollar
            (default EmptyString (strip_prefix "$2b$" ("$2b$12$" +:+ data))))
    with (Some ("12", data)).
  cbv iota beta.
  assert (Hd : all_chars (fun c => negb (Ascii.eqb c "$")) data = true).
  { unfold data. rewrite all_chars_app, !bcrypt64_no_dollar by assumption.
    reflexivity. }
  rewrite Hd. cbn [negb].
  change (parse_rounds "12") with (Py.Return 12%nat).
  cbn [mbind result_bind Py.bind].
  assert (Hsalt : substring 0 22 data = salt1).
  { unfold data. rewrite <- Hs. apply substring_app_l. }
  assert (Hchk : substring 22 (String.length data - 22) data = chk).
  { unfold data. rewrite string_length_app, Hs.
    replace (22 + String.length chk - 22)%nat with (String.length chk) by lia.
    rewrite <- Hs. apply substring_app_r. }
  cbv zeta. rewrite Hsalt, Hchk, Hs, Hc, Has, Hac.
  destruct chk as [|c0 chk']; [discriminate Hc|].
  reflexivity.
Qed.

Lemma bcrypt_checksum_length ident rounds salt1 secret :
  String.length (bcrypt_checksum ident rounds salt1 secret) = 31%nat.
Proof.
  unfold bcrypt_checksum. now rewrite repair_unused_length, fit_length.
Qed.

Lemma bcrypt_checksum_bcrypt64 ident rounds salt1 secret :
  all_chars in_bcrypt64 (bcrypt_checksum ident rounds salt1 secret) = true.
Proof.
  unfold bcrypt_checksum. apply repair_unused_bcrypt64, fit_bcrypt64.
Qed.

Lemma bcrypt_checksum_repaired ident rounds salt1 secret :
  repair_unused 4 (bcrypt_checksum ident rounds salt1 secret)
  = bcrypt_checksum ident rounds salt1 secret.
Proof.
  unfold bcrypt_checksum. apply repair_unused_twice, clear_unused_checksum.
Qed.

(** A digest made by [get_password_hash] parses back into its salt and its
    checksum. *)
Lemma bcrypt_from_string_hash salt0 password :
  bcrypt_from_string (digest_of salt0 password)
  = Py.Return {| bh_ident := "$2b$"; bh_rounds := 12;
                 bh_salt := hash_salt salt0;
                 bh_checksum :=
                   Some (bcrypt_checksum "$2b$" 12 (hash_salt salt0)
                           password) |}.
Proof.
  unfold digest_of. rewrite bcrypt_from_string_2b.
  - rewrite bcrypt_checksum_repaired. unfold hash_salt at 1.
    rewrite repair_unused_twice by apply clear_unused_salt. reflexivity.
  - unfold hash_salt. now rewrite repair_unused_length, fit_length.
  - apply bcrypt_checksum_length.
  - unfold hash_salt. apply repair_unused_bcrypt64, fit_bcrypt64.
  - apply bcrypt_checksum_bcrypt64.
Qed.

(** Hashing returns exactly for the passwords passlib takes. *)
Lemma get_password_hash_acceptable salt0 password :
  acceptable_secret password = true ->
  get_password_hash salt0 password = Py.Return (digest_of salt0 password).
Proof.
  intros Ha. unfold get_password_hash, pwd_context_hash.
  rewrite (validate_secret_acceptable _ Ha). cbn [mbind result_bind Py.bind].
  cbv zeta. fold (hash_salt salt0).
  rewrite (calc_checksum_acceptable _ _ _ _ Ha). reflexivity.
Qed.

Lemma get_password_hash_returns salt0 password h :
  get_password_hash salt0 password = Py.Return h ->
  acceptable_secret password = true /\ h = digest_of salt0 password.
Proof.
  intros Hh. destruct (acceptable_secret password) eqn:Ha.
  - rewrite (get_password_hash_acceptable _ _ Ha) in Hh.
    injection Hh as <-. auto.
  - exfalso. revert Hh.
    unfold get_password_hash, pwd_context_hash, validate_secret, calc_checksum.
    unfold acceptable_secret in Ha.
    destruct (MAX_PASSWORD_SIZE <? utf8_length password)%nat;
      cbn [mbind result_bind Py.bind]; [discriminate|].
    cbn [negb andb] in Ha. apply negb_false_iff in Ha. rewrite Ha.
    discriminate.
Qed.

(** Verifying a password against a digest [get_password_hash] made compares
    the two checksums bcrypt computes under the salt of the digest. *)
Lemma verify_password_digest salt0 password plain :
  acceptable_secret plain = true ->
  verify_password plain (digest_of salt0 password)
  = Py.Return (String.eqb
                 (bcrypt_checksum "$2b$" 12 (hash_salt salt0) plain)
                 (bcrypt_checksum "$2b$" 12 (hash_salt salt0) password)).
Proof.
  intros Ha. unfold verify_password, pwd_context_verify.
  pose proof (bcrypt_from_string_hash salt0 password) as Hp.
  rewrite (bcrypt_from_string_identified _ _ Hp), Hp.
  rewrite (validate_secret_acceptable _ Ha).
  cbn [mbind result_bind Py.bind bh_checksum bh_ident bh_rounds bh_salt].
  now rewrite (calc_checksum_acceptable _ _ _ _ Ha).
Qed.

(** Verifying the password a digest was made from. *)
Lemma verify_password_hash salt0 password :
  acceptable_secret password = true ->
  verify_password password (digest_of salt0 password) = Py.Return true.
Proof.
  intros Ha. rewrite (verify_password_digest _ _ _ Ha).
  now rewrite String.eqb_refl.
Qed.

(** With a password passlib refuses, verification raises. *)
Lemma verify_password_refused plain hashed :
  acceptable_secret plain = false ->
  exists e, verify_password plain hashed = Py.Raise e
            /\ Py.is_ValueError e = true.
Proof.
  intros Ha. unfold verify_password, pwd_context_verify.
  destruct (bcrypt_identify hashed); [|eexists; split; reflexivity].
  unfold validate_secret, calc_checksum. unfold acceptable_secret in Ha.
  destruct (MAX_PASSWORD_SIZE <? utf8_length plain)%nat;
    cbn [mbind result_bind Py.bind]; [eexists; split; reflexivity|].
  cbn [negb andb] in Ha. apply negb_false_iff in Ha. rewrite Ha.
  destruct (bcrypt_from_string hashed) as [parsed|e0] eqn:E;
    cbn [mbind result_bind Py.bind].
  - destruct (bh_checksum parsed); cbn [mbind result_bind Py.bind];
      eexists; split; reflexivity.
  - exists e0. split; [reflexivity|]. eapply bcrypt_from_string_raises; eauto.
Qed.

(** C5, as the code has it.  [get_password_hash] returns a digest exactly
    for the passwords passlib takes, of at most 4096 characters and without
    a NUL byte; for any other it raises a [ValueError] and there is no
    digest to verify.  The digest of a password verifies that password.
    Against the digest of [P], another password passlib takes verifies
    exactly when bcrypt computes for it, under the salt of the digest, the
    checksum it computed for [P]: nothing in the code draws a salt at
    verification or compares anything but these two checksums.  A password
    passlib refuses raises there too. *)
Theorem password_round_trip (salt0 P : string) :
  if acceptable_secret P then
    exists h,
      get_password_hash salt0 P = Py.Return h
      /\ verify_password P h = Py.Return true
      /\ (forall P1, acceptable_secret P1 = true ->
            verify_password P1 h
            = Py.Return (String.eqb
                           (bcrypt_checksum "$2b$" 12 (hash_salt salt0) P1)
                           (bcrypt_checksum "$2b$" 12 (hash_salt salt0) P)))
      /\ (forall P1, acceptable_secret P1 = false ->
            exists e, verify_password P1 h = Py.Raise e
                      /\ Py.is_ValueError e = true)
  else
    exists e, get_password_hash salt0 P = Py.Raise e
              /\ Py.is_ValueError e = true.
Proof.
  destruct (acceptable_secret P) eqn:Ha.
  - exists (digest_of salt0 P).
    split; [now apply get_password_hash_acceptable|].
    split; [now apply verify_password_hash|].
    split; [intros P1 H1; now apply verify_password_digest|].
    intros P1 H1. now apply verify_password_refused.
  - destruct (get_password_hash salt0 P) as [h|e] eqn:G.
    + apply get_password_hash_returns in G as [G _]. congruence.
    + exists e. split; [reflexivity|].
      revert G.
      unfold get_password_hash, pwd_context_hash, validate_secret,
        calc_checksum.
      destruct (MAX_PASSWORD_SIZE <? utf8_length P)%nat;
        cbn [mbind result_bind Py.bind]; [now intros [= <-]|].
      destruct (has_nul P); cbn [mbind result_bind Py.bind];
        [now intros [= <-]|discriminate].
Qed.

(* ===================================================================== *)
(** * Registration and login: errors                                      *)
(* ===================================================================== *)

Definition user_already_exists : Py.exn := Py.ValueError "User already exists".

Lemma query_first_raises {A} (table : list A) p db e :
  query_first table p db = Py.Raise e -> Py.is_HTTPException e = false.
Proof.
  unfold query_first. destruct (connected db); [discriminate|].
  intros [= <-]. reflexivity.
Qed.

Lemma add_user_raises mk db e :
  add_user mk db = Py.Raise e -> Py.is_HTTPException e = false.
Proof.
  unfold add_user. destruct (connected db).
  - destruct (violates_unique _ _); [|discriminate]. intros [= <-]. reflexivity.
  - intros [= <-]. reflexivity.
Qed.

Lemma ValueError_not_HTTPException e :
  Py.is_ValueError e = true -> Py.is_HTTPException e = false.
Proof. destruct e; try discriminate; reflexivity. Qed.

(** Hashing raises for the passwords passlib does not take. *)
Lemma get_password_hash_raises salt0 password e :
  get_password_hash salt0 password = Py.Raise e -> Py.is_ValueError e = true.
Proof.
  unfold get_password_hash, pwd_context_hash, validate_secret, calc_checksum.
  destruct (MAX_PASSWORD_SIZE <? utf8_length password)%nat;
    cbn [mbind result_bind Py.bind]; [now intros [= <-]|].
  destruct (has_nul password); cbn [mbind result_bind Py.bind];
    [now intros [= <-]|discriminate].
Qed.

(** [register] converts none of its errors. *)
Lemma register_raises user db salt0 now e :
  register user db salt0 now = Py.Raise e -> Py.is_HTTPException e = false.
Proof.
  unfold register.
  destruct (query_first _ _ db) as [[u|]|e'] eqn:Q;
    cbn [mbind result_bind Py.bind].
  - intros [= <-]. reflexivity.
  - destruct (get_password_hash salt0 (UserCreate.password user))
      as [hashed|e'] eqn:G; cbn [mbind result_bind Py.bind].
    + apply add_user_raises.
    + intros [= <-]. apply ValueError_not_HTTPException.
      eapply get_password_hash_raises; eauto.
  - intros [= <-]. eapply query_first_raises; eauto.
Qed.

Lemma verify_password_raises plain hashed e :
  verify_password plain hashed = Py.Raise e -> Py.is_HTTPException e = false.
Proof.
  intros Hv. apply ValueError_not_HTTPException.
  pose proof (bcrypt_from_string_raises hashed) as Hp.
  unfold verify_password, pwd_context_verify, validate_secret, calc_checksum
    in Hv.
  destruct (bcrypt_identify hashed); [|now injection Hv as <-].
  destruct (MAX_PASSWORD_SIZE <? utf8_length plain)%nat;
    cbn [mbind result_bind Py.bind] in Hv; [now injection Hv as <-|].
  destruct (bcrypt_from_string hashed) as [parsed|e'];
    cbn [mbind result_bind Py.bind] in Hv;
    [|injection Hv as <-; now apply Hp].
  destruct (bh_checksum parsed); [|now injection Hv as <-].
  destruct (has_nul plain); cbn [mbind result_bind Py.bind] in Hv;
    [now injection Hv as <-|discriminate].
Qed.

Lemma create_access_token_raises data expires_delta now e :
  create_access_token data expires_delta now = Py.Raise e ->
  Py.is_HTTPException e = false.
Proof.
  unfold create_access_token, jwt_encode.
  destruct (bool_decide _); [discriminate|]. intros [= <-]. reflexivity.
Qed.

(** [login] converts none of its errors. *)
Lemma login_raises user_login db now e :
  login user_login db now = Py.Raise e -> Py.is_HTTPException e = false.
Proof.
  unfold login.
  destruct (query_first _ _ db) as [[u|]|e'] eqn:Q; simpl.
  - destruct (verify_password _ _) as [ok|e'] eqn:V; simpl.
    + destruct ok; simpl.
      * destruct (create_access_token _ _ _) as [tok|e'] eqn:C; simpl;
          [discriminate|].
        intros [= <-]. eapply create_access_token_raises; eauto.
      * intros [= <-]. reflexivity.
    + intros [= <-]. eapply verify_password_raises; eauto.
  - intros [= <-]. reflexivity.
  - intros [= <-]. eapply query_first_raises; eauto.
Qed.

Lemma respond_unconverted {A} (dump : A -> body) e :
  Py.is_HTTPException e = false ->
  respond dump (Py.Raise e)
  = {| status_code := 500;
       content := BValue (Py.VStr "Internal Server Error") |}.
Proof. destruct e; simpl; congruence. Qed.

(** C3, as the code has it.  A registration whose username is already in
    the store is rejected and leaves the store as it was, but the rejection
    is a bare [ValueError]: nothing converts it into a status, and the
    request is answered with 500, not with a client error.  The same holds
    for every error of [register] and of [login]: none is an
    [HTTPException], each leaves its handler unconverted. *)
Theorem duplicate_registration_unconverted
    (user : UserCreate.t) (db : Session) (e : env) (existing : User.t) :
  store_up e = true ->
  List.find (fun u => String.eqb (User.username u) (UserCreate.username user))
    (users db) = Some existing ->
  register user (get_db db e) (salt e) (utcnow e) = Py.Raise user_already_exists
  /\ fst (handle db e (POST_register user)) = db
  /\ status_code (snd (handle db e (POST_register user))) = 500
  /\ (forall user' db' salt' now' ex,
        register user' db' salt' now' = Py.Raise ex ->
        Py.is_HTTPException ex = false)
  /\ (forall user_login db' now' ex,
        login user_login db' now' = Py.Raise ex ->
        Py.is_HTTPException ex = false).
Proof.
  intros Hup Hfind.
  assert (Hr : register user (get_db db e) (salt e) (utcnow e)
               = Py.Raise user_already_exists).
  { unfold register, query_first. simpl. rewrite Hup. simpl.
    now rewrite Hfind. }
  split; [exact Hr|].
  split; [simpl; now rewrite Hr|].
  split; [simpl; now rewrite Hr|].
  split.
  - intros; eapply register_raises; eauto.
  - intros; eapply login_raises; eauto.
Qed.

(* ===================================================================== *)
(** * Token issuance                                                      *)
(* ===================================================================== *)

(** How long an issued token lives: the duration asked for when there is
    one and it is not zero, thirty minutes otherwise. *)
Definition lifetime (expires_delta : option Z) : Z :=
  if timedelta_truthy expires_delta then default 0 expires_delta
  else timedelta_minutes ACCESS_TOKEN_EXPIRE_MINUTES.

(** The dictionary [login] passes to [create_access_token]. *)
Definition login_data (sub : Py.value) (role : string) : gmap string Py.value :=
  <["sub" := sub]> (<["role" := Py.VStr role]> ∅).

Definition bearer (t : token) : HTTPAuthorizationCredentials.t :=
  {| HTTPAuthorizationCredentials.scheme := "Bearer";
     HTTPAuthorizationCredentials.credentials := t |}.

Lemma str_number v : Py.is_number v = true -> exists s, Py.str v = Py.Return s.
Proof. destruct v as [|[]| | | | | |]; try discriminate; eexists; reflexivity. Qed.

Lemma to_encode_of_exp data expires_delta now :
  to_encode_of data expires_delta now !! "exp"
  = Some (Py.VDatetime (now + lifetime expires_delta)).
Proof.
  unfold to_encode_of, lifetime. rewrite lookup_insert_eq.
  destruct (timedelta_truthy expires_delta); reflexivity.
Qed.

Lemma to_encode_of_sub data expires_delta now sub s :
  data !! "sub" = Some sub -> Py.is_None sub = false ->
  Py.str sub = Py.Return s ->
  to_encode_of data expires_delta now !! "sub" = Some (Py.VStr s).
Proof.
  intros Hd Hn Hs. unfold to_encode_of. rewrite Hd, Hn, Hs. simpl.
  rewrite lookup_insert_ne by discriminate. apply lookup_insert_eq.
Qed.

Lemma to_encode_of_other data expires_delta now k :
  k <> "sub" -> k <> "exp" ->
  to_encode_of data expires_delta now !! k = data !! k.
Proof.
  intros Hs He. unfold to_encode_of.
  rewrite lookup_insert_ne by congruence.
  destruct (data !! "sub") as [sub|]; [|reflexivity].
  destruct (negb (Py.is_None sub)); [|reflexivity].
  destruct (Py.str sub).
  - rewrite lookup_insert_ne by congruence. reflexivity.
  - rewrite lookup_delete_ne by congruence. reflexivity.
Qed.

Lemma int_date_lookup_ne claims k k' :
  k <> k' -> int_date claims k !! k' = claims !! k'.
Proof.
  intros H. unfold int_date. destruct (claims !! k) as [[]|]; try reflexivity.
  now rewrite lookup_insert_ne.
Qed.

Lemma int_date_lookup_datetime claims k us :
  claims !! k = Some (Py.VDatetime us) ->
  int_date claims k !! k = Some (Py.VInt (timegm us)).
Proof. intros H. unfold int_date. rewrite H. apply lookup_insert_eq. Qed.

(** The claims of the token [jwt.encode] builds. *)
Definition encoded_claims (claims : gmap string Py.value) : gmap string Py.value :=
  int_date (int_date (int_date claims "exp") "iat") "nbf".

Lemma encoded_claims_exp claims us :
  claims !! "exp" = Some (Py.VDatetime us) ->
  encoded_claims claims !! "exp" = Some (Py.VInt (timegm us)).
Proof.
  intros H. unfold encoded_claims.
  rewrite !int_date_lookup_ne by discriminate.
  now apply int_date_lookup_datetime.
Qed.

Lemma encoded_claims_other claims k :
  k <> "exp" -> k <> "iat" -> k <> "nbf" ->
  encoded_claims claims !! k = claims !! k.
Proof.
  intros. unfold encoded_claims. rewrite !int_date_lookup_ne by congruence.
  reflexivity.
Qed.

Lemma create_access_token_returns data expires_delta now t :
  create_access_token data expires_delta now = Py.Return t ->
  t = Compact
        {| jws_alg := ALGORITHM;
           jws_claims := encoded_claims (to_encode_of data expires_delta now);
           jws_signature :=
             hs256 SECRET_KEY ALGORITHM
               (encoded_claims (to_encode_of data expires_delta now)) |}.
Proof.
  unfold create_access_token, jwt_encode. fold (encoded_claims (to_encode_of data expires_delta now)).
  destruct (bool_decide _); [|discriminate]. now intros [= <-].
Qed.

(** C6, as the code has it.  For a subject of any numeric type the claims
    handed to [jwt.encode] carry [sub] as the string [str] gives for it,
    every other entry of the data (the role among them) unchanged, and
    [exp] as the time of issuance plus the lifetime: the duration asked for,
    except that a duration of zero counts as none and gives thirty minutes.
    A token that is issued carries that [sub] and that role, and [exp] as a
    count of whole seconds. *)
Theorem issued_claims
    (data : gmap string Py.value) (sub : Py.value)
    (expires_delta : option Z) (now : Z) :
  data !! "sub" = Some sub ->
  Py.is_number sub = true ->
  exists s,
    Py.str sub = Py.Return s
    /\ to_encode_of data expires_delta now !! "sub" = Some (Py.VStr s)
    /\ to_encode_of data expires_delta now !! "role" = data !! "role"
    /\ to_encode_of data expires_delta now !! "exp"
       = Some (Py.VDatetime (now + lifetime expires_delta))
    /\ (forall d, expires_delta = Some d -> d <> 0 -> lifetime expires_delta = d)
    /\ (forall j, create_access_token data expires_delta now
                  = Py.Return (Compact j) ->
        jws_claims j !! "sub" = Some (Py.VStr s)
        /\ jws_claims j !! "role" = data !! "role"
        /\ jws_claims j !! "exp"
           = Some (Py.VInt (timegm (now + lifetime expires_delta)))).
Proof.
  intros Hd Hnum. destruct (str_number sub Hnum) as [s Hs]. exists s.
  assert (Hn : Py.is_None sub = false) by (destruct sub; try discriminate; reflexivity).
  pose proof (to_encode_of_sub data expires_delta now sub s Hd Hn Hs) as Hsub.
  pose proof (to_encode_of_exp data expires_delta now) as Hexp.
  assert (Hrole : to_encode_of data expires_delta now !! "role" = data !! "role")
    by (apply to_encode_of_other; discriminate).
  do 4 (split; [assumption|]). split.
  - intros d -> Hnz. unfold lifetime. simpl.
    destruct (Z.eqb_spec d 0); [contradiction|reflexivity].
  - intros j Hj. apply create_access_token_returns in Hj.
    injection Hj as ->. cbn [jws_claims].
    rewrite !encoded_claims_other by discriminate.
    split; [exact Hsub|]. split; [exact Hrole|].
    now apply encoded_claims_exp.
Qed.

(* ===================================================================== *)
(** * Lifetime of a token                                                 *)
(* ===================================================================== *)

(** The claims of the token issued for a user id and a role. *)
Definition issued_payload (user_id : Z) (role : string)
    (expires_delta : option Z) (now : Z) : gmap string Py.value :=
  <["exp" := Py.VInt (timegm (now + lifetime expires_delta))]>
    (<["sub" := Py.VStr (Py.str_of_Z user_id)]>
       (<["role" := Py.VStr role]> ∅)).

Definition issued_token (user_id : Z) (role : string)
    (expires_delta : option Z) (now : Z) : token :=
  Compact {| jws_alg := ALGORITHM;
             jws_claims := issued_payload user_id role expires_delta now;
             jws_signature :=
               hs256 SECRET_KEY ALGORITHM
                 (issued_payload user_id role expires_delta now) |}.

Lemma encoded_claims_login user_id role expires_delta now :
  encoded_claims (to_encode_of (login_data (Py.VInt user_id) role)
                    expires_delta now)
  = issued_payload user_id role expires_delta now.
Proof.
  unfold encoded_claims, to_encode_of, login_data, issued_payload, lifetime.
  replace (if timedelta_truthy expires_delta
           then (now + default 0 expires_delta)%Z
           else (now + timedelta_minutes ACCESS_TOKEN_EXPIRE_MINUTES)%Z)
    with (now + (if timedelta_truthy expires_delta
                 then default 0 expires_delta
                 else timedelta_minutes ACCESS_TOKEN_EXPIRE_MINUTES))%Z
    by (destruct (timedelta_truthy expires_delta); reflexivity).
  rewrite lookup_insert_eq. simpl.
  rewrite insert_insert_eq.
  unfold int_date at 3. rewrite lookup_insert_eq. rewrite insert_insert_eq.
  unfold int_date at 2. rewrite !lookup_insert_ne by discriminate.
  rewrite lookup_empty.
  unfold int_date. rewrite !lookup_insert_ne by discriminate.
  rewrite lookup_empty. reflexivity.
Qed.

(** [login] always gets its token. *)
Lemma create_access_token_login user_id role expires_delta now :
  create_access_token (login_data (Py.VInt user_id) role) expires_delta now
  = Py.Return (issued_token user_id role expires_delta now).
Proof.
  unfold create_access_token, jwt_encode.
  fold (encoded_claims (to_encode_of (login_data (Py.VInt user_id) role)
                          expires_delta now)).
  rewrite encoded_claims_login.
  rewrite bool_decide_eq_true_2; [reflexivity|].
  unfold issued_payload.
  repeat (apply map_Forall_insert_2; [reflexivity|]).
  apply map_Forall_empty.
Qed.

(** Verifying an issued token: it stands as long as the whole second of
    the clock is not past the whole second of its expiry. *)
Lemma verify_issued_token user_id role expires_delta t0 t :
  verify_token (bearer (issued_token user_id role expires_delta t0)) t
  = if (timegm (t0 + lifetime expires_delta) <? timegm t)%Z
    then Py.Raise invalid_token
    else Py.Return (token_data_of user_id (Py.VStr role)).
Proof.
  pose (payload := issued_payload user_id role expires_delta t0).
  assert (Hexp : payload !! "exp"
                 = Some (Py.VInt (timegm (t0 + lifetime expires_delta))))
    by apply lookup_insert_eq.
  assert (Hsub : payload !! "sub" = Some (Py.VStr (Py.str_of_Z user_id))).
  { unfold payload, issued_payload.
    rewrite lookup_insert_ne by discriminate. apply lookup_insert_eq. }
  assert (Hrole : payload !! "role" = Some (Py.VStr role)).
  { unfold payload, issued_payload.
    rewrite !lookup_insert_ne by discriminate. apply lookup_insert_eq. }
  assert (Hdec : jwt_decode (issued_token user_id role expires_delta t0)
                   SECRET_KEY [ALGORITHM] t
                 = if (timegm (t0 + lifetime expires_delta) <? timegm t)%Z
                   then Py.Raise (Py.JWTError "Signature has expired.")
                   else Py.Return payload).
  { unfold jwt_decode, issued_token. cbn [jws_alg jws_claims jws_signature].
    fold payload.
    change (negb (existsb (String.eqb ALGORITHM) [ALGORITHM])) with false.
    cbv iota. rewrite String.eqb_refl. cbn [negb].
    assert (Hother : forall k, k <> "exp" -> k <> "sub" -> k <> "role" ->
                               payload !! k = None).
    { intros k H1 H2 H3. unfold payload, issued_payload.
      rewrite !lookup_insert_ne by congruence. apply lookup_empty. }
    unfold validate_claims, validate_iat, validate_nbf, validate_exp,
      validate_aud, validate_sub, validate_jti, validate_at_hash.
    rewrite Hexp, Hsub, !Hother by discriminate.
    unfold claim_int. cbn [Py.int Py.try_except mbind result_bind Py.bind].
    destruct (_ <? _)%Z; reflexivity. }
  change (issued_token user_id role expires_delta t0)
    with (HTTPAuthorizationCredentials.credentials
            (bearer (issued_token user_id role expires_delta t0))) in Hdec.
  destruct (timegm (t0 + lifetime expires_delta) <? timegm t)%Z.
  - eapply verify_token_decode_error; [exact Hdec|reflexivity].
  - rewrite (verify_token_decoded _ _ _ Hdec).
    unfold Py.dict_get. rewrite Hsub, Hrole. simpl.
    now rewrite int_of_str_of_Z.
Qed.

Lemma timegm_mono a b : (a <= b)%Z -> (timegm a <= timegm b)%Z.
Proof. intros. unfold timegm. apply Z.div_le_mono; lia. Qed.

Lemma timegm_next a : timegm (a + 1000000) = (timegm a + 1)%Z.
Proof.
  unfold timegm. replace (a + 1000000)%Z with (a + 1 * 1000000)%Z by lia.
  rewrite Z.div_add by lia. reflexivity.
Qed.

(** C7, as the code has it.  A token issued at [t0] for a user id and a
    role lives [lifetime] long: the duration asked for, thirty minutes when
    none is given or when it is zero.  The expiry is kept in whole seconds
    and compared with the whole second of the clock, so verification
    succeeds exactly while the clock's second is not past the second of
    [t0 + lifetime]: at every time in [[t0, t0 + lifetime)], and it fails
    with "Invalid token" from one second after [t0 + lifetime] on. *)
Theorem token_lifetime
    (user_id : Z) (role : string) (expires_delta : option Z) (t0 t : Z) :
  let T := lifetime expires_delta in
  let token := issued_token user_id role expires_delta t0 in
  create_access_token (login_data (Py.VInt user_id) role) expires_delta t0
  = Py.Return token
  /\ ((timegm t <= timegm (t0 + T))%Z ->
      verify_token (bearer token) t
      = Py.Return (token_data_of user_id (Py.VStr role)))
  /\ ((timegm (t0 + T) < timegm t)%Z ->
      verify_token (bearer token) t = Py.Raise invalid_token)
  /\ ((t0 <= t < t0 + T)%Z ->
      verify_token (bearer token) t
      = Py.Return (token_data_of user_id (Py.VStr role)))
  /\ ((t0 + T + 1000000 <= t)%Z ->
      verify_token (bearer token) t = Py.Raise invalid_token)
  /\ (expires_delta = None \/ expires_delta = Some 0%Z ->
      T = (30 * 60 * 1000000)%Z)
  /\ (forall d, expires_delta = Some d -> d <> 0%Z -> T = d).
Proof.
  intros T token. subst T token.
  split; [apply create_access_token_login|].
  rewrite verify_issued_token.
  repeat split.
  - intros H. destruct (Z.ltb_spec (timegm (t0 + lifetime expires_delta)) (timegm t));
      [lia|reflexivity].
  - intros H. destruct (Z.ltb_spec (timegm (t0 + lifetime expires_delta)) (timegm t));
      [reflexivity|lia].
  - intros [_ H].
    pose proof (timegm_mono t (t0 + lifetime expires_delta) ltac:(lia)).
    destruct (Z.ltb_spec (timegm (t0 + lifetime expires_delta)) (timegm t));
      [lia|reflexivity].
  - intros H.
    pose proof (timegm_mono _ _ H) as Hm. rewrite timegm_next in Hm.
    destruct (Z.ltb_spec (timegm (t0 + lifetime expires_delta)) (timegm t));
      [reflexivity|lia].
  - intros [-> | ->]; reflexivity.
  - intros d -> Hd. unfold lifetime. simpl.
    destruct (Z.eqb_spec d 0); [contradiction|reflexivity].
Qed.

(* ===================================================================== *)
(** * What the responses carry                                            *)
(* ===================================================================== *)

Definition user_fields : list string :=
  ["username"; "email"; "id"; "role"; "is_active"; "created_at"].

Definition product_fields : list string :=
  ["name"; "description"; "price"; "stock"; "id"; "created_at"; "updated_at"].

(** The same row with another digest. *)
Definition with_hashed_password (u : User.t) (h : string) : User.t :=
  {| User.id := User.id u;
     User.username := User.username u;
     User.email := User.email u;
     User.hashed_password := h;
     User.role := User.role u;
     User.is_active := User.is_active u;
     User.created_at := User.created_at u |}.

Lemma user_dump_fields u :
  field_names (UserResponse.model_dump (UserResponse.model_validate u))
  = user_fields.
Proof. reflexivity. Qed.

Lemma product_dump_fields p :
  field_names (ProductResponse.model_dump (ProductResponse.model_validate p))
  = product_fields.
Proof. reflexivity. Qed.

Lemma product_list_fields l k :
  In k (field_names
          (BArray (map (fun p => ProductResponse.model_dump
                                   (ProductResponse.model_validate p)) l))) ->
  In k product_fields.
Proof.
  induction l as [|p l IH]; [intros []|].
  change (In k (product_fields
                ++ field_names
                     (BArray (map (fun p => ProductResponse.model_dump
                                              (ProductResponse.model_validate p)) l)))
          -> In k product_fields).
  intros H. apply in_app_or in H as [H|H]; auto.
Qed.

(** The field names of an answer are those of the value it carries, or
    [detail]. *)
Lemma respond_field_names {A} (dump : A -> body) (r : Py.result A) k :
  In k (field_names (content (respond dump r))) ->
  k = "detail" \/ exists a, r = Py.Return a /\ In k (field_names (dump a)).
Proof.
  destruct r as [a|ex]; cbn [respond].
  - destruct (json_compliant (dump a)).
    + intros Hk. right. exists a. auto.
    + intros [].
  - destruct ex; simpl; intros Hk; try contradiction.
    destruct Hk as [<-|[]]. now left.
Qed.

(** A user and a token response always render. *)
Lemma user_dump_compliant u :
  json_compliant (UserResponse.model_dump (UserResponse.model_validate u))
  = true.
Proof. reflexivity. Qed.

Lemma token_dump_compliant r :
  json_compliant (TokenResponse.model_dump r) = true.
Proof. reflexivity. Qed.

Lemma handle_field_names db e req k :
  In k (field_names (content (snd (handle db e req)))) ->
  In k ("detail" :: "status" :: "access_token" :: "token_type" :: "user"
        :: user_fields ++ product_fields).
Proof.
  destruct req; cbn [handle snd].
  - simpl. intuition.
  - intros H. apply respond_field_names in H as [->|(u & _ & H)].
    + simpl; auto.
    + rewrite user_dump_fields in H. simpl in *. intuition.
  - intros H. apply respond_field_names in H as [->|(r & _ & H)].
    + simpl; auto.
    + simpl in *. intuition.
  - intros H. apply respond_field_names in H as [->|(p & _ & H)].
    + simpl; auto.
    + rewrite product_dump_fields in H. simpl in *. intuition.
  - intros H. apply respond_field_names in H as [->|(l & _ & H)].
    + simpl; auto.
    + apply product_list_fields in H. simpl in *. intuition.
  - intros H. apply respond_field_names in H as [->|(p & _ & H)].
    + simpl; auto.
    + rewrite product_dump_fields in H. simpl in *. intuition.
  - simpl. intuition.
Qed.

(** What a successful [login] returns: the row found and the token issued
    for its id and its role. *)
Lemma login_returns user_login db now r :
  login user_login db now = Py.Return r ->
  In (user r) (users db)
  /\ access_token r = issued_token (User.id (user r)) (User.role (user r)) None now
  /\ token_type r = "bearer".
Proof.
  unfold login, query_first.
  destruct (connected db); cbn [mbind result_bind Py.bind]; [|discriminate].
  destruct (List.find _ (users db)) as [u|] eqn:F; [|discriminate].
  destruct (verify_password _ _) as [[]|];
    cbn [mbind result_bind Py.bind negb]; [|discriminate|discriminate].
  fold (login_data (Py.VInt (User.id u)) (User.role u)).
  rewrite create_access_token_login. cbn [mbind result_bind Py.bind].
  intros [= <-]. cbn [user access_token token_type].
  apply find_some in F as [Hin _]. auto.
Qed.

(** C9. No answer of the service has a field named [hashed_password], at
    any depth.  The user object of a successful registration has exactly
    the fields username, email, id, role, is_active and created_at; a
    successful login answers with the token, its type and that same user
    object, and the token is the one issued for the id and the role of the
    row.  The user object does not depend on the stored digest. *)
Theorem password_hash_never_returned (db : Session) (e : env) :
  (forall req,
     ~ In "hashed_password" (field_names (content (snd (handle db e req)))))
  /\ (forall user db' u,
        register user (get_db db e) (salt e) (utcnow e) = Py.Return (db', u) ->
        content (snd (handle db e (POST_register user)))
        = UserResponse.model_dump (UserResponse.model_validate u)
        /\ field_names (content (snd (handle db e (POST_register user))))
           = user_fields)
  /\ (forall user_login r,
        login user_login (get_db db e) (utcnow e) = Py.Return r ->
        content (snd (handle db e (POST_login user_login)))
        = BObject
            [ ("access_token",
               BToken (issued_token (User.id (user r)) (User.role (user r))
                         None (utcnow e)));
              ("token_type", BValue (Py.VStr "bearer"));
              ("user", UserResponse.model_dump
                         (UserResponse.model_validate (user r))) ]
        /\ field_names (content (snd (handle db e (POST_login user_login))))
           = "access_token" :: "token_type" :: "user" :: user_fields)
  /\ (forall u h,
        UserResponse.model_validate (with_hashed_password u h)
        = UserResponse.model_validate u).
Proof.
  split; [|split; [|split]].
  - intros req H. apply handle_field_names in H. simpl in H.
    repeat (destruct H as [H|H]; [discriminate H|]). exact H.
  - intros user db' u Hr. cbn [handle snd]. rewrite Hr. simpl. auto.
  - intros user_login r Hl. cbn [handle snd]. rewrite Hl.
    apply login_returns in Hl as (_ & Htok & Hty).
    unfold respond, token_response, TokenResponse.model_dump.
    cbn [content TokenResponse.access_token TokenResponse.token_type
         TokenResponse.user].
    rewrite Htok, Hty. split; reflexivity.
  - reflexivity.
Qed.

(* ===================================================================== *)
(** * Roles under the exposed operations                                  *)
(* ===================================================================== *)

(** A row as registration makes it: role [USER], active. *)
Definition plain_user (u : User.t) : Prop :=
  User.role u = UserRole.USER /\ User.is_active u = true.

Lemma register_returns user db salt0 now db' u :
  register user db salt0 now = Py.Return (db', u) ->
  users db' = (users db ++ [u])%list /\ products db' = products db
  /\ plain_user u.
Proof.
  unfold register, query_first, add_user.
  destruct (connected db); cbn [mbind result_bind Py.bind]; [|discriminate].
  destruct (List.find _ (users db)); [discriminate|].
  destruct (get_password_hash _ _) as [h|];
    cbn [mbind result_bind Py.bind]; [|discriminate].
  cbv zeta. destruct (violates_unique _ _); [discriminate|].
  intros [= <- <-]. cbn. repeat split.
Qed.

Lemma get_current_user_in credentials db now u :
  get_current_user credentials db now = Py.Return u -> In u (users db).
Proof.
  unfold get_current_user.
  destruct (verify_token credentials now) as [td|];
    cbn [mbind result_bind Py.bind]; [|discriminate].
  unfold query_first. destruct (connected db);
    cbn [mbind result_bind Py.bind Py.try_except]; [|discriminate].
  destruct (List.find _ (users db)) as [u'|] eqn:F;
    cbn [Py.try_except Py.is_Exception]; [|discriminate].
  intros [= <-]. now apply find_some in F as [Hin _].
Qed.

(** With no administrator in the store the gate lets nobody through: it
    raises 401, 403, or the exception of a claim that [jwt.decode] could not
    read. *)
Lemma gate_closed credentials db now :
  Forall plain_user (users db) ->
  exists ex,
    depends_require_admin credentials db now = Py.Raise ex
    /\ ((exists detail, ex = Py.HTTPException 401 detail)
        \/ ex = admin_required
        \/ unconverted ex = true).
Proof.
  intros Hall. unfold depends_require_admin.
  destruct (get_current_user credentials db now) as [u|ex] eqn:G;
    cbn [mbind result_bind Py.bind].
  - apply get_current_user_in in G.
    rewrite List.Forall_forall in Hall. destruct (Hall u G) as [Hrole _].
    unfold require_admin. rewrite Hrole.
    exists admin_required. split; [reflexivity|auto].
  - exists ex. split; [reflexivity|].
    destruct (get_current_user_raises _ _ _ _ G) as [Hd|Hu]; auto.
Qed.

Lemma create_product_rejected product credentials db now :
  Forall plain_user (users db) ->
  exists ex,
    create_product product credentials db now = Py.Raise ex
    /\ ((exists detail, ex = Py.HTTPException 401 detail)
        \/ ex = admin_required
        \/ unconverted ex = true).
Proof.
  intros Hall. unfold create_product.
  destruct (gate_closed credentials db now Hall) as (ex & -> & Hex).
  exists ex. auto.
Qed.

(** One request adds at most rows made by registration, and changes no row
    there is. *)
Lemma handle_users db e req :
  exists new,
    users (fst (handle db e req)) = (users db ++ new)%list
    /\ Forall plain_user new.
Proof.
  assert (Hsame : exists new : list User.t,
             users db = (users db ++ new)%list /\ Forall plain_user new)
    by (exists []; rewrite app_nil_r; auto).
  destruct req as [|newcomer| |credentials product| | |];
    cbn [handle fst]; try exact Hsame.
  - destruct (register newcomer (get_db db e) (salt e) (utcnow e))
      as [[db' u]|] eqn:R; cbn [committed]; [|exact Hsame].
    apply register_returns in R as (Hu & _ & Hp).
    exists [u]. split; [exact Hu|]. constructor; auto.
  - destruct (create_product product credentials (get_db db e) (utcnow e))
      as [[db' p]|] eqn:C; cbn [committed]; [|exact Hsame].
    unfold create_product in C.
    destruct (depends_require_admin _ _ _);
      cbn [mbind result_bind Py.bind] in C; [|discriminate].
    unfold add_product in C. cbv zeta in C.
    destruct (connected _); [|discriminate].
    destruct (in_integer_range _); [|discriminate].
    injection C as <- _. exact Hsame.
Qed.

Lemma handle_plain db e req :
  Forall plain_user (users db) ->
  Forall plain_user (users (fst (handle db e req)))
  /\ products (fst (handle db e req)) = products db.
Proof.
  intros Hall. split.
  - destruct (handle_users db e req) as (new & -> & Hnew).
    apply Forall_app; auto.
  - destruct req as [|newcomer| |credentials product| | |];
      cbn [handle fst]; try reflexivity.
    + destruct (register newcomer (get_db db e) (salt e) (utcnow e))
        as [[db' u]|] eqn:R; cbn [committed]; [|reflexivity].
      now apply register_returns in R as (_ & Hp & _).
    + destruct (create_product_rejected product credentials (get_db db e)
                  (utcnow e) Hall) as (ex & -> & _).
      reflexivity.
Qed.

Lemma serve_plain reqs db :
  Forall plain_user (users db) ->
  Forall plain_user (users (fst (serve db reqs)))
  /\ products (fst (serve db reqs)) = products db.
Proof.
  revert db. induction reqs as [|[e req] reqs IH]; intros db Hall.
  - simpl. auto.
  - cbn [serve].
    destruct (handle db e req) as [db1 resp] eqn:H1.
    destruct (serve db1 reqs) as [db2 resps] eqn:H2.
    pose proof (handle_plain db e req Hall) as [Hu Hp].
    rewrite H1 in Hu, Hp. cbn [fst] in Hu, Hp.
    destruct (IH db1 Hu) as [Hu' Hp']. rewrite H2 in Hu', Hp'.
    cbn [fst] in *. split; [exact Hu'|congruence].
Qed.

Lemma find_id_some (l : list User.t) u :
  In u l ->
  exists u', List.find (fun v => id_equals (User.id v) (Py.VInt (User.id u))) l
             = Some u' /\ In u' l.
Proof.
  intros Hin.
  destruct (List.find _ l) as [u'|] eqn:F.
  - exists u'. split; [reflexivity|]. now apply find_some in F as [H _].
  - apply (find_none _ _ F) in Hin. simpl in Hin.
    now rewrite Z.eqb_refl in Hin.
Qed.

(** C10. Take a store whose users all have role [USER] and are active, as
    registration makes them (the empty store is one), and serve any
    requests of the routes.  Every row of the users table still has role
    [USER] and is active: one request only ever appends rows made by
    registration and changes none.  So the admin gate never opens: whatever
    the credentials, [create_product] returns nothing and the products
    table is as it was; what it raises is a 401, the 403 of the gate, or
    the exception of a claim that [jwt.decode] could not read, which no
    handler converts.  A token obtained from [login], presented while it is
    valid and the store answers, is refused with 403. *)
Theorem public_flow_never_admin
    (db0 : Session) (reqs : list (env * request)) :
  Forall plain_user (users db0) ->
  let db := fst (serve db0 reqs) in
  Forall plain_user (users db)
  /\ products db = products db0
  /\ (forall db1 e req, exists new,
        users (fst (handle db1 e req)) = (users db1 ++ new)%list
        /\ Forall plain_user new)
  /\ (forall credentials product e, exists ex,
        create_product product credentials (get_db db e) (utcnow e)
        = Py.Raise ex
        /\ ((exists detail, ex = Py.HTTPException 401 detail)
            \/ ex = admin_required
            \/ unconverted ex = true))
  /\ (forall user_login e r product e',
        login user_login (get_db db e) (utcnow e) = Py.Return r ->
        store_up e' = true ->
        (timegm (utcnow e') <= timegm (utcnow e + lifetime None))%Z ->
        create_product product (bearer (access_token r)) (get_db db e')
          (utcnow e')
        = Py.Raise admin_required).
Proof.
  intros H0 db.
  destruct (serve_plain reqs db0 H0) as [Hu Hp].
  fold db in Hu, Hp.
  split; [exact Hu|]. split; [exact Hp|].
  split; [intros; apply handle_users|].
  split; [intros; now apply create_product_rejected|].
  intros user_login e r product e' Hl Hup Ht.
  apply login_returns in Hl as (Hin & Htok & _). cbn [get_db users] in Hin.
  destruct (find_id_some _ _ Hin) as (u' & Hfind & Hin').
  rewrite List.Forall_forall in Hu. destruct (Hu u' Hin') as [Hrole _].
  assert (Hv : verify_token (bearer (access_token r)) (utcnow e')
               = Py.Return (token_data_of (User.id (user r))
                              (Py.VStr (User.role (user r))))).
  { rewrite Htok, verify_issued_token.
    destruct (Z.ltb_spec (timegm (utcnow e + lifetime None))
                (timegm (utcnow e'))); [lia|reflexivity]. }
  assert (Hg : get_current_user (bearer (access_token r)) (get_db db e')
                 (utcnow e') = Py.Return u').
  { eapply get_current_user_found; [exact Hv|exact Hup|].
    unfold user_by_id, token_data_of, Py.dict_get.
    rewrite lookup_insert_eq. exact Hfind. }
  unfold create_product, depends_require_admin. rewrite Hg.
  cbn [mbind result_bind Py.bind]. unfold require_admin. rewrite Hrole.
  reflexivity.
Qed.

(* ===================================================================== *)
(** * Further properties: registration, login and the round trips         *)
(* ===================================================================== *)

Lemma find_app {A} (p : A -> bool) (l l' : list A) :
  List.find p (l ++ l')
  = match List.find p l with
    | Some x => Some x
    | None => List.find p l'
    end.
Proof.
  induction l as [|a l IH]; simpl; [reflexivity|].
  destruct (p a); [reflexivity|exact IH].
Qed.

(** What a successful [register] did: the store answered, the username was
    free, and the row appended is the one [register] builds, under the next
    id. *)
Lemma register_row user db salt0 now db' u :
  register user db salt0 now = Py.Return (db', u) ->
  connected db = true
  /\ List.find (fun v => String.eqb (User.username v) (UserCreate.username user))
       (users db) = None
  /\ acceptable_secret (UserCreate.password user) = true
  /\ u = {| User.id := next_id (map User.id (users db));
            User.username := UserCreate.username user;
            User.email := UserCreate.email user;
            User.hashed_password :=
              digest_of salt0 (UserCreate.password user);
            User.role := UserRole.USER;
            User.is_active := true;
            User.created_at := now |}
  /\ violates_unique u db = false
  /\ db' = {| users := users db ++ [u];
              products := products db;
              connected := true |}.
Proof.
  unfold register, query_first, add_user.
  destruct (connected db) eqn:Hc; cbn [mbind result_bind Py.bind];
    [|discriminate].
  destruct (List.find _ (users db)) eqn:F; [discriminate|].
  destruct (get_password_hash _ _) as [h|] eqn:G;
    cbn [mbind result_bind Py.bind]; [|discriminate].
  apply get_password_hash_returns in G as [Ha ->].
  cbv zeta. destruct (violates_unique _ _) eqn:V; [discriminate|].
  intros [= <- <-]. repeat split; auto.
Qed.


(** X1. A user who registered can log in: on the store a successful
    registration leaves, [login] with the same username and password
    returns that very row and the token issued for its id with role
    [USER].  The salt is one passlib draws, 22 characters long. *)
Theorem registered_user_can_login
    (user : UserCreate.t) (db db' : Session) (salt0 : string) (now now' : Z)
    (u : User.t) :
  register user db salt0 now = Py.Return (db', u) ->
  String.length salt0 = 22%nat ->
  login {| UserLogin.username := UserCreate.username user;
           UserLogin.password := UserCreate.password user |} db' now'
  = Py.Return {| access_token := issued_token (User.id u) UserRole.USER None now';
                 token_type := "bearer";
                 user := u |}.
Proof.
  intros Hr Hlen.
  apply register_row in Hr as (_ & Hfree & Ha & Hu & _ & ->).
  unfold login, query_first. cbn [connected users UserLogin.username
                                  UserLogin.password mbind result_bind Py.bind].
  rewrite find_app, Hfree. cbn [List.find].
  assert (Hname : User.username u = UserCreate.username user) by (now subst u).
  rewrite Hname, String.eqb_refl.
  assert (Hhash : User.hashed_password u
                  = digest_of salt0 (UserCreate.password user))
    by (now subst u).
  rewrite Hhash, (verify_password_hash _ _ Ha).
  cbn [mbind result_bind Py.bind negb].
  fold (login_data (Py.VInt (User.id u)) (User.role u)).
  rewrite create_access_token_login. cbn [mbind result_bind Py.bind].
  assert (Hrole : User.role u = UserRole.USER) by (now subst u).
  now rewrite Hrole.
Qed.

Definition duplicate_key : Py.exn :=
  Py.IntegrityError "duplicate key value violates unique constraint".

(** X2. [register] looks for the username only.  A request with a free
    username and an email another row already has is answered 500 and
    leaves the store as it was.  The password is hashed before the commit:
    with a password passlib takes the request gets as far as the commit,
    where the unique constraint on [email] raises [IntegrityError]; with
    one it refuses, hashing raises a [ValueError] and the store is never
    asked. *)
Theorem duplicate_email_is_integrity_error
    (user : UserCreate.t) (db : Session) (e : env) (other : User.t) :
  store_up e = true ->
  List.find (fun v => String.eqb (User.username v) (UserCreate.username user))
    (users db) = None ->
  In other (users db) ->
  User.email other = UserCreate.email user ->
  (if acceptable_secret (UserCreate.password user)
   then register user (get_db db e) (salt e) (utcnow e) = Py.Raise duplicate_key
   else exists ex,
          register user (get_db db e) (salt e) (utcnow e) = Py.Raise ex
          /\ Py.is_ValueError ex = true)
  /\ fst (handle db e (POST_register user)) = db
  /\ status_code (snd (handle db e (POST_register user))) = 500.
Proof.
  intros Hup Hfree Hin Hmail.
  assert (Hq : register user (get_db db e) (salt e) (utcnow e)
               = (hashed_password ← get_password_hash (salt e)
                                       (UserCreate.password user);
                  add_user (fun id =>
                    {| User.id := id;
                       User.username := UserCreate.username user;
                       User.email := UserCreate.email user;
                       User.hashed_password := hashed_password;
                       User.role := UserRole.USER;
                       User.is_active := true;
                       User.created_at := utcnow e |}) (get_db db e))).
  { unfold register, query_first.
    cbn [get_db connected users]. rewrite Hup.
    cbn [mbind result_bind Py.bind]. now rewrite Hfree. }
  assert (Hr : exists ex,
             register user (get_db db e) (salt e) (utcnow e) = Py.Raise ex
             /\ Py.is_HTTPException ex = false
             /\ if acceptable_secret (UserCreate.password user)
                then ex = duplicate_key else Py.is_ValueError ex = true).
  { rewrite Hq.
    destruct (acceptable_secret (UserCreate.password user)) eqn:Ha.
    - rewrite (get_password_hash_acceptable _ _ Ha).
      cbn [mbind result_bind Py.bind]. unfold add_user.
      cbn [get_db connected users]. rewrite Hup. cbv zeta.
      match goal with
      | |- exists _, (if violates_unique ?r ?s then _ else _) = _ /\ _ =>
          assert (Hv : violates_unique r s = true)
      end.
      { unfold violates_unique. apply existsb_exists. exists other.
        split; [exact Hin|]. cbn [User.email User.username].
        rewrite Hmail, String.eqb_refl. apply orb_true_r. }
      rewrite Hv. exists duplicate_key. auto.
    - destruct (get_password_hash (salt e) (UserCreate.password user))
        as [h|ex] eqn:G.
      + apply get_password_hash_returns in G as [G _]. congruence.
      + cbn [mbind result_bind Py.bind]. exists ex.
        pose proof (get_password_hash_raises _ _ _ G) as Hex.
        split; [reflexivity|].
        split; [now apply ValueError_not_HTTPException|exact Hex]. }
  destruct Hr as (ex & Hr & Hnot & Hex).
  split.
  { destruct (acceptable_secret (UserCreate.password user));
      [now rewrite Hr, Hex|eauto]. }
  split; cbn [handle fst snd]; rewrite Hr; [reflexivity|].
  cbn [returned mbind result_bind Py.bind respond].
  destruct ex; try reflexivity. discriminate Hnot.
Qed.

Definition invalid_credentials : Py.exn := Py.ValueError "Invalid credentials".

(** X3. [login] fails alike for a username nobody has and for a wrong
    password: in both cases it raises the same [ValueError], which tells a
    caller nothing about which usernames exist.  A wrong password is one
    passlib takes whose checksum, under the identifier, the cost and the
    salt of the stored digest, is not the checksum of that digest. *)
Theorem login_failures_alike
    (user_login : UserLogin.t) (db : Session) (now : Z) :
  connected db = true ->
  (List.find (fun u => String.eqb (User.username u)
                         (UserLogin.username user_login)) (users db) = None ->
   login user_login db now = Py.Raise invalid_credentials)
  /\ (forall u parsed checksum,
        List.find (fun u => String.eqb (User.username u)
                              (UserLogin.username user_login)) (users db)
        = Some u ->
        bcrypt_from_string (User.hashed_password u) = Py.Return parsed ->
        bh_checksum parsed = Some checksum ->
        acceptable_secret (UserLogin.password user_login) = true ->
        bcrypt_checksum (bh_ident parsed) (bh_rounds parsed) (bh_salt parsed)
          (UserLogin.password user_login) <> checksum ->
        login user_login db now = Py.Raise invalid_credentials).
Proof.
  intros Hc. split.
  - intros Hnone. unfold login, query_first. rewrite Hc.
    cbn [mbind result_bind Py.bind]. now rewrite Hnone.
  - intros u parsed checksum Hsome Hparse Hchk Ha Hneq.
    unfold login, query_first. rewrite Hc.
    cbn [mbind result_bind Py.bind]. rewrite Hsome.
    rewrite (verify_password_parsed _ _ _ _ Hparse Hchk Ha).
    cbn [mbind result_bind Py.bind].
    apply String.eqb_neq in Hneq. rewrite Hneq.
    reflexivity.
Qed.


(* ===================================================================== *)
(** * Further properties: keys of the store                               *)
(* ===================================================================== *)

(** Ids, usernames and emails of the users are pairwise different. *)
Definition unique_keys (db : Session) : Prop :=
  List.NoDup (map User.id (users db))
  /\ List.NoDup (map User.username (users db))
  /\ List.NoDup (map User.email (users db)).

Lemma next_id_above (ids : list Z) (i : Z) :
  In i ids -> (i < next_id ids)%Z.
Proof.
  unfold next_id. induction ids as [|a ids IH]; [intros []|].
  intros [->|Hin]; simpl; [lia|]. specialize (IH Hin). lia.
Qed.

Lemma NoDup_snoc {A} (l : list A) (x : A) :
  List.NoDup l -> ~ In x l -> List.NoDup (l ++ [x]).
Proof.
  intros Hl Hx. induction Hl as [|a l Ha Hl IH]; simpl.
  - constructor; [intros []|constructor].
  - constructor.
    + intros Hin. apply in_app_or in Hin as [Hin|[->|[]]]; [auto|].
      apply Hx. now left.
    + apply IH. intros Hin. apply Hx. now right.
Qed.

Lemma violates_unique_false u db v :
  violates_unique u db = false -> In v (users db) ->
  User.username v <> User.username u /\ User.email v <> User.email u.
Proof.
  unfold violates_unique. intros He Hin.
  destruct (String.eqb (User.username v) (User.username u)) eqn:E1.
  - exfalso. assert (H : existsb (fun v0 =>
        String.eqb (User.username v0) (User.username u)
        || String.eqb (User.email v0) (User.email u)) (users db) = true).
    { apply existsb_exists. exists v. split; [exact Hin|]. now rewrite E1. }
    congruence.
  - destruct (String.eqb (User.email v) (User.email u)) eqn:E2.
    + exfalso. assert (H : existsb (fun v0 =>
          String.eqb (User.username v0) (User.username u)
          || String.eqb (User.email v0) (User.email u)) (users db) = true).
      { apply existsb_exists. exists v. split; [exact Hin|].
        rewrite E2. apply orb_true_r. }
      congruence.
    + split; now apply String.eqb_neq.
Qed.

Lemma register_unique_keys user db salt0 now db' u :
  register user db salt0 now = Py.Return (db', u) ->
  unique_keys db -> unique_keys db'.
Proof.
  intros Hr (Hid & Hname & Hmail).
  apply register_row in Hr as (_ & _ & _ & Hu & Hv & ->).
  unfold unique_keys. cbn [users]. rewrite !map_app. cbn [map].
  split; [|split]; apply NoDup_snoc; auto.
  - intros Hin. apply next_id_above in Hin. rewrite Hu in Hin.
    cbn [User.id] in Hin. lia.
  - intros Hin. apply in_map_iff in Hin as (v & Hv1 & Hv2).
    destruct (violates_unique_false _ _ _ Hv Hv2). contradiction.
  - intros Hin. apply in_map_iff in Hin as (v & Hv1 & Hv2).
    destruct (violates_unique_false _ _ _ Hv Hv2). contradiction.
Qed.

(** What a successful [create_product] did. *)
Lemma create_product_row product credentials db now db' p :
  create_product product credentials db now = Py.Return (db', p) ->
  (exists admin, depends_require_admin credentials db now = Py.Return admin)
  /\ connected db = true
  /\ p = {| Product.id := next_id (map Product.id (products db));
            Product.name := ProductCreate.name product;
            Product.description := ProductCreate.description product;
            Product.price := ProductCreate.price product;
            Product.stock := ProductCreate.stock product;
            Product.created_at := now;
            Product.updated_at := now |}
  /\ db' = {| users := users db;
              products := products db ++ [p];
              connected := true |}.
Proof.
  unfold create_product.
  destruct (depends_require_admin credentials db now) as [admin|];
    cbn [mbind result_bind Py.bind]; [|discriminate].
  unfold add_product. cbv zeta. destruct (connected db); [|discriminate].
  destruct (in_integer_range _); [|discriminate].
  intros [= <- <-]. split; [now exists admin|]. auto.
Qed.

Lemma handle_unique_keys db e req :
  unique_keys db -> unique_keys (fst (handle db e req)).
Proof.
  intros Hk.
  destruct req as [|newcomer| |credentials product| | |];
    cbn [handle fst]; try exact Hk.
  - destruct (register newcomer (get_db db e) (salt e) (utcnow e))
      as [[db' u]|] eqn:R; cbn [committed]; [|exact Hk].
    eapply register_unique_keys; [exact R|exact Hk].
  - destruct (create_product product credentials (get_db db e) (utcnow e))
      as [[db' p]|] eqn:C; cbn [committed]; [|exact Hk].
    apply create_product_row in C as (_ & _ & _ & ->). exact Hk.
Qed.

(** X4. Serving requests keeps the keys of the users table apart: when the
    ids, the usernames and the emails of a store are pairwise different,
    they still are after any run of requests. *)
Theorem serve_unique_keys (db : Session) (reqs : list (env * request)) :
  unique_keys db -> unique_keys (fst (serve db reqs)).
Proof.
  revert db. induction reqs as [|[e req] reqs IH]; intros db Hk.
  - exact Hk.
  - cbn [serve].
    pose proof (handle_unique_keys db e req Hk) as H1.
    destruct (handle db e req) as [db1 resp].
    specialize (IH db1 H1).
    destruct (serve db1 reqs) as [db2 resps]. exact IH.
Qed.

Lemma find_by_unique_id (l : list User.t) (u : User.t) :
  List.NoDup (map User.id l) -> In u l ->
  List.find (fun v => id_equals (User.id v) (Py.VInt (User.id u))) l = Some u.
Proof.
  induction l as [|a l IH]; [intros _ []|].
  cbn [map]. intros Hnd Hin. apply List.NoDup_cons_iff in Hnd as [Ha Hnd].
  cbn [List.find id_equals]. destruct Hin as [->|Hin].
  - now rewrite Z.eqb_refl.
  - destruct (Z.eqb_spec (User.id a) (User.id u)) as [E|_].
    + exfalso. apply Ha. rewrite E. now apply in_map.
    + now apply IH.
Qed.

(** X5. A token obtained from [login] resolves to the row that logged in:
    presented to [get_current_user] on the same store, whose ids are
    pairwise different, while its thirty minutes have not run out, it
    returns exactly the user [login] returned. *)
Theorem login_token_resolves
    (user_login : UserLogin.t) (db : Session) (now now' : Z)
    (r : login_result) :
  List.NoDup (map User.id (users db)) ->
  login user_login db now = Py.Return r ->
  (timegm now' <= timegm (now + lifetime None))%Z ->
  get_current_user (bearer (access_token r)) db now' = Py.Return (user r).
Proof.
  intros Hnd Hl Ht.
  assert (Hc : connected db = true).
  { unfold login, query_first in Hl. destruct (connected db); [reflexivity|].
    discriminate Hl. }
  apply login_returns in Hl as (Hin & Htok & _).
  eapply get_current_user_found; [|exact Hc|].
  - rewrite Htok, verify_issued_token.
    destruct (Z.ltb_spec (timegm (now + lifetime None)) (timegm now'));
      [lia|reflexivity].
  - unfold user_by_id, token_data_of, Py.dict_get.
    rewrite lookup_insert_eq. now apply find_by_unique_id.
Qed.


(* ===================================================================== *)
(** * Further properties: what the gate and the handlers rely on          *)
(* ===================================================================== *)

(** The exp claim of a payload is not in the past at [now]. *)
Definition not_expired (claims : gmap string Py.value) (now : Z) : Prop :=
  forall v, claims !! "exp" = Some v ->
    exists exp, Py.int v = Py.Return exp /\ (timegm now <= exp)%Z.

Lemma jwt_decode_sound t key algorithms now payload :
  jwt_decode t key algorithms now = Py.Return payload ->
  exists j, t = Compact j /\ payload = jws_claims j
    /\ In (jws_alg j) algorithms
    /\ jws_signature j = hs256 key (jws_alg j) (jws_claims j)
    /\ not_expired (jws_claims j) now
    /\ (jws_claims j !! "sub" = None
        \/ exists s, jws_claims j !! "sub" = Some (Py.VStr s)).
Proof.
  unfold jwt_decode. destruct t as [j|raw]; [|discriminate].
  destruct (existsb _ algorithms) eqn:Ea; [|discriminate]. cbn [negb].
  destruct (String.eqb _ _) eqn:Es; [|discriminate]. cbn [negb].
  destruct (validate_claims _ _) as [[]|] eqn:Ev;
    cbn [mbind result_bind Py.bind]; [|discriminate].
  apply validate_claims_returns in Ev as [Ee Eu].
  intros [= <-]. exists j. split; [reflexivity|]. split; [reflexivity|].
  split.
  { apply existsb_exists in Ea as (a & Hin & Ha).
    apply String.eqb_eq in Ha. now rewrite Ha. }
  split; [now apply String.eqb_eq|].
  split.
  - intros v Hv. unfold validate_exp, claim_int in Ee. rewrite Hv in Ee.
    destruct (Py.int v) as [exp|ex];
      cbn [Py.try_except mbind result_bind Py.bind] in Ee;
      [|destruct (Py.is_ValueError ex); discriminate Ee].
    exists exp. split; [reflexivity|].
    destruct (Z.ltb_spec exp (timegm now)); [discriminate|lia].
  - unfold validate_sub in Eu.
    destruct (jws_claims j !! "sub") as [[]|]; try discriminate; eauto.
Qed.

(** X6. A token [verify_token] accepts is a three-segment token whose
    header names HS256, whose signature is the HMAC of its header and
    claims under the secret key, whose [exp] claim, if any, is not in the
    past, and whose [sub] is a string that reads as the integer returned;
    the role returned is the one of the claims. *)
Theorem verify_token_sound
    (credentials : HTTPAuthorizationCredentials.t) (now : Z)
    (token_data : gmap string Py.value) :
  verify_token credentials now = Py.Return token_data ->
  exists j s n,
    HTTPAuthorizationCredentials.credentials credentials = Compact j
    /\ jws_alg j = ALGORITHM
    /\ jws_signature j = hs256 SECRET_KEY ALGORITHM (jws_claims j)
    /\ not_expired (jws_claims j) now
    /\ jws_claims j !! "sub" = Some (Py.VStr s)
    /\ Py.int_of_str s = Some n
    /\ token_data = token_data_of n (Py.dict_get (jws_claims j) "role").
Proof.
  intros Hv.
  destruct (jwt_decode (HTTPAuthorizationCredentials.credentials credentials)
              SECRET_KEY [ALGORITHM] now) as [payload|e] eqn:D.
  - rewrite (verify_token_decoded _ _ _ D) in Hv.
    apply jwt_decode_sound in D as (j & Hj & -> & Halg & Hsig & Hexp & Hsub).
    destruct Halg as [Halg|[]].
    unfold Py.dict_get in Hv at 1 2.
    destruct Hsub as [Hsub|[s Hsub]]; rewrite Hsub in Hv;
      cbn [default from_option id Py.is_None] in Hv; [discriminate|].
    cbn [Py.int] in Hv.
    destruct (Py.int_of_str s) as [n|] eqn:En; [|discriminate].
    injection Hv as <-. exists j, s, n.
    rewrite <- Halg in *. auto 10.
  - destruct (Py.is_JWTError e) eqn:He;
      [rewrite (verify_token_decode_error _ _ _ D He) in Hv
      |rewrite (verify_token_decode_unconverted _ _ _ D He) in Hv];
      discriminate.
Qed.

(** What [verify_token] returns is a user id with a role. *)
Lemma verify_token_data credentials now token_data :
  verify_token credentials now = Py.Return token_data ->
  exists n role, token_data = token_data_of n role.
Proof.
  intros Hv.
  destruct (jwt_decode (HTTPAuthorizationCredentials.credentials credentials)
              SECRET_KEY [ALGORITHM] now) as [payload|e] eqn:D.
  - rewrite (verify_token_decoded _ _ _ D) in Hv.
    destruct (Py.is_None _); [discriminate|].
    destruct (Py.int _) as [n|]; [|discriminate].
    injection Hv as <-. eauto.
  - destruct (Py.is_JWTError e) eqn:He;
      [rewrite (verify_token_decode_error _ _ _ D He) in Hv
      |rewrite (verify_token_decode_unconverted _ _ _ D He) in Hv];
      discriminate.
Qed.

(** X7. The gate lets only stored administrators through: when
    [Depends(require_admin)] returns a user, the store answered, the user
    is a row of the users table with role [ADMIN], and its id is the
    subject of a token [verify_token] accepted. *)
Theorem admin_gate_sound
    (credentials : HTTPAuthorizationCredentials.t) (db : Session) (now : Z)
    (u : User.t) :
  depends_require_admin credentials db now = Py.Return u ->
  connected db = true
  /\ In u (users db)
  /\ User.role u = UserRole.ADMIN
  /\ exists role,
       verify_token credentials now
       = Py.Return (token_data_of (User.id u) role).
Proof.
  unfold depends_require_admin, get_current_user.
  destruct (verify_token credentials now) as [td|] eqn:Hv;
    cbn [mbind result_bind Py.bind]; [|discriminate].
  destruct (verify_token_data _ _ _ Hv) as (n & role & ->).
  unfold query_first. destruct (connected db);
    cbn [mbind result_bind Py.bind Py.try_except]; [|discriminate].
  unfold token_data_of, Py.dict_get at 1. rewrite lookup_insert_eq.
  cbn [default from_option id].
  destruct (List.find _ (users db)) as [u'|] eqn:F;
    cbn [Py.try_except Py.is_Exception mbind result_bind Py.bind];
    [|discriminate].
  unfold require_admin.
  destruct (String.eqb (User.role u') UserRole.ADMIN) eqn:Er;
    cbn [negb]; [|discriminate].
  intros [= <-]. apply find_some in F as [Hin Hid].
  split; [reflexivity|]. split; [exact Hin|].
  split; [now apply String.eqb_eq|].
  cbn [id_equals] in Hid. apply Z.eqb_eq in Hid. rewrite Hid.
  eexists. reflexivity.
Qed.

(** Every row with its active flag cleared. *)
Definition deactivated (u : User.t) : User.t :=
  {| User.id := User.id u;
     User.username := User.username u;
     User.email := User.email u;
     User.hashed_password := User.hashed_password u;
     User.role := User.role u;
     User.is_active := false;
     User.created_at := User.created_at u |}.

Definition deactivate_all (db : Session) : Session :=
  {| users := map deactivated (users db);
     products := products db;
     connected := connected db |}.

Lemma find_map {A} (p : A -> bool) (f : A -> A) (l : list A) :
  (forall x, p (f x) = p x) ->
  List.find p (map f l) = option_map f (List.find p l).
Proof.
  intros Hp. induction l as [|a l IH]; [reflexivity|].
  cbn [map List.find]. rewrite Hp. destruct (p a); [reflexivity|exact IH].
Qed.

(** X8. The active flag is never read.  With every account deactivated,
    [login] still succeeds for the same credentials with the same token,
    and the admin gate still lets the same requests through: both return
    what they returned before, with the flag cleared in the row. *)
Theorem is_active_is_ignored
    (user_login : UserLogin.t)
    (credentials : HTTPAuthorizationCredentials.t) (db : Session) (now : Z) :
  login user_login (deactivate_all db) now
  = (r ← login user_login db now;
     Py.Return {| access_token := access_token r;
                  token_type := token_type r;
                  user := deactivated (user r) |})
  /\ depends_require_admin credentials (deactivate_all db) now
     = (u ← depends_require_admin credentials db now;
        Py.Return (deactivated u)).
Proof.
  split.
  - unfold login, query_first. cbn [deactivate_all connected users].
    destruct (connected db); cbn [mbind result_bind Py.bind]; [|reflexivity].
    rewrite find_map by reflexivity.
    destruct (List.find _ (users db)) as [u|]; cbn [option_map]; [|reflexivity].
    cbn [deactivated User.hashed_password User.id User.role].
    destruct (verify_password _ _) as [[]|];
      cbn [mbind result_bind Py.bind negb]; [|reflexivity|reflexivity].
    fold (login_data (Py.VInt (User.id u)) (User.role u)).
    rewrite create_access_token_login. reflexivity.
  - unfold depends_require_admin, get_current_user.
    destruct (verify_token credentials now) as [td|];
      cbn [mbind result_bind Py.bind]; [|reflexivity].
    unfold query_first. cbn [deactivate_all connected users].
    destruct (connected db);
      cbn [mbind result_bind Py.bind Py.try_except Py.is_Exception];
      [|reflexivity].
    rewrite find_map by reflexivity.
    destruct (List.find _ (users db)) as [u|];
      cbn [option_map Py.try_except Py.is_Exception mbind result_bind Py.bind];
      [|reflexivity].
    unfold require_admin. cbn [deactivated User.role].
    destruct (String.eqb (User.role u) UserRole.ADMIN); reflexivity.
Qed.


(* ===================================================================== *)
(** * Further properties: products                                        *)
(* ===================================================================== *)

Definition product_not_found : Py.exn := Py.ValueError "Product not found".

Lemma find_fresh_product (l : list Product.t) (i : Z) :
  (forall q, In q l -> (Product.id q < i)%Z) ->
  List.find (fun q => (Product.id q =? i)%Z) l = None.
Proof.
  induction l as [|a l IH]; [reflexivity|].
  intros H. cbn [List.find].
  destruct (Z.eqb_spec (Product.id a) i) as [E|_].
  - specialize (H a (or_introl eq_refl)). lia.
  - apply IH. intros q Hq. apply H. now right.
Qed.

(** X9. A product that was created can be read back: on the store
    [create_product] leaves, [get_product] under the id of the new product
    returns it, and [list_products] returns the products there were
    followed by the new one.  The users are as they were, and the product
    carries the fields of the request, the next id and the time of the
    request as both time stamps. *)
Theorem created_product_is_read_back
    (product : ProductCreate.t)
    (credentials : HTTPAuthorizationCredentials.t) (db db' : Session)
    (now : Z) (p : Product.t) :
  create_product product credentials db now = Py.Return (db', p) ->
  get_product (Product.id p) db' = Py.Return p
  /\ list_products db' = Py.Return (products db ++ [p])%list
  /\ users db' = users db
  /\ ProductResponse.model_validate p
     = {| ProductResponse.name := ProductCreate.name product;
          ProductResponse.description := ProductCreate.description product;
          ProductResponse.price := ProductCreate.price product;
          ProductResponse.stock := ProductCreate.stock product;
          ProductResponse.id := next_id (map Product.id (products db));
          ProductResponse.created_at := now;
          ProductResponse.updated_at := now |}.
Proof.
  intros Hc. apply create_product_row in Hc as (_ & _ & Hp & ->).
  split; [|split; [|split]].
  - unfold get_product, query_first. cbn [connected products].
    cbn [mbind result_bind Py.bind]. rewrite find_app.
    rewrite find_fresh_product.
    + cbn [List.find]. now rewrite Z.eqb_refl.
    + intros q Hq. rewrite Hp. cbn [Product.id].
      apply next_id_above. now apply in_map.
  - reflexivity.
  - reflexivity.
  - now rewrite Hp.
Qed.

(** X10. Reading a product that is not there is no client error: for an id
    no product has, [get_product] raises a bare [ValueError], and the
    request is answered 500 with the store as it was. *)
Theorem missing_product_is_a_server_error
    (product_id : Z) (db : Session) (e : env) :
  store_up e = true ->
  (forall q, In q (products db) -> Product.id q <> product_id) ->
  get_product product_id (get_db db e) = Py.Raise product_not_found
  /\ handle db e (GET_product product_id)
     = (db, {| status_code := 500;
               content := BValue (Py.VStr "Internal Server Error") |}).
Proof.
  intros Hup Hnone.
  assert (Hg : get_product product_id (get_db db e) = Py.Raise product_not_found).
  { unfold get_product, query_first. cbn [get_db connected products].
    rewrite Hup. cbn [mbind result_bind Py.bind].
    destruct (List.find _ (products db)) as [q|] eqn:F; [|reflexivity].
    apply find_some in F as [Hin Hid]. apply Z.eqb_eq in Hid.
    now destruct (Hnone q Hin). }
  split; [exact Hg|]. cbn [handle]. now rewrite Hg.
Qed.

(* ===================================================================== *)
(** * Further properties: the answers of the routes                       *)
(* ===================================================================== *)

Lemma list_products_raises db ex :
  list_products db = Py.Raise ex -> Py.is_HTTPException ex = false.
Proof.
  unfold list_products, query_all. destruct (connected db); [discriminate|].
  now intros [= <-].
Qed.

Lemma get_product_raises product_id db ex :
  get_product product_id db = Py.Raise ex -> Py.is_HTTPException ex = false.
Proof.
  unfold get_product, query_first. destruct (connected db);
    cbn [mbind result_bind Py.bind]; [|now intros [= <-]].
  destruct (List.find _ _); [discriminate|]. now intros [= <-].
Qed.

Lemma create_product_raises product credentials db now ex :
  create_product product credentials db now = Py.Raise ex ->
  (exists detail, ex = Py.HTTPException 401 detail)
  \/ ex = admin_required
  \/ Py.is_HTTPException ex = false.
Proof.
  unfold create_product, depends_require_admin.
  destruct (get_current_user credentials db now) as [u|ex'] eqn:G;
    cbn [mbind result_bind Py.bind].
  - unfold require_admin. destruct (negb _); cbn [mbind result_bind Py.bind].
    + intros [= <-]. auto.
    + unfold add_product. cbv zeta. destruct (connected db).
      * destruct (in_integer_range _); [discriminate|]. intros [= <-]. auto.
      * intros [= <-]. auto.
  - intros [= <-].
    destruct (get_current_user_raises _ _ _ _ G) as [Hd|Hu]; [now left|].
    right. right. destruct ex'; try reflexivity; discriminate Hu.
Qed.

(** X11. Of the handlers only [create_product] raises an [HTTPException],
    and only the two of its admin gate: a 401 of [get_current_user] and the
    403 "Admin access required".  [register], [login], [list_products] and
    [get_product] raise none, whatever fails in them. *)
Theorem http_exceptions_of_the_handlers (db : Session) (now : Z) :
  (forall user salt0 ex,
     register user db salt0 now = Py.Raise ex ->
     Py.is_HTTPException ex = false)
  /\ (forall user_login ex,
        login user_login db now = Py.Raise ex ->
        Py.is_HTTPException ex = false)
  /\ (forall ex,
        list_products db = Py.Raise ex -> Py.is_HTTPException ex = false)
  /\ (forall product_id ex,
        get_product product_id db = Py.Raise ex ->
        Py.is_HTTPException ex = false)
  /\ (forall product credentials ex,
        create_product product credentials db now = Py.Raise ex ->
        (exists detail, ex = Py.HTTPException 401 detail)
        \/ ex = admin_required
        \/ Py.is_HTTPException ex = false).
Proof.
  split; [intros user salt0 ex; apply register_raises|].
  split; [intros user_login ex; apply login_raises|].
  split; [intros ex; apply list_products_raises|].
  split; [intros product_id ex; apply get_product_raises|].
  intros product credentials ex. apply create_product_raises.
Qed.

Lemma product_dump_compliant p :
  json_compliant (ProductResponse.model_dump (ProductResponse.model_validate p))
  = Py.is_finite (Product.price p).
Proof.
  cbn [json_compliant ProductResponse.model_dump ProductResponse.model_validate
       ProductResponse.price].
  destruct (Py.is_finite (Product.price p)); reflexivity.
Qed.

(** X12. A product is stored before its answer is rendered.  When
    [create_product] returns, the row is in the store the request leaves,
    after the products there were; the answer is the product with status
    200 when its price is a finite number, and an internal server error
    when it is not: the request has then failed and its row is stored. *)
Theorem product_is_stored_before_rendering
    (product : ProductCreate.t)
    (credentials : HTTPAuthorizationCredentials.t) (db db' : Session)
    (e : env) (p : Product.t) :
  create_product product credentials (get_db db e) (utcnow e)
  = Py.Return (db', p) ->
  handle db e (POST_products credentials product)
  = (db', if Py.is_finite (ProductCreate.price product)
          then {| status_code := 200;
                  content := ProductResponse.model_dump
                               (ProductResponse.model_validate p) |}
          else internal_server_error)
  /\ products db' = (products db ++ [p])%list
  /\ users db' = users db.
Proof.
  intros Hc. cbn [handle]. cbv zeta. rewrite Hc.
  cbn [committed returned mbind result_bind Py.bind snd respond].
  rewrite product_dump_compliant.
  apply create_product_row in Hc as (_ & _ & Hp & ->).
  assert (Hprice : Product.price p = ProductCreate.price product)
    by (now rewrite Hp).
  rewrite Hprice. cbn [products users get_db]. auto.
Qed.


(* ===================================================================== *)
(** * Further properties: tokens without a subject                        *)
(* ===================================================================== *)

Lemma verify_token_no_sub j now :
  Py.dict_get (jws_claims j) "sub" = Py.VNone ->
  exists e, verify_token (bearer (Compact j)) now = Py.Raise e
            /\ (e = invalid_token \/ unconverted e = true)
            /\ (Py.is_JWTError e = false ->
                jwt_decode (Compact j) SECRET_KEY [ALGORITHM] now = Py.Raise e
                \/ e = invalid_token).
Proof.
  intros Hsub.
  destruct (jwt_decode (HTTPAuthorizationCredentials.credentials
                          (bearer (Compact j))) SECRET_KEY [ALGORITHM] now)
    as [payload|e] eqn:D.
  - exists invalid_token. rewrite (verify_token_decoded _ _ _ D).
    apply jwt_decode_returns in D as (j' & Hj & -> & _).
    cbn [bearer HTTPAuthorizationCredentials.credentials] in Hj.
    injection Hj as <-. rewrite Hsub. auto.
  - destruct (jwt_decode_raises _ _ _ _ _ D) as [He|He].
    + exists invalid_token.
      rewrite (verify_token_decode_error _ _ _ D He). auto.
    + exists e.
      rewrite (verify_token_decode_unconverted _ _ _ D
                 (unconverted_not_JWTError _ He)). auto.
Qed.

(** Claims without [iat] and [nbf] whose [exp] is an integer are refused
    with a [JWTError] only. *)
Lemma validate_claims_JWTError claims now n e :
  claims !! "iat" = None -> claims !! "nbf" = None ->
  claims !! "exp" = Some (Py.VInt n) ->
  validate_claims claims now = Py.Raise e -> Py.is_JWTError e = true.
Proof.
  intros Hiat Hnbf Hexp.
  unfold validate_claims, validate_iat, validate_nbf, validate_exp,
    validate_aud, validate_sub, validate_jti, validate_at_hash, claim_int.
  rewrite Hiat, Hnbf, Hexp.
  cbn [Py.int Py.try_except mbind result_bind Py.bind].
  destruct (n <? timegm now)%Z; cbn [mbind result_bind Py.bind];
    [now intros [= <-]|].
  destruct (claims !! "aud") as [[]|]; cbn [mbind result_bind Py.bind];
    try (now intros [= <-]).
  destruct (claims !! "sub") as [[]|]; cbn [mbind result_bind Py.bind];
    try (now intros [= <-]);
    (destruct (claims !! "jti") as [[]|]; cbn [mbind result_bind Py.bind];
     try (now intros [= <-]);
     (destruct (claims !! "at_hash"); [now intros [= <-]|discriminate])).
Qed.

Lemma int_date_lookup_none claims k k' :
  claims !! k' = None -> int_date claims k !! k' = None.
Proof.
  intros H. destruct (decide (k = k')) as [->|Hne].
  - unfold int_date. now rewrite H.
  - now rewrite int_date_lookup_ne.
Qed.

(** The subject [create_access_token] cannot put into the claims: there is
    none, it is [None], or [str] fails on it. *)
Definition no_subject (data : gmap string Py.value) : Prop :=
  data !! "sub" = None
  \/ data !! "sub" = Some Py.VNone
  \/ exists v e, data !! "sub" = Some v /\ Py.str v = Py.Raise e.

Lemma to_encode_of_no_subject data expires_delta now :
  no_subject data ->
  Py.dict_get (to_encode_of data expires_delta now) "sub" = Py.VNone.
Proof.
  intros Hns. unfold Py.dict_get, to_encode_of.
  rewrite lookup_insert_ne by discriminate.
  destruct Hns as [H|[H|(v & e & H & Hs)]]; rewrite H.
  - now rewrite H.
  - cbn [Py.is_None negb]. now rewrite H.
  - assert (Hn : Py.is_None v = false)
      by (destruct v; try reflexivity; discriminate Hs).
    rewrite Hn, Hs. cbn [negb]. now rewrite lookup_delete_eq.
Qed.

(** X13. A token issued without a subject is never accepted.  When the
    data have no [sub], a [sub] that is [None], or one [str] fails on (the
    case in which [create_access_token] drops it), whatever token
    [create_access_token] returns makes [verify_token] raise, at every
    time: "Invalid token", or the exception of an [iat] or [nbf] claim that
    [jwt.decode] could not read.  When the data have neither of these two
    claims it is "Invalid token". *)
Theorem token_without_subject_never_verifies
    (data : gmap string Py.value) (expires_delta : option Z) (t0 t : Z)
    (tok : token) :
  no_subject data ->
  create_access_token data expires_delta t0 = Py.Return tok ->
  (exists e, verify_token (bearer tok) t = Py.Raise e
             /\ (e = invalid_token \/ unconverted e = true))
  /\ (data !! "iat" = None -> data !! "nbf" = None ->
      verify_token (bearer tok) t = Py.Raise invalid_token).
Proof.
  intros Hns Hc. apply create_access_token_returns in Hc as ->.
  set (claims := encoded_claims (to_encode_of data expires_delta t0)).
  assert (Hsub : Py.dict_get claims "sub" = Py.VNone).
  { pose proof (to_encode_of_no_subject data expires_delta t0 Hns) as H.
    unfold Py.dict_get in *. unfold claims.
    rewrite encoded_claims_other by discriminate. exact H. }
  destruct (verify_token_no_sub
              {| jws_alg := ALGORITHM; jws_claims := claims;
                 jws_signature := hs256 SECRET_KEY ALGORITHM claims |} t Hsub)
    as (e & Hv & He & Hd).
  split; [exists e; auto|].
  intros Hiat Hnbf. rewrite Hv. f_equal.
  destruct He as [He|He]; [exact He|].
  destruct (Hd (unconverted_not_JWTError _ He)) as [D|D]; [|exact D].
  exfalso.
  assert (Hother : forall k, k <> "sub" -> k <> "exp" ->
            to_encode_of data expires_delta t0 !! k = data !! k).
  { intros k Hk1 Hk2. unfold to_encode_of.
    rewrite lookup_insert_ne by congruence.
    destruct (data !! "sub") as [sub|]; [|reflexivity].
    destruct (negb (Py.is_None sub)); [|reflexivity].
    destruct (Py.str sub);
      [now rewrite lookup_insert_ne by congruence
      |now rewrite lookup_delete_ne by congruence]. }
  assert (Hi : claims !! "iat" = None).
  { unfold claims, encoded_claims. do 3 apply int_date_lookup_none.
    now rewrite Hother by discriminate. }
  assert (Hn : claims !! "nbf" = None).
  { unfold claims, encoded_claims. do 3 apply int_date_lookup_none.
    now rewrite Hother by discriminate. }
  assert (Hx : exists n, claims !! "exp" = Some (Py.VInt n)).
  { eexists. unfold claims. apply encoded_claims_exp.
    unfold to_encode_of. apply lookup_insert_eq. }
  destruct Hx as [n Hx].
  unfold jwt_decode in D. cbn [jws_alg jws_claims jws_signature] in D.
  destruct (negb (existsb _ _)); [now injection D as <-|].
  destruct (negb (String.eqb _ _)); [now injection D as <-|].
  destruct (validate_claims claims t) as [[]|e1] eqn:E1;
    cbn [mbind result_bind Py.bind] in D; [discriminate D|].
  injection D as <-.
  pose proof (validate_claims_JWTError _ _ _ _ Hi Hn Hx E1) as HJ.
  rewrite (unconverted_not_JWTError _ He) in HJ. discriminate HJ.
Qed.

End Service.

(* ===================================================================== *)
(** * main.py: the start of the service                                   *)
(* ===================================================================== *)

Module Startup.

Local Open Scope list_scope.

(** What [init_db] does that can be seen from outside: it calls
    [create_all], prints, and sleeps. *)
Inductive event : Type :=
| CreateAll (attempt : nat)
| Print (msg : string)
| Sleep (seconds : Z).

(** [except OperationalError]. *)
Definition is_OperationalError (e : Py.exn) : bool :=
  match e with
  | Py.OperationalError _ => true
  | _ => false
  end.

Definition connected_msg : string :=
  "✅ Database connected and tables created".

Definition not_ready_msg (attempt retries : nat) : string :=
  "⏳ DB not ready (attempt " +:+ Py.str_of_Z (Z.of_nat (attempt + 1))
    +:+ "/" +:+ Py.str_of_Z (Z.of_nat retries) +:+ "), retrying...".

Definition unreachable_msg : string :=
  "❌ DB not reachable after retries, continuing anyway".

(** The [for] loop of [init_db] over the attempts still to make, with its
    [else] clause; [create_all n] is what the call of attempt [n] does. *)
Fixpoint for_attempts (create_all : nat -> Py.result unit) (retries : nat)
    (attempts : list nat) : list event * Py.result unit :=
  match attempts with
  | [] => ([Print unreachable_msg], Py.Return tt)
  | attempt :: rest =>
      match create_all attempt with
      | Py.Return _ =>
          ([CreateAll attempt; Print connected_msg], Py.Return tt)
      | Py.Raise e =>
          if is_OperationalError e then
            let '(trace, r) := for_attempts create_all retries rest in
            (CreateAll attempt :: Print (not_ready_msg attempt retries)
               :: Sleep 3 :: trace, r)
          else ([CreateAll attempt], Py.Raise e)
      end
  end.

Definition init_db (create_all : nat -> Py.result unit)
    : list event * Py.result unit :=
  let retries := 5%nat in
  for_attempts create_all retries (seq 0 retries).

(** The calls of [create_all] in a trace, and the seconds slept. *)
Fixpoint calls (trace : list event) : nat :=
  match trace with
  | [] => 0
  | CreateAll _ :: trace' => S (calls trace')
  | _ :: trace' => calls trace'
  end.

Fixpoint slept (trace : list event) : Z :=
  match trace with
  | [] => 0
  | Sleep s :: trace' => s + slept trace'
  | _ :: trace' => slept trace'
  end.

(** The store is not ready at attempt [n]. *)
Definition not_ready (create_all : nat -> Py.result unit) (n : nat) : Prop :=
  exists msg, create_all n = Py.Raise (Py.OperationalError msg).

(** One round of the loop that finds the store not ready. *)
Definition failed_round (retries attempt : nat) : list event :=
  [CreateAll attempt; Print (not_ready_msg attempt retries); Sleep 3].

Lemma calls_app t1 t2 : calls (t1 ++ t2) = (calls t1 + calls t2)%nat.
Proof.
  induction t1 as [|[] t1 IH]; simpl; [reflexivity|now rewrite IH|exact IH|exact IH].
Qed.

Lemma slept_app t1 t2 : slept (t1 ++ t2) = (slept t1 + slept t2)%Z.
Proof.
  induction t1 as [|[] t1 IH]; simpl; [reflexivity|exact IH|exact IH|].
  rewrite IH. lia.
Qed.

Lemma calls_failed_rounds retries l :
  calls (flat_map (failed_round retries) l) = length l.
Proof. induction l as [|a l IH]; simpl; [reflexivity|now rewrite IH]. Qed.

Lemma slept_failed_rounds retries l :
  slept (flat_map (failed_round retries) l) = (3 * Z.of_nat (length l))%Z.
Proof.
  induction l as [|a l IH]; [reflexivity|].
  cbn [flat_map failed_round app slept length]. rewrite IH. lia.
Qed.

(** While the store is not ready the loop goes round. *)
Lemma for_attempts_not_ready create_all retries failed rest :
  (forall n, In n failed -> not_ready create_all n) ->
  for_attempts create_all retries (failed ++ rest)
  = (flat_map (failed_round retries) failed
       ++ fst (for_attempts create_all retries rest),
     snd (for_attempts create_all retries rest)).
Proof.
  induction failed as [|a failed IH]; intros H.
  - simpl. now destruct (for_attempts create_all retries rest).
  - cbn [app for_attempts].
    destruct (H a (or_introl eq_refl)) as [msg ->].
    cbn [is_OperationalError].
    rewrite IH by (intros n Hn; apply H; now right).
    reflexivity.
Qed.

Lemma for_attempts_bounds create_all retries attempts :
  (calls (fst (for_attempts create_all retries attempts))
   <= length attempts)%nat
  /\ (0 <= slept (fst (for_attempts create_all retries attempts))
       <= 3 * Z.of_nat (length attempts))%Z
  /\ (forall e, snd (for_attempts create_all retries attempts) = Py.Raise e ->
        is_OperationalError e = false).
Proof.
  induction attempts as [|a attempts (IHc & IHs & IHr)].
  - simpl. repeat split; try lia. discriminate.
  - cbn [for_attempts].
    destruct (create_all a) as [[]|e] eqn:E.
    + cbn [fst snd calls slept length]. repeat split; try lia. discriminate.
    + destruct (is_OperationalError e) eqn:Eo.
      * destruct (for_attempts create_all retries attempts) as [trace r].
        cbn [fst snd calls slept length] in *.
        repeat split; try lia. exact IHr.
      * cbn [fst snd calls slept length]. repeat split; try lia.
        intros e' [= <-]. exact Eo.
Qed.

(** X14. When the store becomes ready at attempt [k], one of the five,
    [init_db] has called [create_all] [k + 1] times, has slept 3 seconds
    after each of the [k] failures, reports the connection and returns. *)
Theorem init_db_connects (create_all : nat -> Py.result unit) (k : nat) :
  (k < 5)%nat ->
  (forall n, (n < k)%nat -> not_ready create_all n) ->
  create_all k = Py.Return tt ->
  init_db create_all
  = (flat_map (failed_round 5) (seq 0 k) ++ [CreateAll k; Print connected_msg],
     Py.Return tt)
  /\ calls (fst (init_db create_all)) = S k
  /\ slept (fst (init_db create_all)) = (3 * Z.of_nat k)%Z.
Proof.
  intros Hk Hfail Hok.
  assert (Hrun : init_db create_all
                 = (flat_map (failed_round 5) (seq 0 k)
                      ++ [CreateAll k; Print connected_msg], Py.Return tt)).
  { unfold init_db. cbv zeta.
    replace 5%nat with (k + S (5 - S k))%nat at 2 by lia.
    rewrite seq_app. cbn [seq Nat.add].
    rewrite for_attempts_not_ready
      by (intros n Hn; apply Hfail; apply in_seq in Hn; lia).
    cbn [for_attempts]. rewrite Hok. reflexivity. }
  rewrite Hrun. cbn [fst].
  rewrite calls_app, slept_app, calls_failed_rounds, slept_failed_rounds.
  rewrite length_seq. cbn [calls slept]. repeat split; lia.
Qed.

(** X15. When the store is not ready at any of the five attempts,
    [init_db] does not fail: it has called [create_all] five times, has
    slept 3 seconds after every attempt, the last one too, 15 seconds in
    all, reports that the store is not reachable and returns. *)
Theorem init_db_gives_up (create_all : nat -> Py.result unit) :
  (forall n, (n < 5)%nat -> not_ready create_all n) ->
  init_db create_all
  = (flat_map (failed_round 5) (seq 0 5) ++ [Print unreachable_msg],
     Py.Return tt)
  /\ calls (fst (init_db create_all)) = 5%nat
  /\ slept (fst (init_db create_all)) = 15%Z.
Proof.
  intros Hfail.
  assert (Hrun : init_db create_all
                 = (flat_map (failed_round 5) (seq 0 5)
                      ++ [Print unreachable_msg], Py.Return tt)).
  { unfold init_db. cbv zeta.
    rewrite <- (app_nil_r (seq 0 5)) at 1.
    rewrite for_attempts_not_ready
      by (intros n Hn; apply Hfail; apply in_seq in Hn; lia).
    reflexivity. }
  rewrite Hrun. cbn [fst].
  rewrite calls_app, slept_app, calls_failed_rounds, slept_failed_rounds.
  rewrite length_seq. cbn [calls slept]. repeat split; lia.
Qed.

(** X16. Whatever [create_all] does, [init_db] calls it at most five
    times and sleeps at most 15 seconds, and an [OperationalError] never
    leaves it: only an exception of another kind does. *)
Theorem init_db_bounded (create_all : nat -> Py.result unit) :
  (calls (fst (init_db create_all)) <= 5)%nat
  /\ (0 <= slept (fst (init_db create_all)) <= 15)%Z
  /\ (forall e, snd (init_db create_all) = Py.Raise e ->
        is_OperationalError e = false).
Proof.
  unfold init_db. cbv zeta.
  destruct (for_attempts_bounds create_all 5 (seq 0 5)) as (Hc & Hs & Hr).
  rewrite length_seq in Hc, Hs. repeat split; try lia. exact Hr.
Qed.

End Startup.

(* ===================================================================== *)
(** * database.py: the address of the store                               *)
(* ===================================================================== *)

Module Database.

(** [os.getenv(key, default)] on the environment [load_dotenv] left. *)
Definition getenv (environ : gmap string string) (key default : string)
    : string :=
  match environ !! key with
  | Some v => v
  | None => default
  end.

Definition DB_USER (environ : gmap string string) : string :=
  getenv environ "DB_USER" "postgres".
Definition DB_PASSWORD (environ : gmap string string) : string :=
  getenv environ "DB_PASSWORD" "genworx".
Definition DB_HOST (environ : gmap string string) : string :=
  getenv environ "DB_HOST" "postgres-service".
Definition DB_PORT (environ : gmap string string) : string :=
  getenv environ "DB_PORT" "5432".
Definition DB_NAME (environ : gmap string string) : string :=
  getenv environ "DB_NAME" "ecommerce".

(** [urllib.parse.quote_plus], on the bytes of the text: letters, digits
    and [_.-~] stand for themselves, a space becomes [+], every other byte
    becomes [%] and its two upper-case hexadecimal digits. *)
Definition always_safe (c : ascii) : bool :=
  let n := nat_of_ascii c in
  ((65 <=? n) && (n <=? 90))%nat || ((97 <=? n) && (n <=? 122))%nat
  || ((48 <=? n) && (n <=? 57))%nat
  || (n =? 95)%nat || (n =? 46)%nat || (n =? 45)%nat || (n =? 126)%nat.

Definition hex_digit (n : nat) : ascii :=
  match n with
  | 0 => "0" | 1 => "1" | 2 => "2" | 3 => "3" | 4 => "4" | 5 => "5"
  | 6 => "6" | 7 => "7" | 8 => "8" | 9 => "9" | 10 => "A" | 11 => "B"
  | 12 => "C" | 13 => "D" | 14 => "E" | _ => "F"
  end%char%nat.

Definition quote_byte (c : ascii) : string :=
  if always_safe c then String c EmptyString
  else if Ascii.eqb c " " then "+"
  else String "%" (String (hex_digit (nat_of_ascii c / 16))
                     (String (hex_digit (nat_of_ascii c mod 16)) EmptyString)).

Fixpoint quote_plus (s : string) : string :=
  match s with
  | EmptyString => EmptyString
  | String c r => quote_byte c +:+ quote_plus r
  end.

Definition DB_PASSWORD_ENCODED (environ : gmap string string) : string :=
  quote_plus (DB_PASSWORD environ).

Definition DATABASE_URL (environ : gmap string string) : string :=
  "postgresql://" +:+ DB_USER environ +:+ ":" +:+ DB_PASSWORD_ENCODED environ
    +:+ "@" +:+ DB_HOST environ +:+ ":" +:+ DB_PORT environ
    +:+ "/" +:+ DB_NAME environ.

(** Every character of a text passes a test. *)
Fixpoint string_forall (p : ascii -> bool) (s : string) : bool :=
  match s with
  | EmptyString => true
  | String c r => p c && string_forall p r
  end.

(** The characters that separate the parts of the address. *)
Definition delimiter (c : ascii) : bool :=
  Ascii.eqb c ":" || Ascii.eqb c "@" || Ascii.eqb c "/"
  || Ascii.eqb c "?" || Ascii.eqb c "#" || Ascii.eqb c " ".

Lemma string_forall_app p s t :
  string_forall p (s +:+ t) = string_forall p s && string_forall p t.
Proof.
  induction s as [|c s IH]; simpl; [reflexivity|].
  now rewrite IH, andb_assoc.
Qed.

Lemma quote_byte_no_delimiter c :
  string_forall (fun c => negb (delimiter c)) (quote_byte c) = true.
Proof. destruct c as [[] [] [] [] [] [] [] []]; reflexivity. Qed.

Lemma quote_plus_no_delimiter s :
  string_forall (fun c => negb (delimiter c)) (quote_plus s) = true.
Proof.
  induction s as [|c s IH]; [reflexivity|].
  cbn [quote_plus]. now rewrite string_forall_app, quote_byte_no_delimiter, IH.
Qed.

(** The first byte of a quoted text and the rest of the text. *)
Definition hex_value (c : ascii) : nat :=
  let n := nat_of_ascii c in
  if (n <=? 57)%nat then (n - 48)%nat else (n - 55)%nat.

Definition unquote_head (s : string) : option (ascii * string) :=
  match s with
  | EmptyString => None
  | String "%" (String h (String l r)) =>
      Some (ascii_of_nat (16 * hex_value h + hex_value l), r)
  | String "+" r => Some (" "%char, r)
  | String c r => Some (c, r)
  end.

Lemma unquote_head_quote_byte c r :
  unquote_head (quote_byte c +:+ r) = Some (c, r).
Proof. destruct c as [[] [] [] [] [] [] [] []]; reflexivity. Qed.

Lemma quote_plus_inj s t : quote_plus s = quote_plus t -> s = t.
Proof.
  revert t. induction s as [|c s IH]; intros [|d t] H.
  - reflexivity.
  - apply (f_equal unquote_head) in H. cbn [quote_plus] in H.
    rewrite unquote_head_quote_byte in H. discriminate H.
  - apply (f_equal unquote_head) in H. cbn [quote_plus] in H.
    rewrite unquote_head_quote_byte in H. discriminate H.
  - apply (f_equal unquote_head) in H. cbn [quote_plus] in H.
    rewrite !unquote_head_quote_byte in H. injection H as -> H.
    f_equal. now apply IH.
Qed.

(** X17. Whatever the password is, it cannot change the shape of the
    address of the store: the text put between the user's [:] and the
    host's [@] is the quoted password, which holds none of the characters
    [: @ / ? #] nor a space, and which no other password gives. *)
Theorem password_is_quoted (environ : gmap string string) :
  DATABASE_URL environ
  = "postgresql://" +:+ DB_USER environ +:+ ":"
      +:+ quote_plus (DB_PASSWORD environ)
      +:+ "@" +:+ DB_HOST environ +:+ ":" +:+ DB_PORT environ
      +:+ "/" +:+ DB_NAME environ
  /\ string_forall (fun c => negb (delimiter c))
       (quote_plus (DB_PASSWORD environ)) = true
  /\ (forall environ',
        quote_plus (DB_PASSWORD environ') = quote_plus (DB_PASSWORD environ) ->
        DB_PASSWORD environ' = DB_PASSWORD environ).
Proof.
  split; [reflexivity|]. split; [apply quote_plus_no_delimiter|].
  intros environ'. apply quote_plus_inj.
Qed.

End Database.

(* ===================================================================== *)
(** * The service on concrete requests                                    *)
(* ===================================================================== *)

(** Sample Unicode tables, used to run the service on concrete requests:
    they know the Arabic-Indic digits and the no-break space, and take
    every other character beyond ASCII for neither a digit nor white
    space. *)
#[global] Instance sample_unicode : Py.UnicodeData := fun bytes =>
  match bytes with
  | String a (String b EmptyString) =>
      let a := nat_of_ascii a in
      let b := nat_of_ascii b in
      if ((a =? 217) && (160 <=? b) && (b <=? 169))%nat then Py.UDigit (b - 160)
      else if ((a =? 194) && (b =? 160))%nat then Py.USpace
      else Py.UOther
  | _ => Py.UOther
  end.

Module Scenario.

(** A request environment at [seconds] after the epoch, store reachable. *)
Definition at_second (seconds : Z) : env :=
  {| utcnow := seconds * 1000000; salt := sample_salt; store_up := true |}.

Definition alice : UserCreate.t :=
  {| UserCreate.username := "alice";
     UserCreate.email := "alice@example.org";
     UserCreate.password := "secret123" |}.

Definition alice_login : UserLogin.t :=
  {| UserLogin.username := "alice"; UserLogin.password := "secret123" |}.

Definition bob : UserCreate.t :=
  {| UserCreate.username := "bob";
     UserCreate.email := "bob@example.org";
     UserCreate.password := "hunter2" |}.

Definition widget : ProductCreate.t :=
  {| ProductCreate.name := "widget";
     ProductCreate.description := "a widget";
     ProductCreate.price := {| Py.float_repr := "9.99"; Py.float_trunc := Py.Finite 9 |};
     ProductCreate.stock := 3 |}.

(** The store after [alice] registered, and after [bob] registered. *)
Definition store_alice : Session :=
  fst (handle sample_hs256 sample_bcrypt empty_store (at_second 1)
         (POST_register alice)).

Definition store_bob : Session :=
  fst (handle sample_hs256 sample_bcrypt empty_store (at_second 1)
         (POST_register bob)).

(** The row of [alice], as registered and with the role of an
    administrator. *)
Definition alice_row (role : string) : User.t :=
  {| User.id := 1;
     User.username := "alice";
     User.email := "alice@example.org";
     User.hashed_password := digest_of sample_bcrypt sample_salt "secret123";
     User.role := role;
     User.is_active := true;
     User.created_at := 1000000 |}.

(** The token [alice] gets by logging in at second 5. *)
Definition alice_token : token :=
  issued_token sample_hs256 1 "user" None 5000000.

(** A well-signed token whose subject is not a number. *)
Definition odd_payload : gmap string Py.value :=
  <["sub" := Py.VStr "abc"]> (<["role" := Py.VStr "user"]> ∅).

Definition signed (claims : gmap string Py.value) : token :=
  Compact {| jws_alg := ALGORITHM;
             jws_claims := claims;
             jws_signature := sample_hs256 SECRET_KEY ALGORITHM claims |}.

Definition odd_token : token := signed odd_payload.

(** Well-signed tokens: one whose [exp] is [null], one whose subject is the
    array [[1]]. *)
Definition null_exp_token : token :=
  signed (<["exp" := Py.VNone]>
            (<["sub" := Py.VStr "1"]> (<["role" := Py.VStr "user"]> ∅))).

Definition array_sub_token : token :=
  signed (<["sub" := Py.VJson "[1]"]> (<["role" := Py.VStr "user"]> ∅)).

(** A password with a NUL byte in it. *)
Definition nul_password : string := String "a" (String Ascii.zero "b").

End Scenario.

Import Scenario.

Example register_alice :
  handle sample_hs256 sample_bcrypt empty_store (at_second 1)
    (POST_register alice)
  = ({| users := [alice_row "user"]; products := []; connected := true |},
     {| status_code := 200;
        content := UserResponse.model_dump
                     (UserResponse.model_validate (alice_row "user")) |}).
Proof. vm_compute. reflexivity. Qed.

Example login_alice :
  login sample_hs256 sample_bcrypt alice_login store_alice 5000000
  = Py.Return {| access_token := alice_token;
                 token_type := "bearer";
                 user := alice_row "user" |}.
Proof. vm_compute. reflexivity. Qed.

Example alice_is_refused :
  snd (handle sample_hs256 sample_bcrypt store_alice (at_second 6)
         (POST_products (bearer alice_token) widget))
  = {| status_code := 403;
       content := BObject [("detail", BValue (Py.VStr "Admin access required"))] |}.
Proof. vm_compute. reflexivity. Qed.

Example int_reads_other_digits :
  Py.int (Py.VStr " ٤٢ ") = Py.Return 42%Z
  /\ Py.int (Py.VStr "4_2") = Py.Return 42%Z
  /\ Py.int (Py.VStr "四二")
     = Py.Raise (Py.ValueError "invalid literal for int() with base 10").
Proof. repeat split; vm_compute; reflexivity. Qed.

Example wrong_password_is_unconverted :
  login sample_hs256 sample_bcrypt
    {| UserLogin.username := "alice"; UserLogin.password := "wrong" |}
    store_alice 5000000
  = Py.Raise (Py.ValueError "Invalid credentials").
Proof. vm_compute. reflexivity. Qed.

(* ===================================================================== *)
(** * The theorems at concrete requests                                   *)
(* ===================================================================== *)

(** The token [alice] got as a user is presented after her row was given
    the role of an administrator: the claims still say [user], and the gate
    lets the request through. *)
Lemma stale_token_passes_admin_gate :
  exists r,
    login sample_hs256 sample_bcrypt alice_login store_alice 5000000
    = Py.Return r
    /\ verify_token sample_hs256 (bearer (access_token r)) 6000000
       = Py.Return (token_data_of 1 (Py.VStr "user"))
    /\ depends_require_admin sample_hs256 (bearer (access_token r))
         (set_role 1 "admin" store_alice) 6000000
       = Py.Return (alice_row "admin")
    /\ depends_require_admin sample_hs256 (bearer (access_token r))
         (set_role 1 "admin" store_alice) 6000000
       <> Py.Raise admin_required.
Proof.
  eexists. split; [apply login_alice|]. cbn [access_token].
  split; [vm_compute; reflexivity|].
  split; [vm_compute; reflexivity|].
  vm_compute. discriminate.
Qed.

Lemma admin_gate_reads_stored_role_witness :
  verify_token sample_hs256 (bearer alice_token) 6000000
  = Py.Return (token_data_of 1 (Py.VStr "user"))
  /\ connected (set_role 1 "admin" store_alice) = true
  /\ user_by_id (Py.dict_get (token_data_of 1 (Py.VStr "user")) "user_id")
       (set_role 1 "admin" store_alice) = Some (alice_row "admin")
  /\ get_current_user sample_hs256 (bearer alice_token)
       (set_role 1 "admin" store_alice) 6000000 = Py.Return (alice_row "admin")
  /\ depends_require_admin sample_hs256 (bearer alice_token)
       (set_role 1 "admin" store_alice) 6000000
     = if String.eqb (User.role (alice_row "admin")) UserRole.ADMIN
       then Py.Return (alice_row "admin")
       else Py.Raise admin_required.
Proof.
  split; [vm_compute; reflexivity|].
  split; [vm_compute; reflexivity|].
  split; [vm_compute; reflexivity|].
  apply (admin_gate_reads_stored_role sample_hs256 (bearer alice_token)
           (set_role 1 "admin" store_alice) 6000000
           (token_data_of 1 (Py.VStr "user")) (alice_row "admin"));
    vm_compute; reflexivity.
Defined.

Lemma missing_user_is_lookup_failed_witness :
  verify_token sample_hs256 (bearer alice_token) 6000000
  = Py.Return (token_data_of 1 (Py.VStr "user"))
  /\ connected empty_store = true
  /\ user_by_id (Py.dict_get (token_data_of 1 (Py.VStr "user")) "user_id")
       empty_store = None
  /\ get_current_user sample_hs256 (bearer alice_token) empty_store 6000000
     = Py.Raise user_lookup_failed
  /\ get_current_user sample_hs256 (bearer alice_token)
       (disconnected empty_store) 6000000
     = Py.Raise user_lookup_failed
  /\ user_lookup_failed <> user_not_found.
Proof.
  split; [vm_compute; reflexivity|].
  split; [vm_compute; reflexivity|].
  split; [vm_compute; reflexivity|].
  apply (missing_user_is_lookup_failed sample_hs256 (bearer alice_token)
           empty_store 6000000 (token_data_of 1 (Py.VStr "user")));
    vm_compute; reflexivity.
Defined.

(** [bob] registers twice: the second request is answered 500. *)
Lemma second_registration_is_a_server_error :
  register sample_bcrypt bob (get_db store_bob (at_second 2))
    (salt (at_second 2)) (utcnow (at_second 2))
  = Py.Raise (Py.ValueError "User already exists")
  /\ status_code (snd (handle sample_hs256 sample_bcrypt store_bob (at_second 2)
                        (POST_register bob))) = 500
  /\ client_error
       (status_code (snd (handle sample_hs256 sample_bcrypt store_bob
                            (at_second 2) (POST_register bob)))) = false.
Proof. repeat split; vm_compute; reflexivity. Qed.

Lemma duplicate_registration_unconverted_witness :
  store_up (at_second 2) = true
  /\ List.find (fun u => String.eqb (User.username u) (UserCreate.username bob))
       (users store_bob) <> None
  /\ fst (handle sample_hs256 sample_bcrypt store_bob (at_second 2)
            (POST_register bob)) = store_bob
  /\ status_code (snd (handle sample_hs256 sample_bcrypt store_bob (at_second 2)
                        (POST_register bob))) = 500.
Proof.
  split; [reflexivity|]. split; [vm_compute; discriminate|].
  refine (let H := duplicate_registration_unconverted sample_hs256 sample_bcrypt
                     bob store_bob (at_second 2)
                     (hd (alice_row "user") (users store_bob)) _ _ in
          conj (proj1 (proj2 H)) (proj1 (proj2 (proj2 H))));
    vm_compute; reflexivity.
Defined.

Lemma verify_token_taxonomy_witness :
  jwt_decode sample_hs256 odd_token SECRET_KEY [ALGORITHM] 0
  = Py.Return odd_payload
  /\ odd_payload !! "sub" = Some (Py.VStr "abc")
  /\ Py.int_of_str "abc" = None
  /\ verify_token sample_hs256 (bearer odd_token) 0 = Py.Raise invalid_subject
  /\ verify_token sample_hs256 (bearer (Malformed "not.a.token")) 0
     = Py.Raise invalid_token.
Proof.
  split; [vm_compute; reflexivity|].
  split; [vm_compute; reflexivity|].
  split; [vm_compute; reflexivity|].
  split.
  - refine (proj1 (proj2 (proj2 (proj2 (proj2 (proj2
              (verify_token_taxonomy sample_hs256 (bearer odd_token) 0))))))
              odd_payload "abc" _ _ _).
    + vm_compute; reflexivity.
    + vm_compute; reflexivity.
    + vm_compute; reflexivity.
  - refine (proj1 (verify_token_taxonomy sample_hs256
                     (bearer (Malformed "not.a.token")) 0) "not.a.token" _).
    reflexivity.
Defined.

(** Two well-signed tokens.  The [exp] of the first is [null]: [int] raises
    a [TypeError], no handler converts it, and the request is answered 500,
    not 401.  The subject of the second is an array, present and not an
    integer: it is rejected as "Invalid token", not as "Invalid token
    subject". *)
Lemma unreadable_claims_leave_the_taxonomy :
  verify_token sample_hs256 (bearer null_exp_token) 6000000
  = Py.Raise (Py.TypeError "int() argument must be a string or a number")
  /\ status_code (snd (handle sample_hs256 sample_bcrypt store_alice
                         (at_second 6)
                         (POST_products (bearer null_exp_token) widget)))
     = 500
  /\ verify_token sample_hs256 (bearer array_sub_token) 6000000
     = Py.Raise invalid_token
  /\ verify_token sample_hs256 (bearer array_sub_token) 6000000
     <> Py.Raise invalid_subject.
Proof.
  split; [vm_compute; reflexivity|].
  split; [vm_compute; reflexivity|].
  split; [vm_compute; reflexivity|].
  vm_compute. discriminate.
Qed.

(** A duration of zero is asked for: the claims expire thirty minutes
    later, not at the time of issuance. *)
Lemma zero_duration_gets_the_default :
  to_encode_of (login_data (Py.VInt 42) "user") (Some 0) 1000000 !! "exp"
  = Some (Py.VDatetime (1000000 + 30 * 60 * 1000000))
  /\ to_encode_of (login_data (Py.VInt 42) "user") (Some 0) 1000000 !! "exp"
     <> Some (Py.VDatetime (1000000 + 0)).
Proof. split; vm_compute; [reflexivity|discriminate]. Qed.

Lemma issued_claims_witness :
  login_data (Py.VInt 42) "user" !! "sub" = Some (Py.VInt 42)
  /\ Py.is_number (Py.VInt 42) = true
  /\ exists s,
       Py.str (Py.VInt 42) = Py.Return s
       /\ to_encode_of (login_data (Py.VInt 42) "user") (Some 60000000) 1000000
            !! "sub" = Some (Py.VStr s)
       /\ to_encode_of (login_data (Py.VInt 42) "user") (Some 60000000) 1000000
            !! "exp" = Some (Py.VDatetime (1000000 + lifetime (Some 60000000))).
Proof.
  split; [vm_compute; reflexivity|]. split; [reflexivity|].
  refine (match issued_claims sample_hs256 (login_data (Py.VInt 42) "user")
                  (Py.VInt 42) (Some 60000000) 1000000 _ _ with
          | ex_intro _ s (conj H1 (conj H2 (conj _ (conj H4 _)))) =>
              ex_intro _ s (conj H1 (conj H2 H4))
          end); vm_compute; reflexivity.
Defined.

(** A token issued with a duration of zero verifies at the time of
    issuance; a token issued at second 5 for one second still verifies at
    second 6 and until second 7. *)
Lemma token_outlives_its_duration :
  create_access_token sample_hs256 (login_data (Py.VInt 1) "user") (Some 0)
    5000000
  = Py.Return (issued_token sample_hs256 1 "user" (Some 0) 5000000)
  /\ verify_token sample_hs256
       (bearer (issued_token sample_hs256 1 "user" (Some 0) 5000000)) 5000000
     = Py.Return (token_data_of 1 (Py.VStr "user"))
  /\ create_access_token sample_hs256 (login_data (Py.VInt 1) "user")
       (Some 1000000) 5000000
     = Py.Return (issued_token sample_hs256 1 "user" (Some 1000000) 5000000)
  /\ verify_token sample_hs256
       (bearer (issued_token sample_hs256 1 "user" (Some 1000000) 5000000))
       (5000000 + 1000000)
     = Py.Return (token_data_of 1 (Py.VStr "user"))
  /\ verify_token sample_hs256
       (bearer (issued_token sample_hs256 1 "user" (Some 1000000) 5000000))
       6999999
     = Py.Return (token_data_of 1 (Py.VStr "user"))
  /\ verify_token sample_hs256
       (bearer (issued_token sample_hs256 1 "user" (Some 1000000) 5000000))
       7000000
     = Py.Raise invalid_token.
Proof. repeat split; vm_compute; reflexivity. Qed.

Lemma token_lifetime_witness :
  (5000000 <= 5500000 < 5000000 + lifetime (Some 1000000))%Z
  /\ (5000000 + lifetime (Some 1000000) + 1000000 <= 7000000)%Z
  /\ verify_token sample_hs256
       (bearer (issued_token sample_hs256 1 "user" (Some 1000000) 5000000))
       5500000
     = Py.Return (token_data_of 1 (Py.VStr "user"))
  /\ verify_token sample_hs256
       (bearer (issued_token sample_hs256 1 "user" (Some 1000000) 5000000))
       7000000
     = Py.Raise invalid_token.
Proof.
  split; [vm_compute; split; [discriminate|reflexivity]|].
  split; [vm_compute; discriminate|].
  split.
  - refine (proj1 (proj2 (proj2 (proj2
              (token_lifetime sample_hs256 1 "user" (Some 1000000)
                 5000000 5500000)))) _).
    vm_compute. split; [discriminate|reflexivity].
  - refine (proj1 (proj2 (proj2 (proj2 (proj2
              (token_lifetime sample_hs256 1 "user" (Some 1000000)
                 5000000 7000000))))) _).
    vm_compute. discriminate.
Defined.

(** A stored digest that is no bcrypt digest: verification raises. *)
Lemma malformed_digest_raises :
  verify_password sample_bcrypt "secret123" "not-a-digest"
  = Py.Raise (Py.UnknownHashError "hash could not be identified")
  /\ (forall b : bool,
        verify_password sample_bcrypt "secret123" "not-a-digest"
        <> Py.Return b).
Proof. split; [vm_compute; reflexivity|intros b; vm_compute; discriminate]. Qed.

(** A password with a NUL byte: hashing raises, and so does verifying it
    against the digest of another password. *)
Lemma nul_password_has_no_digest :
  get_password_hash sample_bcrypt sample_salt nul_password
  = Py.Raise (Py.ValueError "bcrypt does not allow NULL bytes in password")
  /\ (forall h,
        get_password_hash sample_bcrypt sample_salt nul_password
        <> Py.Return h)
  /\ verify_password sample_bcrypt nul_password
       (digest_of sample_bcrypt sample_salt "secret123")
     = Py.Raise (Py.ValueError "bcrypt does not allow NULL bytes in password").
Proof.
  split; [vm_compute; reflexivity|].
  split; [intros h; vm_compute; discriminate|].
  vm_compute; reflexivity.
Qed.

Lemma password_hash_never_returned_witness :
  register sample_bcrypt alice (get_db empty_store (at_second 1))
    (salt (at_second 1)) (utcnow (at_second 1))
  = Py.Return (store_alice, alice_row "user")
  /\ field_names (content (snd (handle sample_hs256 sample_bcrypt empty_store
                                 (at_second 1) (POST_register alice))))
     = user_fields
  /\ login sample_hs256 sample_bcrypt alice_login
       (get_db store_alice (at_second 5)) (utcnow (at_second 5))
     = Py.Return {| access_token := alice_token;
                    token_type := "bearer";
                    user := alice_row "user" |}
  /\ field_names (content (snd (handle sample_hs256 sample_bcrypt store_alice
                                 (at_second 5) (POST_login alice_login))))
     = "access_token" :: "token_type" :: "user" :: user_fields.
Proof.
  split; [vm_compute; reflexivity|].
  split.
  - refine (proj2 (proj1 (proj2
              (password_hash_never_returned sample_hs256 sample_bcrypt
                 empty_store (at_second 1))) alice store_alice
              (alice_row "user") _)).
    vm_compute; reflexivity.
  - split; [vm_compute; reflexivity|].
    refine (proj2 (proj1 (proj2 (proj2
              (password_hash_never_returned sample_hs256 sample_bcrypt
                 store_alice (at_second 5)))) alice_login
              {| access_token := alice_token;
                 token_type := "bearer";
                 user := alice_row "user" |} _)).
    vm_compute; reflexivity.
Defined.

Lemma public_flow_never_admin_witness :
  Forall plain_user (users empty_store)
  /\ fst (serve sample_hs256 sample_bcrypt empty_store
            [(at_second 1, POST_register alice)]) = store_alice
  /\ login sample_hs256 sample_bcrypt alice_login
       (get_db store_alice (at_second 5)) (utcnow (at_second 5))
     = Py.Return {| access_token := alice_token;
                    token_type := "bearer";
                    user := alice_row "user" |}
  /\ store_up (at_second 6) = true
  /\ (timegm (utcnow (at_second 6))
      <= timegm (utcnow (at_second 5) + lifetime None))%Z
  /\ create_product sample_hs256 widget (bearer alice_token)
       (get_db store_alice (at_second 6)) (utcnow (at_second 6))
     = Py.Raise admin_required.
Proof.
  split; [simpl; constructor|].
  split; [vm_compute; reflexivity|].
  split; [vm_compute; reflexivity|].
  split; [reflexivity|].
  split; [vm_compute; discriminate|].
  refine (proj2 (proj2 (proj2 (proj2
            (public_flow_never_admin sample_hs256 sample_bcrypt empty_store
               [(at_second 1, POST_register alice)] _)))) alice_login
            (at_second 5)
            {| access_token := alice_token;
               token_type := "bearer";
               user := alice_row "user" |} widget (at_second 6) _ _ _).
  - simpl; constructor.
  - vm_compute; reflexivity.
  - reflexivity.
  - vm_compute; discriminate.
Defined.

(* ===================================================================== *)
(** * The further properties at concrete requests                         *)
(* ===================================================================== *)

Module Scenario2.

(** A newcomer with a free username and the email of [alice]. *)
Definition carol : UserCreate.t :=
  {| UserCreate.username := "carol";
     UserCreate.email := "alice@example.org";
     UserCreate.password := "pa55" |}.

Definition alice_wrong : UserLogin.t :=
  {| UserLogin.username := "alice"; UserLogin.password := "wrong" |}.

(** The store in which [alice] was made an administrator. *)
Definition admin_store : Session := set_role 1 "admin" store_alice.

Definition widget_row : Product.t :=
  {| Product.id := 1;
     Product.name := "widget";
     Product.description := "a widget";
     Product.price := {| Py.float_repr := "9.99"; Py.float_trunc := Py.Finite 9 |};
     Product.stock := 3;
     Product.created_at := 6000000;
     Product.updated_at := 6000000 |}.

Definition widget_store : Session :=
  {| users := users admin_store;
     products := [widget_row];
     connected := true |}.

(** Data without a subject, and the token issued for them at second 5. *)
Definition anonymous_data : gmap string Py.value :=
  <["role" := Py.VStr "user"]> ∅.

Definition anonymous_token : token :=
  Compact {| jws_alg := ALGORITHM;
             jws_claims := encoded_claims (to_encode_of anonymous_data None 5000000);
             jws_signature :=
               sample_hs256 SECRET_KEY ALGORITHM
                 (encoded_claims (to_encode_of anonymous_data None 5000000)) |}.

(** Data without a subject whose [iat] is [None], and the token issued
    for them at second 5. *)
Definition undated_data : gmap string Py.value :=
  <["iat" := Py.VNone]> anonymous_data.

Definition undated_token : token :=
  signed (encoded_claims (to_encode_of undated_data None 5000000)).

(** A product whose price is not a number, and its row. *)
Definition nan_widget : ProductCreate.t :=
  {| ProductCreate.name := "widget";
     ProductCreate.description := "a widget";
     ProductCreate.price := {| Py.float_repr := "nan"; Py.float_trunc := Py.NaN |};
     ProductCreate.stock := 3 |}.

Definition nan_widget_row : Product.t :=
  {| Product.id := 1;
     Product.name := "widget";
     Product.description := "a widget";
     Product.price := {| Py.float_repr := "nan"; Py.float_trunc := Py.NaN |};
     Product.stock := 3;
     Product.created_at := 6000000;
     Product.updated_at := 6000000 |}.

Definition nan_widget_store : Session :=
  {| users := users admin_store;
     products := [nan_widget_row];
     connected := true |}.

(** A store that answers from the third attempt on, and one that never
    does. *)
Definition ready_at_third (n : nat) : Py.result unit :=
  if (n <? 2)%nat then Py.Raise (Py.OperationalError "connection refused")
  else Py.Return tt.

Definition never_ready (n : nat) : Py.result unit :=
  Py.Raise (Py.OperationalError "connection refused").

End Scenario2.

Import Scenario2.

Lemma registered_user_can_login_witness :
  register sample_bcrypt alice (get_db empty_store (at_second 1)) sample_salt
    1000000 = Py.Return (store_alice, alice_row "user")
  /\ String.length sample_salt = 22%nat
  /\ login sample_hs256 sample_bcrypt alice_login store_alice 5000000
     = Py.Return {| access_token :=
                      issued_token sample_hs256 1 UserRole.USER None 5000000;
                    token_type := "bearer";
                    user := alice_row "user" |}.
Proof.
  split; [vm_compute; reflexivity|]. split; [reflexivity|].
  apply (registered_user_can_login sample_hs256 sample_bcrypt alice
           (get_db empty_store (at_second 1)) store_alice sample_salt
           1000000 5000000 (alice_row "user"));
    [vm_compute; reflexivity|reflexivity].
Defined.

Lemma duplicate_email_is_integrity_error_witness :
  store_up (at_second 2) = true
  /\ In (alice_row "user") (users store_alice)
  /\ User.email (alice_row "user") = UserCreate.email carol
  /\ register sample_bcrypt carol (get_db store_alice (at_second 2))
       (salt (at_second 2)) (utcnow (at_second 2)) = Py.Raise duplicate_key
  /\ fst (handle sample_hs256 sample_bcrypt store_alice (at_second 2)
            (POST_register carol)) = store_alice
  /\ status_code (snd (handle sample_hs256 sample_bcrypt store_alice
                         (at_second 2) (POST_register carol))) = 500.
Proof.
  split; [reflexivity|]. split; [vm_compute; auto|]. split; [reflexivity|].
  apply (duplicate_email_is_integrity_error sample_hs256 sample_bcrypt carol
           store_alice (at_second 2) (alice_row "user"));
    [reflexivity|vm_compute; reflexivity|vm_compute; auto|reflexivity].
Defined.

Lemma login_failures_alike_witness :
  connected store_alice = true
  /\ login sample_hs256 sample_bcrypt
       {| UserLogin.username := "nobody"; UserLogin.password := "secret123" |}
       store_alice 5000000 = Py.Raise invalid_credentials
  /\ login sample_hs256 sample_bcrypt alice_wrong store_alice 5000000
     = Py.Raise invalid_credentials.
Proof.
  split; [vm_compute; reflexivity|]. split.
  - refine (proj1 (login_failures_alike sample_hs256 sample_bcrypt
                     {| UserLogin.username := "nobody";
                        UserLogin.password := "secret123" |}
                     store_alice 5000000 _) _);
      vm_compute; reflexivity.
  - refine (proj2 (login_failures_alike sample_hs256 sample_bcrypt alice_wrong
                     store_alice 5000000 _)
              (alice_row "user")
              {| bh_ident := "$2b$"; bh_rounds := 12;
                 bh_salt := hash_salt sample_salt;
                 bh_checksum :=
                   Some (bcrypt_checksum sample_bcrypt "$2b$" 12
                           (hash_salt sample_salt) "secret123") |}
              (bcrypt_checksum sample_bcrypt "$2b$" 12
                 (hash_salt sample_salt) "secret123") _ _ _ _ _).
    + vm_compute; reflexivity.
    + vm_compute; reflexivity.
    + vm_compute; reflexivity.
    + reflexivity.
    + vm_compute; reflexivity.
    + vm_compute; discriminate.
Defined.

Lemma serve_unique_keys_witness :
  unique_keys empty_store
  /\ unique_keys
       (fst (serve sample_hs256 sample_bcrypt empty_store
               [(at_second 1, POST_register alice);
                (at_second 2, POST_register bob);
                (at_second 3, POST_register carol)])).
Proof.
  assert (H0 : unique_keys empty_store)
    by (repeat split; simpl; constructor).
  split; [exact H0|].
  apply (serve_unique_keys sample_hs256 sample_bcrypt empty_store _ H0).
Defined.

Lemma login_token_resolves_witness :
  List.NoDup (map User.id (users store_alice))
  /\ login sample_hs256 sample_bcrypt alice_login store_alice 5000000
     = Py.Return {| access_token := alice_token;
                    token_type := "bearer";
                    user := alice_row "user" |}
  /\ (timegm 6000000 <= timegm (5000000 + lifetime None))%Z
  /\ get_current_user sample_hs256 (bearer alice_token) store_alice 6000000
     = Py.Return (alice_row "user").
Proof.
  assert (Hnd : List.NoDup (map User.id (users store_alice))).
  { vm_compute. constructor; [intros []|constructor]. }
  split; [exact Hnd|]. split; [vm_compute; reflexivity|].
  split; [vm_compute; discriminate|].
  apply (login_token_resolves sample_hs256 sample_bcrypt alice_login
           store_alice 5000000 6000000
           {| access_token := alice_token;
              token_type := "bearer";
              user := alice_row "user" |} Hnd);
    [vm_compute; reflexivity|vm_compute; discriminate].
Defined.

Lemma verify_token_sound_witness :
  verify_token sample_hs256 (bearer alice_token) 6000000
  = Py.Return (token_data_of 1 (Py.VStr "user"))
  /\ exists j s n,
       alice_token = Compact j
       /\ jws_alg j = ALGORITHM
       /\ jws_signature j = sample_hs256 SECRET_KEY ALGORITHM (jws_claims j)
       /\ not_expired (jws_claims j) 6000000
       /\ jws_claims j !! "sub" = Some (Py.VStr s)
       /\ Py.int_of_str s = Some n
       /\ token_data_of 1 (Py.VStr "user")
          = token_data_of n (Py.dict_get (jws_claims j) "role").
Proof.
  split; [vm_compute; reflexivity|].
  apply (verify_token_sound sample_hs256 (bearer alice_token) 6000000
           (token_data_of 1 (Py.VStr "user"))).
  vm_compute; reflexivity.
Defined.

Lemma admin_gate_sound_witness :
  depends_require_admin sample_hs256 (bearer alice_token) admin_store 6000000
  = Py.Return (alice_row "admin")
  /\ connected admin_store = true
  /\ In (alice_row "admin") (users admin_store)
  /\ User.role (alice_row "admin") = UserRole.ADMIN.
Proof.
  assert (H : depends_require_admin sample_hs256 (bearer alice_token)
                admin_store 6000000 = Py.Return (alice_row "admin"))
    by (vm_compute; reflexivity).
  split; [exact H|].
  pose proof (admin_gate_sound sample_hs256 (bearer alice_token) admin_store
                6000000 (alice_row "admin") H) as (Hc & Hin & Hr & _).
  auto.
Defined.

Lemma created_product_is_read_back_witness :
  create_product sample_hs256 widget (bearer alice_token) admin_store 6000000
  = Py.Return (widget_store, widget_row)
  /\ get_product (Product.id widget_row) widget_store = Py.Return widget_row
  /\ list_products widget_store = Py.Return (products admin_store ++ [widget_row])%list.
Proof.
  assert (H : create_product sample_hs256 widget (bearer alice_token)
                admin_store 6000000 = Py.Return (widget_store, widget_row))
    by (vm_compute; reflexivity).
  split; [exact H|].
  pose proof (created_product_is_read_back sample_hs256 widget
                (bearer alice_token) admin_store widget_store 6000000
                widget_row H) as (Hg & Hl & _).
  auto.
Defined.

Lemma missing_product_is_a_server_error_witness :
  store_up (at_second 6) = true
  /\ (forall q, In q (products store_alice) -> Product.id q <> 7%Z)
  /\ get_product 7 (get_db store_alice (at_second 6))
     = Py.Raise product_not_found.
Proof.
  split; [reflexivity|]. split; [intros q []|].
  refine (proj1 (missing_product_is_a_server_error sample_hs256 sample_bcrypt
                   7 store_alice (at_second 6) _ _));
    [reflexivity|intros q []].
Defined.

Lemma http_exceptions_of_the_handlers_witness :
  create_product sample_hs256 widget (bearer alice_token) store_alice 6000000
  = Py.Raise admin_required
  /\ ((exists detail, admin_required = Py.HTTPException 401 detail)
      \/ admin_required = admin_required
      \/ Py.is_HTTPException admin_required = false)
  /\ login sample_hs256 sample_bcrypt alice_wrong store_alice 6000000
     = Py.Raise invalid_credentials
  /\ Py.is_HTTPException invalid_credentials = false.
Proof.
  assert (Hc : create_product sample_hs256 widget (bearer alice_token)
                 store_alice 6000000 = Py.Raise admin_required)
    by (vm_compute; reflexivity).
  assert (Hl : login sample_hs256 sample_bcrypt alice_wrong store_alice 6000000
               = Py.Raise invalid_credentials)
    by (vm_compute; reflexivity).
  pose proof (http_exceptions_of_the_handlers sample_hs256 sample_bcrypt
                store_alice 6000000) as (_ & Hlogin & _ & _ & Hcreate).
  split; [exact Hc|].
  split; [exact (Hcreate widget (bearer alice_token) admin_required Hc)|].
  split; [exact Hl|].
  exact (Hlogin alice_wrong invalid_credentials Hl).
Defined.

(** An administrator creates a product whose price is not a number: the
    request is answered 500 and the row is stored. *)
Lemma product_is_stored_before_rendering_witness :
  create_product sample_hs256 nan_widget (bearer alice_token)
    (get_db admin_store (at_second 6)) (utcnow (at_second 6))
  = Py.Return (nan_widget_store, nan_widget_row)
  /\ handle sample_hs256 sample_bcrypt admin_store (at_second 6)
       (POST_products (bearer alice_token) nan_widget)
     = (nan_widget_store, internal_server_error)
  /\ products nan_widget_store = (products admin_store ++ [nan_widget_row])%list.
Proof.
  assert (H : create_product sample_hs256 nan_widget (bearer alice_token)
                (get_db admin_store (at_second 6)) (utcnow (at_second 6))
              = Py.Return (nan_widget_store, nan_widget_row))
    by (vm_compute; reflexivity).
  split; [exact H|].
  pose proof (product_is_stored_before_rendering sample_hs256 sample_bcrypt
                nan_widget (bearer alice_token) admin_store nan_widget_store
                (at_second 6) nan_widget_row H) as (Hh & Hp & _).
  split; [exact Hh|exact Hp].
Defined.

Lemma token_without_subject_never_verifies_witness :
  no_subject anonymous_data
  /\ create_access_token sample_hs256 anonymous_data None 5000000
     = Py.Return anonymous_token
  /\ anonymous_data !! "iat" = None
  /\ anonymous_data !! "nbf" = None
  /\ verify_token sample_hs256 (bearer anonymous_token) 6000000
     = Py.Raise invalid_token.
Proof.
  assert (Hns : no_subject anonymous_data) by (left; vm_compute; reflexivity).
  split; [exact Hns|]. split; [vm_compute; reflexivity|].
  split; [vm_compute; reflexivity|]. split; [vm_compute; reflexivity|].
  refine (proj2 (token_without_subject_never_verifies sample_hs256
                   anonymous_data None 5000000 6000000 anonymous_token Hns _)
            _ _); vm_compute; reflexivity.
Defined.

(** Data without a subject whose [iat] is [None]: the token issued for them
    makes [verify_token] raise a [TypeError], not "Invalid token". *)
Example undated_token_is_unconverted :
  no_subject undated_data
  /\ create_access_token sample_hs256 undated_data None 5000000
     = Py.Return undated_token
  /\ verify_token sample_hs256 (bearer undated_token) 6000000
     = Py.Raise (Py.TypeError "int() argument must be a string or a number").
Proof.
  split; [left; vm_compute; reflexivity|].
  split; vm_compute; reflexivity.
Qed.

Lemma init_db_connects_witness :
  (2 < 5)%nat
  /\ (forall n, (n < 2)%nat -> Startup.not_ready ready_at_third n)
  /\ ready_at_third 2 = Py.Return tt
  /\ Startup.calls (fst (Startup.init_db ready_at_third)) = 3%nat
  /\ Startup.slept (fst (Startup.init_db ready_at_third)) = 6%Z.
Proof.
  assert (Hf : forall n, (n < 2)%nat -> Startup.not_ready ready_at_third n).
  { intros n Hn. exists "connection refused". unfold ready_at_third.
    destruct (Nat.ltb_spec n 2); [reflexivity|lia]. }
  split; [lia|]. split; [exact Hf|]. split; [reflexivity|].
  pose proof (Startup.init_db_connects ready_at_third 2 ltac:(lia) Hf eq_refl)
    as (_ & Hc & Hs).
  split; [exact Hc|exact Hs].
Defined.

Lemma init_db_gives_up_witness :
  (forall n, (n < 5)%nat -> Startup.not_ready never_ready n)
  /\ snd (Startup.init_db never_ready) = Py.Return tt
  /\ Startup.calls (fst (Startup.init_db never_ready)) = 5%nat
  /\ Startup.slept (fst (Startup.init_db never_ready)) = 15%Z.
Proof.
  assert (Hf : forall n, (n < 5)%nat -> Startup.not_ready never_ready n)
    by (intros n _; exists "connection refused"; reflexivity).
  split; [exact Hf|].
  pose proof (Startup.init_db_gives_up never_ready Hf) as (Hrun & Hc & Hs).
  split; [now rewrite Hrun|]. split; [exact Hc|exact Hs].
Defined.
